(** * SST: signal analyzer and backtest simulator

    A shallow embedding of [lib/strategy.ts] ([analyzeStock]) and of the
    pyramiding-aware [lib/backtest.ts] ([runBacktest]), together with the
    portfolio-diary pass of the backtest API route.  The second half of the
    definitions covers the rest of the server side: the other functions of
    [lib/strategy.ts], the backtest route, the tables of [lib/db.ts], the
    smart fetch of [lib/data.ts], the provider of [lib/yahoo.ts], the
    scanner, portfolio and sync routes, and the first version of
    [runBacktest].

    Numbers.  A JavaScript [number] is an IEEE 754 double, and the file
    has two models of it.

    Exact rationals ([Q]) carry the properties that do not depend on how a
    result is rounded: those about inputs, dates, counts and lists, and
    those about an order that rounding preserves.  There every value is
    finite and arithmetic does not round; comparisons are the boolean tests
    of [Q]; [Math.floor] and [Math.ceil] are [Qfloor] and [Qceiling].
    Division by zero, an infinity or a NaN in the source, is 0 in [Q]:
    where a divisor vanishes the model says nothing about the source.

    Binary64 (the modules [Number] and [Double]) carries the properties of
    the sell check and of the entry check of [runBacktest], which turn on
    the comparison of a computed price or cost with a bar or with the cash:
    there every operation rounds as the engine does.

    [Math.pow] is implementation-approximated in ECMAScript and has no
    model here: the [cagr] field of a result is left out.

    Dates.  A candle's [date] is an ISO day string in the source; it is
    modelled by its day number, so that [new Date(d).getTime()] is
    [d * 86400000] milliseconds. *)

From Stdlib Require Import String List ZArith QArith Qround Qminmax Bool Lia Lqa.
From Stdlib Require Import Sorted Permutation.
From Stdlib Require Import SpecFloat.
Import ListNotations.
Open Scope Q_scope.

(** ** Numbers *)

(** [x >= y] *)
Definition Qgeb (x y : Q) : bool := Qle_bool y x.
(** [x <= y] *)
Definition Qleb (x y : Q) : bool := Qle_bool x y.
(** [x > y] *)
Definition Qgtb (x y : Q) : bool := negb (Qle_bool x y).
(** [x < y] *)
Definition Qltb (x y : Q) : bool := negb (Qle_bool y x).

Definition Math_floor (x : Q) : Q := inject_Z (Qfloor x).
Definition Math_ceil (x : Q) : Q := inject_Z (Qceiling x).

(** [Math.max(...xs)] and [Math.min(...xs)]; both are only ever applied to a
    20-bar window, the empty case is never reached. *)
Definition Math_max (xs : list Q) : Q :=
  match xs with
  | [] => 0
  | x :: t => fold_left Qmax t x
  end.

Definition Math_min (xs : list Q) : Q :=
  match xs with
  | [] => 0
  | x :: t => fold_left Qmin t x
  end.

(** [xs.slice(a, b)] for [0 <= a <= b]. *)
Definition slice {A : Type} (a b : nat) (xs : list A) : list A :=
  firstn (b - a) (skipn a xs).

(** [new Date(d).getTime()], in milliseconds. *)
Definition getTime (d : Z) : Q := inject_Z d * 86400000.

(** ** Data model ([lib/db.ts], [lib/backtest.ts]) *)

Record DailyCandle := mkCandle {
  c_symbol : string;
  c_date : Z;
  c_open : Q;
  c_high : Q;
  c_low : Q;
  c_close : Q;
  c_volume : Q
}.

(** Read of [candles[i]] at an index below [candles.length]. *)
Definition noCandle : DailyCandle := mkCandle EmptyString 0%Z 0 0 0 0 0.
Definition at_ (candles : list DailyCandle) (i : nat) : DailyCandle :=
  nth i candles noCandle.

Record BacktestTrade := mkTrade {
  t_symbol : string;
  t_buyDate : Z;
  t_buyPrice : Q;
  t_sellDate : Z;
  t_sellPrice : Q;
  t_buyNumber : Z;
  t_targetPercent : Q;
  t_profit : Q;
  t_profitPercent : Q;
  t_holdingDays : Q
}.

(** An entry of [internalOpenPositions]. *)
Record Position := mkPosition {
  p_buyDate : Z;
  p_buyPrice : Q;
  p_quantity : Q;
  p_buyNumber : Z;
  p_targetPercent : Q
}.

Record OpenPosition := mkOpenPosition {
  o_buyDate : Z;
  o_buyPrice : Q;
  o_quantity : Q;
  o_buyNumber : Z;
  o_targetPercent : Q;
  o_currentPrice : Q;
  o_currentValue : Q;
  o_pnl : Q;
  o_pnlPercent : Q
}.

Inductive ActivityType := BUY | SELL | SKIPPED.

Record TradeActivity := mkActivity {
  a_symbol : string;
  a_type : ActivityType;
  a_price : Q;
  a_quantity : Q;
  a_amount : Q;
  a_buyNumber : Z;
  a_profit : option Q;
  a_date : Z;
  a_holdingDays : option Q;
  a_purchaseDate : option Z
}.

Record DailyState := mkDailyState {
  d_date : Z;
  d_cash : Q;
  d_invested : Q;
  d_equity : Q;
  d_profit : Q;
  d_activities : list TradeActivity
}.

(** The [cagr] field, computed with [Math.pow], is left out. *)
Record BacktestResult := mkResult {
  r_symbol : string;
  r_startDate : Z;
  r_endDate : Z;
  r_initialCapital : Q;
  r_finalCapital : Q;
  r_totalTrades : nat;
  r_winningTrades : nat;
  r_losingTrades : nat;
  r_winRate : Q;
  r_totalProfit : Q;
  r_totalProfitPercent : Q;
  r_realizedProfit : Q;
  r_unrealizedProfit : Q;
  r_blockedCapital : Q;
  r_maxDrawdown : Q;
  r_trades : list BacktestTrade;
  r_openPositions : list OpenPosition;
  r_dailyLog : list DailyState
}.

Inductive ExitStrategy := WEIGHTED_AVERAGE | LIFO.

(** The variables of [runBacktest] that live across the day loop. *)
Record Sim := mkSim {
  cash : Q;
  isTracking : bool;
  currentBuyNumber : Z;
  internalOpenPositions : list Position;
  maxEquity : Q;
  maxDrawdown : Q;
  trades : list BacktestTrade;
  dailyLog : list DailyState
}.

(** What the sell check of one day accumulates: the trades pushed, the
    activities logged, the cash and the indices in [positionsToClose]. *)
Record Sells := mkSells {
  x_trades : list BacktestTrade;
  x_activities : list TradeActivity;
  x_cash : Q;
  x_positionsToClose : list nat
}.

(** [xs.forEach((x, idx) => ...)] and the indexed [for] loop, threading an
    accumulator; [idx] is the index of the head of [xs]. *)
Fixpoint forEachIdx {A S : Type} (f : S -> A -> nat -> S) (xs : list A)
  (idx : nat) (s : S) : S :=
  match xs with
  | [] => s
  | x :: t => forEachIdx f t (Datatypes.S idx) (f s x idx)
  end.

(** [xs.filter((_, idx) => keep(idx))] *)
Fixpoint filterIdx {A : Type} (keep : nat -> bool) (xs : list A) (idx : nat)
  : list A :=
  match xs with
  | [] => []
  | x :: t =>
      if keep idx then x :: filterIdx keep t (Datatypes.S idx)
      else filterIdx keep t (Datatypes.S idx)
  end.

(** [positionsToClose.includes(idx)] *)
Definition includes (xs : list nat) (idx : nat) : bool :=
  existsb (Nat.eqb idx) xs.

Definition twentyDayHighAt (candles : list DailyCandle) (i : nat) : Q :=
  Math_max (map c_high (slice (i - 20) i candles)).

Definition twentyDayLowAt (candles : list DailyCandle) (i : nat) : Q :=
  Math_min (map c_low (slice (i - 20) i candles)).

Definition holdingDaysOf (buyDate sellDate : Z) : Q :=
  Math_ceil ((getTime sellDate - getTime buyDate) / (1000 * 60 * 60 * 24)).

Definition totalQty (ps : list Position) : Q :=
  fold_left (fun sum p => sum + p_quantity p) ps 0.

Definition totalCost (ps : list Position) : Q :=
  fold_left (fun sum p => sum + p_quantity p * p_buyPrice p) ps 0.

Definition weightedAvgPrice (ps : list Position) : Q :=
  if Qgtb (totalQty ps) 0 then totalCost ps / totalQty ps else 0.

(** ** [runBacktest] *)

Section RunBacktest.

Variable symbol : string.
Variable candles : list DailyCandle.
Variable initialCapital : Q.
Variable perTradeAmount : option Q.
Variable exitStrategy : ExitStrategy.
Variable targetProfitPercent : Q.
Variable avgLevels : Q.

Definition tradeAmount : Q :=
  match perTradeAmount with
  | Some a => a
  | None => initialCapital / 50
  end.

(** The [BacktestTrade] pushed when [pos] is sold on [day] at [sellPrice]. *)
Definition closedTrade (day : DailyCandle) (sellPrice : Q) (pos : Position)
  : BacktestTrade :=
  let profit := (sellPrice - p_buyPrice pos) * p_quantity pos in
  let profitPercent := ((sellPrice - p_buyPrice pos) / p_buyPrice pos) * 100 in
  let holdingDays := holdingDaysOf (p_buyDate pos) (c_date day) in
  mkTrade symbol (p_buyDate pos) (p_buyPrice pos) (c_date day) sellPrice
    (p_buyNumber pos) (p_targetPercent pos) profit profitPercent holdingDays.

(** The SELL activity logged with it. *)
Definition sellActivity (day : DailyCandle) (sellPrice : Q) (pos : Position)
  : TradeActivity :=
  let profit := (sellPrice - p_buyPrice pos) * p_quantity pos in
  let holdingDays := holdingDaysOf (p_buyDate pos) (c_date day) in
  mkActivity symbol SELL sellPrice (p_quantity pos)
    (p_quantity pos * sellPrice) (p_buyNumber pos) (Some profit)
    (c_date day) (Some holdingDays) (Some (p_buyDate pos)).

(** The body shared by both sell branches: one closed trade, one SELL
    activity, the sale proceeds and the index of the position. *)
Definition sellPosition (day : DailyCandle) (sellPrice : Q)
  (acc : Sells) (pos : Position) (idx : nat) : Sells :=
  mkSells (x_trades acc ++ [closedTrade day sellPrice pos])
    (x_activities acc ++ [sellActivity day sellPrice pos])
    (x_cash acc + p_quantity pos * sellPrice)
    (x_positionsToClose acc ++ [idx]).

Definition aggregateTargetPrice (ps : list Position) : Q :=
  match ps with
  | [] => 0
  | first :: _ => weightedAvgPrice ps * (1 + p_targetPercent first / 100)
  end.

Definition targetPriceOf (pos : Position) : Q :=
  p_buyPrice pos * (1 + p_targetPercent pos / 100).

(** The LIFO / individual exit loop body. *)
Definition sellIfTarget (day : DailyCandle) (acc : Sells) (pos : Position)
  (j : nat) : Sells :=
  let targetPrice := targetPriceOf pos in
  if Qgeb (c_high day) targetPrice
  then sellPosition day targetPrice acc pos j
  else acc.

(** Step 2 of a day: check for sells. *)
Definition checkSells (day : DailyCandle) (s : Sim) : Sells :=
  let start := mkSells (trades s) [] (cash s) [] in
  let ps := internalOpenPositions s in
  match exitStrategy, ps with
  | WEIGHTED_AVERAGE, _ :: _ =>
      let sellPrice := aggregateTargetPrice ps in
      if Qgeb (c_high day) sellPrice
      then forEachIdx (sellPosition day sellPrice) ps 0%nat start
      else start
  | _, _ => forEachIdx (sellIfTarget day) ps 0%nat start
  end.

(** Removal of the closed positions and the reset of the buying
    sequence. *)
Definition afterSells (s : Sim) (x : Sells) : Sim :=
  let remaining :=
    filterIdx (fun idx => negb (includes (x_positionsToClose x) idx))
      (internalOpenPositions s) 0%nat in
  let reset :=
    (Nat.eqb (length remaining) 0) && (0 <? currentBuyNumber s)%Z in
  mkSim (x_cash x)
    (if reset then false else isTracking s)
    (if reset then 0%Z else currentBuyNumber s)
    remaining (maxEquity s) (maxDrawdown s) (x_trades x) (dailyLog s).

(** Step 3 of a day: check for entry signals.  Returns the state and the
    activities logged by this step. *)
Definition checkEntry (day : DailyCandle) (twentyDayHigh twentyDayLow : Q)
  (s : Sim) : Sim * list TradeActivity :=
  let tracking :=
    if Qleb (c_low day) twentyDayLow then true else isTracking s in
  if tracking && Qgtb (c_high day) twentyDayHigh then
    if Qltb (inject_Z (currentBuyNumber s)) avgLevels then
      let buyNumber := (currentBuyNumber s + 1)%Z in
      let targetPercent := targetProfitPercent in
      let buyPrice := twentyDayHigh in
      let quantity := Math_floor (tradeAmount / buyPrice) in
      if Qgtb quantity 0 && Qgeb (cash s) (quantity * buyPrice) then
        (mkSim (cash s - quantity * buyPrice) false buyNumber
           (internalOpenPositions s ++
              [mkPosition (c_date day) buyPrice quantity buyNumber targetPercent])
           (maxEquity s) (maxDrawdown s) (trades s) (dailyLog s),
         [mkActivity symbol BUY buyPrice quantity (quantity * buyPrice)
            buyNumber None (c_date day) None None])
      else if Qgtb quantity 0 && Qltb (cash s) (quantity * buyPrice) then
        (mkSim (cash s) false buyNumber (internalOpenPositions s)
           (maxEquity s) (maxDrawdown s) (trades s) (dailyLog s),
         [mkActivity symbol SKIPPED buyPrice 0 0 buyNumber None (c_date day)
            None None])
      else
        (mkSim (cash s) false buyNumber (internalOpenPositions s)
           (maxEquity s) (maxDrawdown s) (trades s) (dailyLog s), [])
    else
      (mkSim (cash s) false (currentBuyNumber s) (internalOpenPositions s)
         (maxEquity s) (maxDrawdown s) (trades s) (dailyLog s), [])
  else
    (mkSim (cash s) tracking (currentBuyNumber s) (internalOpenPositions s)
       (maxEquity s) (maxDrawdown s) (trades s) (dailyLog s), []).

Definition investedAt (day : DailyCandle) (ps : list Position) : Q :=
  fold_left (fun invested pos => invested + p_quantity pos * c_close day) ps 0.

(** Step 4 of a day: end-of-day accounting and the ledger entry. *)
Definition endOfDay (day : DailyCandle) (activitiesToday : list TradeActivity)
  (s : Sim) : Sim :=
  let invested := investedAt day (internalOpenPositions s) in
  let currentEquity := cash s + invested in
  let maxEquity' :=
    if Qgtb currentEquity (maxEquity s) then currentEquity else maxEquity s in
  let drawdown := ((maxEquity' - currentEquity) / maxEquity') * 100 in
  let maxDrawdown' :=
    if Qgtb drawdown (maxDrawdown s) then drawdown else maxDrawdown s in
  mkSim (cash s) (isTracking s) (currentBuyNumber s) (internalOpenPositions s)
    maxEquity' maxDrawdown' (trades s)
    (dailyLog s ++
       [mkDailyState (c_date day) (cash s) invested currentEquity 0
          activitiesToday]).

(** One iteration of the day loop, at index [i]. *)
Definition processDay (s : Sim) (i : nat) : Sim :=
  let day := at_ candles i in
  let twentyDayHigh := twentyDayHighAt candles i in
  let twentyDayLow := twentyDayLowAt candles i in
  let x := checkSells day s in
  let s1 := afterSells s x in
  let '(s2, entryActivities) := checkEntry day twentyDayHigh twentyDayLow s1 in
  endOfDay day (x_activities x ++ entryActivities) s2.

Definition initialSim : Sim :=
  mkSim initialCapital false 0%Z [] initialCapital 0 [] [].

(** The state after the iterations [i = 20 .. 20 + n - 1]. *)
Definition simAfter (n : nat) : Sim :=
  fold_left processDay (seq 20 n) initialSim.

Definition toOpenPosition (lastPrice : Q) (pos : Position) : OpenPosition :=
  let currentValue := p_quantity pos * lastPrice in
  let costBasis := p_quantity pos * p_buyPrice pos in
  let pnl := currentValue - costBasis in
  let pnlPercent := (pnl / costBasis) * 100 in
  mkOpenPosition (p_buyDate pos) (p_buyPrice pos) (p_quantity pos)
    (p_buyNumber pos) (p_targetPercent pos) lastPrice currentValue pnl
    pnlPercent.

Definition finalize (s : Sim) : BacktestResult :=
  let lastPrice := c_close (at_ candles (length candles - 1)) in
  let realizedProfit := fold_left (fun sum t => sum + t_profit t) (trades s) 0 in
  let openPositions := map (toOpenPosition lastPrice) (internalOpenPositions s) in
  let unrealizedProfit := fold_left (fun sum p => sum + o_pnl p) openPositions 0 in
  let blockedCapital :=
    fold_left (fun sum p => sum + o_quantity p * o_buyPrice p) openPositions 0 in
  let closingPositionValue :=
    fold_left (fun sum p => sum + o_currentValue p) openPositions 0 in
  let finalCapital := cash s + closingPositionValue in
  let totalProfit := finalCapital - initialCapital in
  let totalProfitPercent := (totalProfit / initialCapital) * 100 in
  let winningTrades :=
    length (filter (fun t => Qgtb (t_profit t) 0) (trades s)) in
  let losingTrades :=
    length (filter (fun t => Qleb (t_profit t) 0) (trades s)) in
  mkResult symbol (c_date (at_ candles 20))
    (c_date (at_ candles (length candles - 1)))
    initialCapital finalCapital (length (trades s)) winningTrades losingTrades
    (if (0 <? length (trades s))%nat
     then (inject_Z (Z.of_nat winningTrades)
           / inject_Z (Z.of_nat (length (trades s)))) * 100
     else 0)
    totalProfit totalProfitPercent realizedProfit unrealizedProfit
    blockedCapital (maxDrawdown s) (trades s) openPositions (dailyLog s).

Definition runBacktest : option BacktestResult :=
  if (length candles <? 21)%nat then None
  else Some (finalize (simAfter (length candles - 20))).

End RunBacktest.

(** ** [analyzeStock] ([lib/strategy.ts]) *)

Inductive SSTStatus := NEUTRAL | TRACKING | BUY_TRIGGERED.

Record SSTAnalysis := mkAnalysis {
  s_symbol : string;
  s_status : SSTStatus;
  s_currentPrice : Q;
  s_twentyDayHigh : Q;
  s_twentyDayLow : Q;
  s_triggerDate : option Z;
  s_buyTriggerDate : option Z;
  s_distanceToTrigger : Q
}.

(** The variables of [analyzeStock] that live across the scan loop. *)
Record Scan := mkScan {
  scanTracking : bool;
  scanStatus : SSTStatus;
  scanTriggerDate : option Z;
  scanBuyTriggerDate : option Z
}.

(** One iteration of the scan loop, at index [i]. *)
Definition scanDay (candles : list DailyCandle) (s : Scan) (i : nat) : Scan :=
  let day := at_ candles i in
  let dayTwentyDayHigh := twentyDayHighAt candles i in
  let dayTwentyDayLow := twentyDayLowAt candles i in
  if negb (scanTracking s) then
    if Qleb (c_low day) dayTwentyDayLow
    then mkScan true TRACKING (Some (c_date day)) (scanBuyTriggerDate s)
    else s
  else
    let s1 :=
      if Qgtb (c_high day) dayTwentyDayHigh
      then mkScan false BUY_TRIGGERED (scanTriggerDate s) (Some (c_date day))
      else s in
    if Qleb (c_low day) dayTwentyDayLow
    then mkScan (scanTracking s1) TRACKING (Some (c_date day))
           (scanBuyTriggerDate s1)
    else s1.

Definition initialScan : Scan := mkScan false NEUTRAL None None.

(** The scan state after the iterations [i = 20 .. 20 + n - 1]. *)
Definition scanAfter (candles : list DailyCandle) (n : nat) : Scan :=
  fold_left (scanDay candles) (seq 20 n) initialScan.

Definition analyzeStock (symbol : string) (candles : list DailyCandle)
  : option SSTAnalysis :=
  if (length candles <? 21)%nat then None
  else
    let latest := at_ candles (length candles - 1) in
    let lookbackCandles :=
      slice (length candles - 21) (length candles - 1) candles in
    let twentyDayHigh := Math_max (map c_high lookbackCandles) in
    let twentyDayLow := Math_min (map c_low lookbackCandles) in
    let currentPrice := c_close latest in
    let distanceToTrigger :=
      ((twentyDayHigh - currentPrice) / currentPrice) * 100 in
    let s := scanAfter candles (length candles - 20) in
    Some (mkAnalysis symbol (scanStatus s) currentPrice twentyDayHigh
            twentyDayLow (scanTriggerDate s) (scanBuyTriggerDate s)
            distanceToTrigger).

(** ** The portfolio diary of the backtest route ([POST]) *)

(** A value of [dailyMap]. *)
Record DiaryDay := mkDiaryDay {
  m_date : Z;
  m_invested : Q;
  m_totalProfit : Q;
  m_activities : list TradeActivity
}.

Record PortfolioDailyLog := mkPortfolioDay {
  pd_date : Z;
  pd_cash : Q;
  pd_invested : Q;
  pd_portfolioValue : Q;
  pd_dayProfit : Q;
  pd_totalProfit : Q;
  pd_activities : list TradeActivity
}.

(** [dailyMap], a [Map] keyed by date, as an association list in insertion
    order: the entry of [day.date] is created when absent, then updated. *)
Fixpoint collectDay (res : BacktestResult) (day : DailyState)
  (dailyMap : list DiaryDay) : list DiaryDay :=
  match dailyMap with
  | [] =>
      [mkDiaryDay (d_date day) (0 + d_invested day)
         (0 + (d_equity day - r_initialCapital res))
         ([] ++ d_activities day)]
  | entry :: rest =>
      if (m_date entry =? d_date day)%Z
      then mkDiaryDay (m_date entry) (m_invested entry + d_invested day)
             (m_totalProfit entry + (d_equity day - r_initialCapital res))
             (m_activities entry ++ d_activities day) :: rest
      else entry :: collectDay res day rest
  end.

Definition collectDays (results : list BacktestResult) : list DiaryDay :=
  fold_left
    (fun dailyMap res =>
       fold_left (fun m day => collectDay res day m) (r_dailyLog res) dailyMap)
    results [].

(** [.sort((a, b) => a.date.localeCompare(b.date))]: a stable sort by date. *)
Fixpoint insertByDate (x : DiaryDay) (sorted : list DiaryDay) : list DiaryDay :=
  match sorted with
  | [] => [x]
  | y :: rest =>
      if (m_date x <? m_date y)%Z then x :: sorted
      else y :: insertByDate x rest
  end.

Definition sortByDate (days : list DiaryDay) : list DiaryDay :=
  fold_left (fun sorted x => insertByDate x sorted) days [].

Definition toPortfolioDay (initialCapital : Q) (day : DiaryDay)
  : PortfolioDailyLog :=
  let portfolioValue := initialCapital + m_totalProfit day in
  let cash := portfolioValue - m_invested day in
  mkPortfolioDay (m_date day) cash (m_invested day) portfolioValue 0
    (m_totalProfit day) (m_activities day).

(** [portfolioDiary[i].dayProfit = ...]; an index outside the array is never
    assigned by the loop. *)
Fixpoint setDayProfit (diary : list PortfolioDailyLog) (i : nat) (v : Q)
  : list PortfolioDailyLog :=
  match diary, i with
  | [], _ => []
  | e :: rest, O =>
      mkPortfolioDay (pd_date e) (pd_cash e) (pd_invested e)
        (pd_portfolioValue e) v (pd_totalProfit e) (pd_activities e) :: rest
  | e :: rest, Datatypes.S j => e :: setDayProfit rest j v
  end.

Definition noPortfolioDay : PortfolioDailyLog :=
  mkPortfolioDay 0%Z 0 0 0 0 0 [].

(** The body of the loop "Calculate daily P&L change". *)
Definition dayProfitStep (diary : list PortfolioDailyLog) (i : nat)
  : list PortfolioDailyLog :=
  setDayProfit diary i
    (pd_portfolioValue (nth i diary noPortfolioDay)
     - pd_portfolioValue (nth (i - 1) diary noPortfolioDay)).

Definition fillDayProfit (diary : list PortfolioDailyLog)
  : list PortfolioDailyLog :=
  fold_left dayProfitStep (seq 1 (length diary - 1)) diary.

Definition portfolioDiary (initialCapital : Q) (results : list BacktestResult)
  : list PortfolioDailyLog :=
  fillDayProfit
    (map (toPortfolioDay initialCapital) (sortByDate (collectDays results))).

(** ** Concrete histories used by the examples *)

Definition bar (d : Z) (h l c : Q) : DailyCandle :=
  mkCandle "TEST" d c h l c 0.

(** Twenty quiet days, high 10 and low 9. *)
Definition quiet20 : list DailyCandle :=
  map (fun d => bar (Z.of_nat d) 10 9 10) (seq 0 20).

(** A low touch and a breakout on day 20, then a quiet day. *)
Definition breakoutHistory : list DailyCandle :=
  quiet20 ++ [bar 20 11 9 10; bar 21 10 9 10].

(** A low touch on day 20; on day 21 the high breaks out and the low
    touches the 20-day low again. *)
Definition wideDayHistory : list DailyCandle :=
  quiet20 ++ [bar 20 10 9 10; bar 21 11 8 10].

(** The same, followed by a day whose high breaks the 20-day high and
    whose low stays above the 20-day low. *)
Definition lostBreakoutHistory : list DailyCandle :=
  wideDayHistory ++ [bar 22 12 (19 # 2) 11].

(** Twenty-one days whose lows never touch the low of the 20 days
    before. *)
Definition calmHistory : list DailyCandle :=
  quiet20 ++ [bar 20 10 (19 # 2) 10].

(** A purchase at 10 on day 20, twenty days around 8, a purchase at 8 on
    day 41 and a high of 10 on day 42. *)
Definition twoLotHistory : list DailyCandle :=
  quiet20 ++ [bar 20 11 9 10]
  ++ map (fun d => bar (Z.of_nat d) 8 7 8) (seq 21 20)
  ++ [bar 41 9 7 8; bar 42 10 8 9].

(** Twenty-one quiet days. *)
Definition quietHistory : list DailyCandle :=
  quiet20 ++ [bar 20 10 9 10].

(** ** Vocabulary of the statements *)

(** The indices, counted from [idx], of the elements that satisfy [reach]. *)
Fixpoint indicesWhere {A : Type} (reach : A -> bool) (xs : list A) (idx : nat)
  : list nat :=
  match xs with
  | [] => []
  | x :: t =>
      if reach x then idx :: indicesWhere reach t (Datatypes.S idx)
      else indicesWhere reach t (Datatypes.S idx)
  end.

(** Cash after the sale of every position of [ps] at [price]. *)
Definition proceeds (price : Position -> Q) (ps : list Position) (cash0 : Q)
  : Q :=
  fold_left (fun c pos => c + p_quantity pos * price pos) ps cash0.

(** Whether [day.high] reaches the own target of [pos]. *)
Definition reachesOwnTarget (day : DailyCandle) (pos : Position) : bool :=
  Qgeb (c_high day) (targetPriceOf pos).

(** A lot with a positive quantity, bought at a non-negative price, whose
    target is not below its cost by more than the cost. *)
Definition lotOk (pos : Position) : Prop :=
  0 < p_quantity pos /\ 0 <= p_buyPrice pos /\ -100 <= p_targetPercent pos.

(** ** More vocabulary *)

(** The sum of [f] over [xs]. *)
Fixpoint sumOf {A : Type} (f : A -> Q) (xs : list A) : Q :=
  match xs with
  | [] => 0
  | x :: t => f x + sumOf f t
  end.

(** The run of [twoLotHistory] in LIFO mode: one closed trade, one open
    lot. *)
Definition twoLotRun : option BacktestResult :=
  runBacktest "TEST" twoLotHistory 1000 (Some 100) LIFO 6 3.

(** ** The other functions of [lib/strategy.ts] *)

(** [getTargetPercent]: the target percentage of the [buyNumber]-th buy. *)
Definition getTargetPercent (buyNumber : Q) : Q :=
  if Qeq_bool buyNumber 1 then 10
  else if Qeq_bool buyNumber 2 then 8
  else 6.

Record Levels := mkLevels {
  lv_high : Q;
  lv_low : Q
}.

(** [calculate20DayLevels]; [candles.slice(-20)] is the slice from
    [length - 20] to the end. *)
Definition calculate20DayLevels (candles : list DailyCandle) : option Levels :=
  if (length candles <? 20)%nat then None
  else
    let last20 := slice (length candles - 20) (length candles) candles in
    Some (mkLevels (Math_max (map c_high last20)) (Math_min (map c_low last20))).

(** Whether day [i] touches the low, or breaks the high, of the 20 bars
    before it. *)
Definition touchesLow (candles : list DailyCandle) (i : nat) : Prop :=
  c_low (at_ candles i) <= twentyDayLowAt candles i.

Definition breaksHigh (candles : list DailyCandle) (i : nat) : Prop :=
  twentyDayHighAt candles i < c_high (at_ candles i).

(** A low touch on day 20, then a breakout on day 21 whose low stays above
    the 20-day low. *)
Definition triggeredHistory : list DailyCandle :=
  quiet20 ++ [bar 20 10 9 10; bar 21 11 (19 # 2) 10].

(** ** The backtest route ([POST]), around the diary *)

(** The fields of the request body the handler reads; a field the body
    lacks is [None].  [yearsBack], [startDate] and [endDate] only select the
    candles that [getSmartStockData] returns, here [data]. *)
Record BacktestBody := mkBody {
  b_symbol : option string;
  b_symbols : option (list string);
  b_initialCapital : option Q;
  b_tradeSizePercent : option Q;
  b_exitStrategy : option ExitStrategy;
  b_avgLevels : option Q;
  b_targetProfitPercent : option Q
}.

(** A destructuring default: [const { x = d } = body]. *)
Definition orDefault {A : Type} (field : option A) (d : A) : A :=
  match field with
  | Some x => x
  | None => d
  end.

(** [targetSymbols], or [None] for the 400 response. *)
Definition targetSymbolsOf (body : BacktestBody) : option (list string) :=
  match b_symbols body with
  | Some (s :: rest) => Some (s :: rest)
  | _ =>
      match b_symbol body with
      | Some EmptyString => None
      | Some symbol => Some [symbol]
      | None => None
      end
  end.

Definition CHUNK_SIZE : nat := 5.

(** The chunks [targetSymbols.slice(i, i + CHUNK_SIZE)] for
    [i = 0, CHUNK_SIZE, ...] below [targetSymbols.length]. *)
Definition chunksOf {A : Type} (xs : list A) : list (list A) :=
  map (fun k => slice (k * CHUNK_SIZE) (k * CHUNK_SIZE + CHUNK_SIZE) xs)
    (seq 0 ((length xs + (CHUNK_SIZE - 1)) / CHUNK_SIZE)).

(** [results.push(r)] for the results of a chunk that are not [null]. *)
Fixpoint pushResults {A : Type} (chunkResults : list (option A)) (results : list A)
  : list A :=
  match chunkResults with
  | [] => results
  | Some r :: rest => pushResults rest (results ++ [r])
  | None :: rest => pushResults rest results
  end.

(** The aggregate of the response, with [winRate] and [totalProfitPercent]
    spread into it; the benchmark, fetched from the market data, is left
    out. *)
Record Aggregate := mkAggregate {
  g_totalTrades : nat;
  g_totalProfit : Q;
  g_realizedProfit : Q;
  g_unrealizedProfit : Q;
  g_blockedCapital : Q;
  g_winningTrades : nat;
  g_losingTrades : nat;
  g_finalCapital : Q;
  g_winRate : Q;
  g_totalProfitPercent : Q
}.

Inductive BacktestResponse :=
| BadRequest
| NoValidBacktests
| Report (results : list BacktestResult) (aggregate : Aggregate)
    (diary : list PortfolioDailyLog).

Section BacktestRoute.

(** The candles [getSmartStockData] returns for a symbol, [None] when it
    throws. *)
Variable data : string -> option (list DailyCandle).
Variable body : BacktestBody.

Definition routeCapital : Q := orDefault (b_initialCapital body) 500000.

Definition routeTradeAmount : Q :=
  (routeCapital * orDefault (b_tradeSizePercent body) 10) / 100.

(** The body of [chunk.map]: [null] when the data cannot be had or is
    shorter than 21 bars. *)
Definition backtestOne (sym : string) : option BacktestResult :=
  match data sym with
  | None => None
  | Some candles =>
      if (length candles <? 21)%nat then None
      else
        runBacktest sym candles routeCapital (Some routeTradeAmount)
          (orDefault (b_exitStrategy body) WEIGHTED_AVERAGE)
          (orDefault (b_targetProfitPercent body) 6)
          (orDefault (b_avgLevels body) 3)
  end.

Definition routeResults (targetSymbols : list string) : list BacktestResult :=
  fold_left (fun results chunk => pushResults (map backtestOne chunk) results)
    (chunksOf targetSymbols) [].

Definition aggregateOf (results : list BacktestResult) : Aggregate :=
  let totalTrades := fold_left (fun sum r => sum + r_totalTrades r)%nat results 0%nat in
  let totalProfit := fold_left (fun sum r => sum + r_totalProfit r) results 0 in
  let winningTrades :=
    fold_left (fun sum r => sum + r_winningTrades r)%nat results 0%nat in
  mkAggregate totalTrades totalProfit
    (fold_left (fun sum r => sum + r_realizedProfit r) results 0)
    (fold_left (fun sum r => sum + r_unrealizedProfit r) results 0)
    (fold_left (fun sum r => sum + r_blockedCapital r) results 0)
    winningTrades
    (fold_left (fun sum r => sum + r_losingTrades r)%nat results 0%nat)
    (routeCapital + fold_left (fun sum r => sum + r_totalProfit r) results 0)
    (if (0 <? totalTrades)%nat
     then (inject_Z (Z.of_nat winningTrades) / inject_Z (Z.of_nat totalTrades)) * 100
     else 0)
    ((totalProfit / routeCapital) * 100).

Definition backtestRoute : BacktestResponse :=
  match targetSymbolsOf body with
  | None => BadRequest
  | Some targetSymbols =>
      match routeResults targetSymbols with
      | [] => NoValidBacktests
      | results =>
          Report results (aggregateOf results) (portfolioDiary routeCapital results)
      end
  end.

End BacktestRoute.

(** The values of the entries that are not [None], in order. *)
Fixpoint somes {A : Type} (xs : list (option A)) : list A :=
  match xs with
  | [] => []
  | Some x :: rest => x :: somes rest
  | None :: rest => somes rest
  end.

(** The sum of the numbers [f x]. *)
Fixpoint countOf {A : Type} (f : A -> nat) (xs : list A) : nat :=
  match xs with
  | [] => 0%nat
  | x :: t => (f x + countOf f t)%nat
  end.

(** The order of the diary: by strictly increasing date. *)
Definition dateBefore (a b : DiaryDay) : Prop := (m_date a < m_date b)%Z.

(** The value of [dailyMap] for a day no result has reached yet. *)
Definition newDiaryDay (res : BacktestResult) (day : DailyState) : DiaryDay :=
  mkDiaryDay (d_date day) (0 + d_invested day)
    (0 + (d_equity day - r_initialCapital res)) ([] ++ d_activities day).

(** Two diary entries that differ at most in [dayProfit]. *)
Definition sameButDayProfit (p q : PortfolioDailyLog) : Prop :=
  pd_date p = pd_date q /\ pd_cash p = pd_cash q
  /\ pd_invested p = pd_invested q
  /\ pd_portfolioValue p = pd_portfolioValue q
  /\ pd_totalProfit p = pd_totalProfit q
  /\ pd_activities p = pd_activities q.

(** ** The tables of [lib/db.ts]

    A table is the list of its rows in insertion order.  [ORDER BY] is a
    stable insertion sort: where the key of the order has no ties the
    result does not depend on that choice. *)

(** [xs.sort(...)] and [ORDER BY]: [x] goes before the first [y] that it
    must precede. *)
Fixpoint insertBy {A : Type} (before : A -> A -> bool) (x : A) (sorted : list A)
  : list A :=
  match sorted with
  | [] => [x]
  | y :: rest =>
      if before x y then x :: sorted else y :: insertBy before x rest
  end.

Definition sortBy {A : Type} (before : A -> A -> bool) (xs : list A) : list A :=
  fold_left (fun sorted x => insertBy before x sorted) xs [].

Definition dateAsc (a b : DailyCandle) : bool := (c_date a <? c_date b)%Z.
Definition dateDesc (a b : DailyCandle) : bool := (c_date b <? c_date a)%Z.

(** The primary key of [daily_candles]: (symbol, date). *)
Definition candleKey (c : DailyCandle) : string * Z := (c_symbol c, c_date c).

Definition sameKey (a b : DailyCandle) : bool :=
  String.eqb (c_symbol a) (c_symbol b) && (c_date a =? c_date b)%Z.

(** [INSERT OR IGNORE INTO daily_candles] of one row. *)
Definition insertCandle (table : list DailyCandle) (item : DailyCandle)
  : list DailyCandle :=
  if existsb (sameKey item) table then table else table ++ [item].

(** [insertCandles]: the rows, one after the other, in one transaction. *)
Definition insertCandles (candles table : list DailyCandle) : list DailyCandle :=
  fold_left insertCandle candles table.

(** [getCandles(symbol, limit?)]: without a limit, or with the falsy limit
    0, every row of the symbol by ascending date; with a limit the rows by
    descending date, cut at the limit (a negative [LIMIT] does not cut). *)
Definition getCandles (table : list DailyCandle) (symbol : string)
  (limit : option Z) : list DailyCandle :=
  let rows := filter (fun c => String.eqb (c_symbol c) symbol) table in
  match limit with
  | None => sortBy dateAsc rows
  | Some l =>
      if (l =? 0)%Z then sortBy dateAsc rows
      else if (l <? 0)%Z then sortBy dateDesc rows
      else firstn (Z.to_nat l) (sortBy dateDesc rows)
  end.

Record Stock := mkStock {
  st_symbol : string;
  st_name : string;
  st_is_nifty100 : Z;
  st_is_nifty200 : Z
}.

(** The row [upsertStock] leaves for the symbol, given the row it finds. *)
Definition upsertedRow (symbol name : string) (is_nifty100 is_nifty200 : Z)
  (found : option Stock) : Stock :=
  match found with
  | None => mkStock symbol name is_nifty100 is_nifty200
  | Some old =>
      mkStock (st_symbol old) name
        (if (is_nifty100 =? 1)%Z then 1%Z else st_is_nifty100 old)
        (if (is_nifty200 =? 1)%Z then 1%Z else st_is_nifty200 old)
  end.

(** [upsertStock]: [INSERT ... ON CONFLICT(symbol) DO UPDATE]; a flag the
    argument lacks is 0. *)
Fixpoint upsertStock (symbol name : string) (is_nifty100 is_nifty200 : option Z)
  (table : list Stock) : list Stock :=
  match table with
  | [] =>
      [upsertedRow symbol name (orDefault is_nifty100 0%Z)
         (orDefault is_nifty200 0%Z) None]
  | row :: rest =>
      if String.eqb (st_symbol row) symbol
      then upsertedRow symbol name (orDefault is_nifty100 0%Z)
             (orDefault is_nifty200 0%Z) (Some row) :: rest
      else row :: upsertStock symbol name is_nifty100 is_nifty200 rest
  end.

Definition getNifty100Stocks (table : list Stock) : list Stock :=
  filter (fun s => (st_is_nifty100 s =? 1)%Z) table.

Definition getNifty200Stocks (table : list Stock) : list Stock :=
  filter (fun s => (st_is_nifty200 s =? 1)%Z) table.

(** ** [getSmartStockData] ([lib/data.ts])

    A [Date] is its number of days since the epoch, the time of day a
    fraction: [format(d, "yyyy-MM-dd")] is the day of [d], [parseISO] the
    start of a day, [addDays] and [subDays] add and subtract 1, [isBefore]
    is [<].  The date strings of the candles compare as their day
    numbers. *)

Definition format (d : Q) : Z := Qfloor d.
Definition parseISO (day : Z) : Q := inject_Z day.
Definition isBefore (a b : Q) : bool := Qltb a b.

Definition inRange (startDateStr endDateStr : Z) (c : DailyCandle) : bool :=
  (startDateStr <=? c_date c)%Z && (c_date c <=? endDateStr)%Z.

Section SmartData.

(** [fetchCandles(symbol, startDate, endDate)], the market-data provider. *)
Variable fetchCandles : string -> Q -> Q -> list DailyCandle.

(** Returns the candles and the table it leaves. *)
Definition getSmartStockData (table : list DailyCandle) (symbol : string)
  (startDate endDate : Q) : list DailyCandle * list DailyCandle :=
  let startDateStr := format startDate in
  let endDateStr := format endDate in
  let candles := getCandles table symbol None in
  match candles with
  | [] =>
      match fetchCandles symbol startDate endDate with
      | [] => ([], table)
      | freshData => (freshData, insertCandles freshData table)
      end
  | _ :: _ =>
      let lastCandle := last candles noCandle in
      let lastDate := parseISO (c_date lastCandle) in
      let nextDay := lastDate + 1 in
      let '(candles1, table1) :=
        if negb (isBefore endDate nextDay) then
          match fetchCandles symbol nextDay endDate with
          | [] => (candles, table)
          | freshTail =>
              let table' := insertCandles freshTail table in
              (getCandles table' symbol None, table')
          end
        else (candles, table) in
      let firstCandle := hd noCandle candles1 in
      let firstDate := parseISO (c_date firstCandle) in
      let '(candles2, table2) :=
        if isBefore startDate firstDate then
          let gapEnd := firstDate - 1 in
          if negb (isBefore gapEnd startDate) then
            match fetchCandles symbol startDate gapEnd with
            | [] => (candles1, table1)
            | freshHead =>
                let table' := insertCandles freshHead table1 in
                (getCandles table' symbol None, table')
            end
          else (candles1, table1)
        else (candles1, table1) in
      (filter (inRange startDateStr endDateStr) candles2, table2)
  end.

End SmartData.

(** ** The scanner route ([GET]) *)

Definition statusEqb (a b : SSTStatus) : bool :=
  match a, b with
  | NEUTRAL, NEUTRAL | TRACKING, TRACKING | BUY_TRIGGERED, BUY_TRIGGERED => true
  | _, _ => false
  end.

(** Whether the loop pushes [analysis] under the [filter] of the query. *)
Definition passesFilter (filter : option string) (analysis : SSTAnalysis)
  : bool :=
  match filter with
  | None => true
  | Some f =>
      if String.eqb f "tracking" && negb (statusEqb (s_status analysis) TRACKING)
      then false
      else if String.eqb f "triggered"
              && negb (statusEqb (s_status analysis) BUY_TRIGGERED)
      then false
      else true
  end.

(** The comparator [(a, b) => a.distanceToTrigger - b.distanceToTrigger]
    is negative. *)
Definition distanceBefore (a b : SSTAnalysis) : bool :=
  Qltb (s_distanceToTrigger a - s_distanceToTrigger b) 0.

Definition scanStock (candleTable : list DailyCandle) (filter : option string)
  (analyses : list SSTAnalysis) (stock : Stock) : list SSTAnalysis :=
  let candles := getCandles candleTable (st_symbol stock) None in
  if (21 <=? length candles)%nat then
    match analyzeStock (st_symbol stock) candles with
    | Some analysis =>
        if passesFilter filter analysis then analyses ++ [analysis]
        else analyses
    | None => analyses
    end
  else analyses.

Definition scannerRoute (stockTable : list Stock)
  (candleTable : list DailyCandle) (filter : option string)
  : list SSTAnalysis :=
  sortBy distanceBefore
    (fold_left (scanStock candleTable filter) (getNifty100Stocks stockTable) []).

(** ** The portfolio and capital tables, and the portfolio route *)

Inductive PortfolioStatus := OPEN | SOLD.

Record PortfolioEntry := mkEntry {
  pe_id : Z;
  pe_symbol : string;
  pe_buy_date : Z;
  pe_quantity : Q;
  pe_buy_price : Q;
  pe_buy_number : Q;
  pe_target_percent : Q;
  pe_sell_date : option Z;
  pe_sell_price : option Q;
  pe_status : PortfolioStatus
}.

(** [id INTEGER PRIMARY KEY AUTOINCREMENT]: one more than every id in use;
    no row is ever deleted. *)
Definition nextId (ids : list Z) : Z := (1 + fold_left Z.max ids 0)%Z.

Definition addPortfolioEntry (symbol : string) (buy_date : Z)
  (quantity buy_price buy_number target_percent : Q)
  (table : list PortfolioEntry) : list PortfolioEntry :=
  table
  ++ [mkEntry (nextId (map pe_id table)) symbol buy_date quantity buy_price
        buy_number target_percent None None OPEN].

Definition sellPortfolioEntry (id : Z) (sell_date : Z) (sell_price : Q)
  (table : list PortfolioEntry) : list PortfolioEntry :=
  map (fun e =>
         if (pe_id e =? id)%Z
         then mkEntry (pe_id e) (pe_symbol e) (pe_buy_date e) (pe_quantity e)
                (pe_buy_price e) (pe_buy_number e) (pe_target_percent e)
                (Some sell_date) (Some sell_price) SOLD
         else e)
    table.

Definition isOpen (e : PortfolioEntry) : bool :=
  match pe_status e with
  | OPEN => true
  | SOLD => false
  end.

Definition buyDateDesc (a b : PortfolioEntry) : bool :=
  (pe_buy_date b <? pe_buy_date a)%Z.

Definition getOpenPortfolio (table : list PortfolioEntry) : list PortfolioEntry :=
  sortBy buyDateDesc (filter isOpen table).

Inductive CapitalType := ADD | WITHDRAW.

Record CapitalEntry := mkCapitalEntry {
  ce_id : Z;
  ce_date : Z;
  ce_amount : Q;
  ce_type : CapitalType
}.

(** [COALESCE(SUM(CASE WHEN type = 'ADD' THEN amount ELSE -amount END), 0)] *)
Definition getTotalCapital (table : list CapitalEntry) : Q :=
  fold_left
    (fun total e =>
       total + match ce_type e with
               | ADD => ce_amount e
               | WITHDRAW => - ce_amount e
               end)
    table 0.

Definition addCapitalEntry (date : Z) (amount : Q) (type : CapitalType)
  (table : list CapitalEntry) : list CapitalEntry :=
  table ++ [mkCapitalEntry (nextId (map ce_id table)) date amount type].

(** The fields of the body of the portfolio [POST]; a field the body lacks
    is [None].  A date is a non-empty string when present. *)
Record PortfolioBody := mkPortfolioBody {
  pb_action : option string;
  pb_symbol : option string;
  pb_buy_date : option Z;
  pb_quantity : option Q;
  pb_buy_price : option Q;
  pb_buy_number : option Q;
  pb_id : option Z;
  pb_sell_date : option Z;
  pb_sell_price : option Q
}.

(** [!x] for a string, a number and an id. *)
Definition missingString (x : option string) : bool :=
  match x with
  | None | Some EmptyString => true
  | Some _ => false
  end.

Definition missingNumber (x : option Q) : bool :=
  match x with
  | None => true
  | Some q => Qeq_bool q 0
  end.

Definition missingId (x : option Z) : bool :=
  match x with
  | None => true
  | Some z => (z =? 0)%Z
  end.

Definition missingDate (x : option Z) : bool :=
  match x with
  | None => true
  | Some _ => false
  end.

Inductive PortfolioResponse := Success | MissingFields | InvalidAction.

Definition portfolioPost (body : PortfolioBody) (table : list PortfolioEntry)
  : PortfolioResponse * list PortfolioEntry :=
  if String.eqb (orDefault (pb_action body) EmptyString) "buy" then
    if missingString (pb_symbol body) || missingDate (pb_buy_date body)
       || missingNumber (pb_quantity body) || missingNumber (pb_buy_price body)
    then (MissingFields, table)
    else
      let buy_number :=
        if missingNumber (pb_buy_number body) then 1
        else orDefault (pb_buy_number body) 1 in
      let target_percent := getTargetPercent buy_number in
      (Success,
       addPortfolioEntry (orDefault (pb_symbol body) EmptyString)
         (orDefault (pb_buy_date body) 0%Z) (orDefault (pb_quantity body) 0)
         (orDefault (pb_buy_price body) 0) buy_number target_percent table)
  else if String.eqb (orDefault (pb_action body) EmptyString) "sell" then
    if missingId (pb_id body) || missingDate (pb_sell_date body)
       || missingNumber (pb_sell_price body)
    then (MissingFields, table)
    else
      (Success,
       sellPortfolioEntry (orDefault (pb_id body) 0%Z)
         (orDefault (pb_sell_date body) 0%Z) (orDefault (pb_sell_price body) 0)
         table)
  else (InvalidAction, table).

Definition isAdd (e : CapitalEntry) : bool :=
  match ce_type e with
  | ADD => true
  | WITHDRAW => false
  end.

(** ** The market-data provider ([lib/yahoo.ts]) *)

(** A row of [yahooFinance.historical]; a price the row lacks is [None]. *)
Record HistoricalRow := mkRow {
  h_date : Q;
  h_open : option Q;
  h_high : option Q;
  h_low : option Q;
  h_close : option Q;
  h_volume : option Q
}.

(** [symbol.replace(".NS", "")]: the first occurrence is removed. *)
Fixpoint replaceFirst (pattern s : string) : string :=
  if String.prefix pattern s
  then String.substring (String.length pattern)
         (String.length s - String.length pattern) s
  else match s with
       | EmptyString => EmptyString
       | String ch rest => String ch (replaceFirst pattern rest)
       end.

Definition NIFTY_100_SYMBOLS : list string :=
  [
   "RELIANCE.NS"; "TCS.NS"; "HDFCBANK.NS"; "INFY.NS"; "ICICIBANK.NS";
   "HINDUNILVR.NS"; "SBIN.NS"; "BHARTIARTL.NS"; "ITC.NS"; "KOTAKBANK.NS";
   "LT.NS"; "AXISBANK.NS"; "ASIANPAINT.NS"; "MARUTI.NS"; "HCLTECH.NS";
   "SUNPHARMA.NS"; "TITAN.NS"; "ULTRACEMCO.NS"; "BAJFINANCE.NS"; "WIPRO.NS";
   "NESTLEIND.NS"; "M&M.NS"; "NTPC.NS"; "POWERGRID.NS"; "TATAMOTORS.NS";
   "JSWSTEEL.NS"; "ONGC.NS"; "TATASTEEL.NS"; "ADANIENT.NS"; "ADANIPORTS.NS";
   "COALINDIA.NS"; "BPCL.NS"; "GRASIM.NS"; "DIVISLAB.NS"; "DRREDDY.NS";
   "BRITANNIA.NS"; "CIPLA.NS"; "APOLLOHOSP.NS"; "EICHERMOT.NS"; "HEROMOTOCO.NS";
   "BAJAJFINSV.NS"; "TATACONSUM.NS"; "SBILIFE.NS"; "HDFCLIFE.NS"; "TECHM.NS";
   "INDUSINDBK.NS"; "HINDALCO.NS"; "VEDL.NS"; "GAIL.NS"; "IOC.NS";
   "UPL.NS"; "DLF.NS"; "ADANIGREEN.NS"; "ADANITRANS.NS"; "BANKBARODA.NS";
   "PNB.NS"; "CANBK.NS"; "FEDERALBNK.NS"; "IDFCFIRSTB.NS"; "YESBANK.NS";
   "SHREECEM.NS"; "AMBUJACEM.NS"; "ACC.NS"; "PIDILITIND.NS"; "GODREJCP.NS";
   "DABUR.NS"; "MARICO.NS"; "COLPAL.NS"; "PGHH.NS"; "HAVELLS.NS";
   "VOLTAS.NS"; "WHIRLPOOL.NS"; "TRENT.NS"; "ZOMATO.NS"; "NYKAA.NS";
   "PAYTM.NS"; "POLICYBZR.NS"; "DMART.NS"; "TATAPOWER.NS"; "NHPC.NS";
   "PFC.NS"; "RECLTD.NS"; "IRFC.NS"; "CONCOR.NS"; "SAIL.NS";
   "NMDC.NS"; "JINDALSTEL.NS"; "TATAELXSI.NS"; "LTIM.NS"; "MPHASIS.NS";
   "COFORGE.NS"; "PERSISTENT.NS"; "HAPPSTMNDS.NS"; "NAUKRI.NS"; "INDIGO.NS";
   "PIIND.NS"; "SRF.NS"; "ATUL.NS"; "CHOLAFIN.NS"; "BAJAJHLDNG.NS"
  ]%string.

Inductive SyncStatus := success (candles : nat) | no_data.

Section Yahoo.

(** [yahooFinance.historical(symbol, { period1, period2 })], [None] when it
    throws. *)
Variable historical : string -> Z -> Z -> option (list HistoricalRow).

(** [quote.shortName || quote.longName] of [yahooFinance.quote(symbol)],
    [None] when the call throws or both names are missing. *)
Variable quoteName : string -> option string.

(** [new Date()] and [subYears] of date-fns. *)
Variable now : Q.
Variable subYears : Q -> Q -> Q.

Definition toCandle (symbol : string) (row : HistoricalRow) : DailyCandle :=
  mkCandle symbol (format (h_date row)) (orDefault (h_open row) 0)
    (orDefault (h_high row) 0) (orDefault (h_low row) 0)
    (orDefault (h_close row) 0) (orDefault (h_volume row) 0).

Definition fetchCandles (symbol : string) (startDate endDate : Q)
  : list DailyCandle :=
  match historical symbol (format startDate) (format endDate) with
  | Some result => sortBy dateAsc (map (toCandle symbol) result)
  | None => []
  end.

Definition fetchHistoricalData (symbol : string) (yearsBack : option Q)
  : list DailyCandle :=
  let endDate := now in
  let startDate := subYears endDate (orDefault yearsBack 3) in
  fetchCandles symbol startDate endDate.

(** [getStockInfo]: the symbol and its name; both branches answer. *)
Definition getStockInfo (symbol : string) : string * string :=
  (symbol,
   match quoteName symbol with
   | Some (String ch rest) => String ch rest
   | _ => replaceFirst ".NS" symbol
   end).

(** ** The sync route ([POST])

    The status "error" is pushed when a call of the loop body throws;
    neither provider function throws and the tables of the model accept
    every row, so the loop body below has the other two only. *)

Definition syncSymbol
  (state : list Stock * list DailyCandle * list (string * SyncStatus))
  (symbol : string)
  : list Stock * list DailyCandle * list (string * SyncStatus) :=
  let '(stocks, candleTable, results) := state in
  let info := getStockInfo symbol in
  let stocks' := upsertStock (fst info) (snd info) (Some 1%Z) None stocks in
  let candles := fetchHistoricalData symbol (Some 3) in
  if (0 <? length candles)%nat
  then (stocks', insertCandles candles candleTable,
        results ++ [(symbol, success (length candles))])
  else (stocks', candleTable, results ++ [(symbol, no_data)]).

Definition syncRoute (stocks : list Stock) (candleTable : list DailyCandle)
  : list Stock * list DailyCandle * list (string * SyncStatus) :=
  fold_left syncSymbol (slice 0 10 NIFTY_100_SYMBOLS)
    (stocks, candleTable, []).

End Yahoo.

(** ** The first version of [runBacktest]

    The older [lib/backtest.ts]: every lot is sold at its own target, the
    target depends on the number of the buy ([getTargetPercent]), the
    number of buys of a sequence has no limit, and the equity of a day is
    recorded before its trades. *)

Module Legacy.

Record BacktestResult := mkResult {
  r_symbol : string;
  r_startDate : Z;
  r_endDate : Z;
  r_initialCapital : Q;
  r_finalCapital : Q;
  r_totalTrades : nat;
  r_winningTrades : nat;
  r_losingTrades : nat;
  r_winRate : Q;
  r_totalProfit : Q;
  r_totalProfitPercent : Q;
  r_realizedProfit : Q;
  r_unrealizedProfit : Q;
  r_blockedCapital : Q;
  r_maxDrawdown : Q;
  r_trades : list BacktestTrade;
  r_openPositions : list OpenPosition;
  r_equityCurve : list (Z * Q)
}.

(** The variables that live across the day loop. *)
Record Sim := mkSim {
  cash : Q;
  isTracking : bool;
  currentBuyNumber : Z;
  internalOpenPositions : list Position;
  maxEquity : Q;
  maxDrawdown : Q;
  trades : list BacktestTrade;
  equityCurve : list (Z * Q)
}.

(** What the sell loop of one day updates. *)
Record Sells := mkSells {
  x_trades : list BacktestTrade;
  x_cash : Q;
  x_positionsToClose : list nat
}.

Section RunBacktest.

Variable symbol : string.
Variable candles : list DailyCandle.
Variable initialCapital : Q.
Variable perTradeAmount : option Q.

(** The equity of the day, taken before its trades, and the drawdown. *)
Definition recordEquity (day : DailyCandle) (s : Sim) : Sim :=
  let positionValue :=
    fold_left (fun positionValue pos => positionValue + p_quantity pos * c_close day)
      (internalOpenPositions s) 0 in
  let currentEquity := cash s + positionValue in
  let maxEquity' :=
    if Qgtb currentEquity (maxEquity s) then currentEquity else maxEquity s in
  let drawdown := ((maxEquity' - currentEquity) / maxEquity') * 100 in
  let maxDrawdown' :=
    if Qgtb drawdown (maxDrawdown s) then drawdown else maxDrawdown s in
  mkSim (cash s) (isTracking s) (currentBuyNumber s) (internalOpenPositions s)
    maxEquity' maxDrawdown' (trades s)
    (equityCurve s ++ [(c_date day, currentEquity)]).

(** The body of the sell loop. *)
Definition sellIfTarget (day : DailyCandle) (acc : Sells) (pos : Position)
  (j : nat) : Sells :=
  let targetPrice := p_buyPrice pos * (1 + p_targetPercent pos / 100) in
  if Qgeb (c_high day) targetPrice
  then
    let sellPrice := targetPrice in
    mkSells (x_trades acc ++ [closedTrade symbol day sellPrice pos])
      (x_cash acc + p_quantity pos * sellPrice)
      (x_positionsToClose acc ++ [j])
  else acc.

Definition checkSells (day : DailyCandle) (s : Sim) : Sim :=
  let x :=
    forEachIdx (sellIfTarget day) (internalOpenPositions s) 0%nat
      (mkSells (trades s) (cash s) []) in
  let remaining :=
    filterIdx (fun idx => negb (includes (x_positionsToClose x) idx))
      (internalOpenPositions s) 0%nat in
  let reset :=
    (Nat.eqb (length remaining) 0) && (0 <? currentBuyNumber s)%Z in
  mkSim (x_cash x)
    (if reset then false else isTracking s)
    (if reset then 0%Z else currentBuyNumber s)
    remaining (maxEquity s) (maxDrawdown s) (x_trades x) (equityCurve s).

Definition checkEntry (day : DailyCandle) (twentyDayHigh twentyDayLow : Q)
  (s : Sim) : Sim :=
  let tracking :=
    if Qleb (c_low day) twentyDayLow then true else isTracking s in
  if tracking && Qgtb (c_high day) twentyDayHigh then
    let buyNumber := (currentBuyNumber s + 1)%Z in
    let targetPercent := getTargetPercent (inject_Z buyNumber) in
    let buyPrice := twentyDayHigh in
    let quantity :=
      Math_floor (tradeAmount initialCapital perTradeAmount / buyPrice) in
    if Qgtb quantity 0 && Qgeb (cash s) (quantity * buyPrice) then
      mkSim (cash s - quantity * buyPrice) false buyNumber
        (internalOpenPositions s ++
           [mkPosition (c_date day) buyPrice quantity buyNumber targetPercent])
        (maxEquity s) (maxDrawdown s) (trades s) (equityCurve s)
    else
      mkSim (cash s) false buyNumber (internalOpenPositions s)
        (maxEquity s) (maxDrawdown s) (trades s) (equityCurve s)
  else
    mkSim (cash s) tracking (currentBuyNumber s) (internalOpenPositions s)
      (maxEquity s) (maxDrawdown s) (trades s) (equityCurve s).

(** One iteration of the day loop, at index [i]. *)
Definition processDay (s : Sim) (i : nat) : Sim :=
  let day := at_ candles i in
  let twentyDayHigh := twentyDayHighAt candles i in
  let twentyDayLow := twentyDayLowAt candles i in
  checkEntry day twentyDayHigh twentyDayLow
    (checkSells day (recordEquity day s)).

Definition initialSim : Sim :=
  mkSim initialCapital false 0%Z [] initialCapital 0 [] [].

(** The state after the iterations [i = 20 .. 20 + n - 1]. *)
Definition simAfter (n : nat) : Sim :=
  fold_left processDay (seq 20 n) initialSim.

Definition finalize (s : Sim) : BacktestResult :=
  let lastPrice := c_close (at_ candles (length candles - 1)) in
  let realizedProfit := fold_left (fun sum t => sum + t_profit t) (trades s) 0 in
  let openPositions := map (toOpenPosition lastPrice) (internalOpenPositions s) in
  let unrealizedProfit := fold_left (fun sum p => sum + o_pnl p) openPositions 0 in
  let blockedCapital :=
    fold_left (fun sum p => sum + o_quantity p * o_buyPrice p) openPositions 0 in
  let closingPositionValue :=
    fold_left (fun sum p => sum + o_currentValue p) openPositions 0 in
  let finalCapital := cash s + closingPositionValue in
  let totalProfit := finalCapital - initialCapital in
  let totalProfitPercent := (totalProfit / initialCapital) * 100 in
  let winningTrades :=
    length (filter (fun t => Qgtb (t_profit t) 0) (trades s)) in
  let losingTrades :=
    length (filter (fun t => Qleb (t_profit t) 0) (trades s)) in
  mkResult symbol (c_date (at_ candles 20))
    (c_date (at_ candles (length candles - 1)))
    initialCapital finalCapital (length (trades s)) winningTrades losingTrades
    (if (0 <? length (trades s))%nat
     then (inject_Z (Z.of_nat winningTrades)
           / inject_Z (Z.of_nat (length (trades s)))) * 100
     else 0)
    totalProfit totalProfitPercent realizedProfit unrealizedProfit
    blockedCapital (maxDrawdown s) (trades s) openPositions (equityCurve s).

Definition runBacktest : option BacktestResult :=
  if (length candles <? 21)%nat then None
  else Some (finalize (simAfter (length candles - 20))).

End RunBacktest.

End Legacy.

(** A lot, a trade and a state of the first version whose targets are those
    of their buy numbers. *)
Definition tieredLot (p : Position) : Prop :=
  (1 <= p_buyNumber p)%Z
  /\ p_targetPercent p = getTargetPercent (inject_Z (p_buyNumber p)).

Definition tieredTrade (t : BacktestTrade) : Prop :=
  (1 <= t_buyNumber t)%Z
  /\ t_targetPercent t = getTargetPercent (inject_Z (t_buyNumber t))
  /\ t_sellPrice t = t_buyPrice t * (1 + t_targetPercent t / 100).

Definition tiered (s : Legacy.Sim) : Prop :=
  (0 <= Legacy.currentBuyNumber s)%Z
  /\ Forall tieredLot (Legacy.internalOpenPositions s)
  /\ Forall tieredTrade (Legacy.trades s).

(** ** Binary64 numbers

    The properties of the sell check and of the entry check depend on how
    a computed price compares with a bar or with the cash, and a
    JavaScript [number] is an IEEE 754 double: a product or a quotient is
    rounded before it is compared.  The modules [Number] and [Double]
    model these checks in binary64, with the operations that the Standard
    Library specifies in [SpecFloat] (round to nearest, ties to even;
    infinities, signed zeros and NaN included). *)

Module Number.

Definition number : Type := spec_float.

Definition prec : Z := 53.
Definition emax : Z := 1024.

Definition add (x y : number) : number := SFadd prec emax x y.
Definition sub (x y : number) : number := SFsub prec emax x y.
Definition mul (x y : number) : number := SFmul prec emax x y.
Definition div (x y : number) : number := SFdiv prec emax x y.

(** [x < y], [x <= y], [x > y] and [x >= y]; all false on a NaN. *)
Definition ltb (x y : number) : bool := SFltb x y.
Definition leb (x y : number) : bool := SFleb x y.
Definition gtb (x y : number) : bool := SFltb y x.
Definition geb (x y : number) : bool := SFleb y x.

(** The number of an integer literal. *)
Definition ofZ (z : Z) : number := binary_normalize prec emax z 0 false.

(** The number of a decimal literal [n / 10 ^ digits]. *)
Definition decimal (n : Z) (digits : nat) : number :=
  div (ofZ n) (ofZ (10 ^ Z.of_nat digits)).

(** The rational that a finite number stands for. *)
Definition valueOf (x : number) : Q :=
  match x with
  | S754_finite s m e =>
      match e with
      | Zneg p => Qmake (cond_Zopp s (Zpos m)) (2 ^ p)
      | _ => inject_Z (cond_Zopp s (Zpos m) * 2 ^ e)
      end
  | _ => 0
  end.

End Number.

Declare Scope double_scope.
Delimit Scope double_scope with D.
Infix "+" := Number.add : double_scope.
Infix "-" := Number.sub : double_scope.
Infix "*" := Number.mul : double_scope.
Infix "/" := Number.div : double_scope.

(** ** [runBacktest] in binary64: the day loop *)

Module Double.

Export Number.
Local Open Scope double_scope.

(** [Math.floor] and [Math.ceil]: an infinity, a NaN and a zero are
    returned as they are; a finite number becomes the integer below
    (above) it, a zero result keeping the sign of the argument. *)
Definition Math_floor (x : number) : number :=
  match x with
  | S754_finite s _ _ => binary_normalize prec emax (Qfloor (valueOf x)) 0 s
  | _ => x
  end.

Definition Math_ceil (x : number) : number :=
  match x with
  | S754_finite s _ _ => binary_normalize prec emax (Qceiling (valueOf x)) 0 s
  | _ => x
  end.

(** The larger of two numbers as [Math.max] has it: NaN when one is NaN,
    and [+0] above [-0]. *)
Definition max2 (a b : number) : number :=
  match SFcompare a b with
  | None => S754_nan
  | Some Lt => b
  | Some Gt => a
  | Some Eq => match a with S754_zero true => b | _ => a end
  end.

Definition min2 (a b : number) : number :=
  match SFcompare a b with
  | None => S754_nan
  | Some Lt => a
  | Some Gt => b
  | Some Eq => match a with S754_zero false => b | _ => a end
  end.

(** [Math.max(...xs)] and [Math.min(...xs)], from [-Infinity] and
    [+Infinity]. *)
Definition Math_max (xs : list number) : number :=
  fold_left max2 xs (S754_infinity true).

Definition Math_min (xs : list number) : number :=
  fold_left min2 xs (S754_infinity false).

(** [new Date(d).getTime()], in milliseconds. *)
Definition getTime (d : Z) : number := ofZ (d * 86400000).

Record DailyCandle := mkCandle {
  c_symbol : string;
  c_date : Z;
  c_open : number;
  c_high : number;
  c_low : number;
  c_close : number;
  c_volume : number
}.

Definition noCandle : DailyCandle :=
  mkCandle EmptyString 0%Z (ofZ 0) (ofZ 0) (ofZ 0) (ofZ 0) (ofZ 0).
Definition at_ (candles : list DailyCandle) (i : nat) : DailyCandle :=
  nth i candles noCandle.

Record BacktestTrade := mkTrade {
  t_symbol : string;
  t_buyDate : Z;
  t_buyPrice : number;
  t_sellDate : Z;
  t_sellPrice : number;
  t_buyNumber : number;
  t_targetPercent : number;
  t_profit : number;
  t_profitPercent : number;
  t_holdingDays : number
}.

(** An entry of [internalOpenPositions]. *)
Record Position := mkPosition {
  p_buyDate : Z;
  p_buyPrice : number;
  p_quantity : number;
  p_buyNumber : number;
  p_targetPercent : number
}.

Record TradeActivity := mkActivity {
  a_symbol : string;
  a_type : ActivityType;
  a_price : number;
  a_quantity : number;
  a_amount : number;
  a_buyNumber : number;
  a_profit : option number;
  a_date : Z;
  a_holdingDays : option number;
  a_purchaseDate : option Z
}.

Record DailyState := mkDailyState {
  d_date : Z;
  d_cash : number;
  d_invested : number;
  d_equity : number;
  d_profit : number;
  d_activities : list TradeActivity
}.

(** The variables of [runBacktest] that live across the day loop. *)
Record Sim := mkSim {
  cash : number;
  isTracking : bool;
  currentBuyNumber : number;
  internalOpenPositions : list Position;
  maxEquity : number;
  maxDrawdown : number;
  trades : list BacktestTrade;
  dailyLog : list DailyState
}.

(** What the sell check of one day accumulates. *)
Record Sells := mkSells {
  x_trades : list BacktestTrade;
  x_activities : list TradeActivity;
  x_cash : number;
  x_positionsToClose : list nat
}.

Definition twentyDayHighAt (candles : list DailyCandle) (i : nat) : number :=
  Math_max (map c_high (slice (i - 20) i candles)).

Definition twentyDayLowAt (candles : list DailyCandle) (i : nat) : number :=
  Math_min (map c_low (slice (i - 20) i candles)).

Definition holdingDaysOf (buyDate sellDate : Z) : number :=
  Math_ceil ((getTime sellDate - getTime buyDate) / ofZ (1000 * 60 * 60 * 24)).

Definition totalQty (ps : list Position) : number :=
  fold_left (fun sum p => sum + p_quantity p) ps (ofZ 0).

Definition totalCost (ps : list Position) : number :=
  fold_left (fun sum p => sum + p_quantity p * p_buyPrice p) ps (ofZ 0).

Definition weightedAvgPrice (ps : list Position) : number :=
  if gtb (totalQty ps) (ofZ 0) then totalCost ps / totalQty ps else ofZ 0.

Section RunBacktest.

Variable symbol : string.
Variable candles : list DailyCandle.
Variable initialCapital : number.
Variable perTradeAmount : option number.
Variable exitStrategy : ExitStrategy.
Variable targetProfitPercent : number.
Variable avgLevels : number.

Definition tradeAmount : number :=
  match perTradeAmount with
  | Some a => a
  | None => initialCapital / ofZ 50
  end.

(** The body shared by both sell branches: the closed trade, the SELL
    activity, the sale proceeds and the index of the position. *)
Definition sellPosition (day : DailyCandle) (sellPrice : number)
  (acc : Sells) (pos : Position) (idx : nat) : Sells :=
  let profit := (sellPrice - p_buyPrice pos) * p_quantity pos in
  let profitPercent :=
    ((sellPrice - p_buyPrice pos) / p_buyPrice pos) * ofZ 100 in
  let holdingDays := holdingDaysOf (p_buyDate pos) (c_date day) in
  mkSells
    (x_trades acc
     ++ [mkTrade symbol (p_buyDate pos) (p_buyPrice pos) (c_date day)
           sellPrice (p_buyNumber pos) (p_targetPercent pos) profit
           profitPercent holdingDays])
    (x_activities acc
     ++ [mkActivity symbol SELL sellPrice (p_quantity pos)
           (p_quantity pos * sellPrice) (p_buyNumber pos) (Some profit)
           (c_date day) (Some holdingDays) (Some (p_buyDate pos))])
    (x_cash acc + p_quantity pos * sellPrice)
    (x_positionsToClose acc ++ [idx]).

Definition aggregateTargetPrice (ps : list Position) : number :=
  match ps with
  | [] => ofZ 0
  | first :: _ =>
      weightedAvgPrice ps * (ofZ 1 + p_targetPercent first / ofZ 100)
  end.

(** The LIFO / individual exit loop body. *)
Definition sellIfTarget (day : DailyCandle) (acc : Sells) (pos : Position)
  (j : nat) : Sells :=
  let targetPrice :=
    p_buyPrice pos * (ofZ 1 + p_targetPercent pos / ofZ 100) in
  if geb (c_high day) targetPrice
  then sellPosition day targetPrice acc pos j
  else acc.

(** Step 2 of a day: check for sells. *)
Definition checkSells (day : DailyCandle) (s : Sim) : Sells :=
  let start := mkSells (trades s) [] (cash s) [] in
  let ps := internalOpenPositions s in
  match exitStrategy, ps with
  | WEIGHTED_AVERAGE, _ :: _ =>
      let sellPrice := aggregateTargetPrice ps in
      if geb (c_high day) sellPrice
      then forEachIdx (sellPosition day sellPrice) ps 0%nat start
      else start
  | _, _ => forEachIdx (sellIfTarget day) ps 0%nat start
  end.

(** Removal of the closed positions and the reset of the buying
    sequence. *)
Definition afterSells (s : Sim) (x : Sells) : Sim :=
  let remaining :=
    filterIdx (fun idx => negb (includes (x_positionsToClose x) idx))
      (internalOpenPositions s) 0%nat in
  let reset :=
    (Nat.eqb (length remaining) 0) && gtb (currentBuyNumber s) (ofZ 0) in
  mkSim (x_cash x)
    (if reset then false else isTracking s)
    (if reset then ofZ 0 else currentBuyNumber s)
    remaining (maxEquity s) (maxDrawdown s) (x_trades x) (dailyLog s).

(** Step 3 of a day: check for entry signals.  Returns the state and the
    activities logged by this step. *)
Definition checkEntry (day : DailyCandle) (twentyDayHigh twentyDayLow : number)
  (s : Sim) : Sim * list TradeActivity :=
  let tracking :=
    if leb (c_low day) twentyDayLow then true else isTracking s in
  if tracking && gtb (c_high day) twentyDayHigh then
    if ltb (currentBuyNumber s) avgLevels then
      let buyNumber := currentBuyNumber s + ofZ 1 in
      let targetPercent := targetProfitPercent in
      let buyPrice := twentyDayHigh in
      let quantity := Math_floor (tradeAmount / buyPrice) in
      if gtb quantity (ofZ 0) && geb (cash s) (quantity * buyPrice) then
        (mkSim (cash s - quantity * buyPrice) false buyNumber
           (internalOpenPositions s ++
              [mkPosition (c_date day) buyPrice quantity buyNumber targetPercent])
           (maxEquity s) (maxDrawdown s) (trades s) (dailyLog s),
         [mkActivity symbol BUY buyPrice quantity (quantity * buyPrice)
            buyNumber None (c_date day) None None])
      else if gtb quantity (ofZ 0) && ltb (cash s) (quantity * buyPrice) then
        (mkSim (cash s) false buyNumber (internalOpenPositions s)
           (maxEquity s) (maxDrawdown s) (trades s) (dailyLog s),
         [mkActivity symbol SKIPPED buyPrice (ofZ 0) (ofZ 0) buyNumber None
            (c_date day) None None])
      else
        (mkSim (cash s) false buyNumber (internalOpenPositions s)
           (maxEquity s) (maxDrawdown s) (trades s) (dailyLog s), [])
    else
      (mkSim (cash s) false (currentBuyNumber s) (internalOpenPositions s)
         (maxEquity s) (maxDrawdown s) (trades s) (dailyLog s), [])
  else
    (mkSim (cash s) tracking (currentBuyNumber s) (internalOpenPositions s)
       (maxEquity s) (maxDrawdown s) (trades s) (dailyLog s), []).

(** Step 4 of a day: end-of-day accounting and the ledger entry. *)
Definition endOfDay (day : DailyCandle) (activitiesToday : list TradeActivity)
  (s : Sim) : Sim :=
  let invested :=
    fold_left (fun invested pos => invested + p_quantity pos * c_close day)
      (internalOpenPositions s) (ofZ 0) in
  let currentEquity := cash s + invested in
  let maxEquity' :=
    if gtb currentEquity (maxEquity s) then currentEquity else maxEquity s in
  let drawdown := ((maxEquity' - currentEquity) / maxEquity') * ofZ 100 in
  let maxDrawdown' :=
    if gtb drawdown (maxDrawdown s) then drawdown else maxDrawdown s in
  mkSim (cash s) (isTracking s) (currentBuyNumber s) (internalOpenPositions s)
    maxEquity' maxDrawdown' (trades s)
    (dailyLog s ++
       [mkDailyState (c_date day) (cash s) invested currentEquity (ofZ 0)
          activitiesToday]).

(** One iteration of the day loop, at index [i]. *)
Definition processDay (s : Sim) (i : nat) : Sim :=
  let day := at_ candles i in
  let twentyDayHigh := twentyDayHighAt candles i in
  let twentyDayLow := twentyDayLowAt candles i in
  let x := checkSells day s in
  let s1 := afterSells s x in
  let '(s2, entryActivities) := checkEntry day twentyDayHigh twentyDayLow s1 in
  endOfDay day (x_activities x ++ entryActivities) s2.

Definition initialSim : Sim :=
  mkSim initialCapital false (ofZ 0) [] initialCapital (ofZ 0) [] [].

(** The state after the iterations [i = 20 .. 20 + n - 1]. *)
Definition simAfter (n : nat) : Sim :=
  fold_left processDay (seq 20 n) initialSim.

End RunBacktest.

(** *** Histories of the examples *)

Definition bar (d : Z) (h l c : number) : DailyCandle :=
  mkCandle "TEST" d c h l c (ofZ 0).

(** Twenty quiet days, high 10 and low 9. *)
Definition quiet20 : list DailyCandle :=
  map (fun d => bar (Z.of_nat d) (ofZ 10) (ofZ 9) (ofZ 10)) (seq 0 20).

(** A low touch and a breakout above 10 on day 20. *)
Definition breakoutHistory : list DailyCandle :=
  quiet20 ++ [bar 20 (ofZ 11) (ofZ 9) (ofZ 10);
              bar 21 (ofZ 10) (ofZ 9) (ofZ 10)].

(** A purchase at 10 on day 20, twenty days around 8, a purchase at 8 on
    day 41 and a high of 10 on day 42. *)
Definition twoLotHistory : list DailyCandle :=
  quiet20 ++ [bar 20 (ofZ 11) (ofZ 9) (ofZ 10)]
  ++ map (fun d => bar (Z.of_nat d) (ofZ 8) (ofZ 7) (ofZ 8)) (seq 21 20)
  ++ [bar 41 (ofZ 9) (ofZ 7) (ofZ 8); bar 42 (ofZ 10) (ofZ 8) (ofZ 9)].

End Double.

(** * Theorems *)

(** ** The loops *)

Lemma simAfter_S symbol candles initialCapital perTradeAmount exitStrategy
  targetProfitPercent avgLevels n :
  simAfter symbol candles initialCapital perTradeAmount exitStrategy
    targetProfitPercent avgLevels (Datatypes.S n)
  = processDay symbol candles initialCapital perTradeAmount exitStrategy
      targetProfitPercent avgLevels
      (simAfter symbol candles initialCapital perTradeAmount exitStrategy
         targetProfitPercent avgLevels n) (20 + n).
Proof.
  unfold simAfter. rewrite seq_S, fold_left_app. reflexivity.
Qed.

Lemma scanAfter_S candles n :
  scanAfter candles (Datatypes.S n) = scanDay candles (scanAfter candles n) (20 + n).
Proof.
  unfold scanAfter. rewrite seq_S, fold_left_app. reflexivity.
Qed.

(** ** Insufficient data *)

(** C7: with fewer than 21 bars [analyzeStock] and [runBacktest] both return
    [null] (here [None]); with at least 21 bars both return a result.  Both
    functions are total: no input raises. *)
Theorem insufficient_data_is_null symbol candles initialCapital perTradeAmount
  exitStrategy targetProfitPercent avgLevels :
  (analyzeStock symbol candles = None <-> (length candles < 21)%nat)
  /\ (runBacktest symbol candles initialCapital perTradeAmount exitStrategy
        targetProfitPercent avgLevels = None <-> (length candles < 21)%nat)
  /\ ((21 <= length candles)%nat <->
      (exists a r,
          analyzeStock symbol candles = Some a
          /\ runBacktest symbol candles initialCapital perTradeAmount
               exitStrategy targetProfitPercent avgLevels = Some r)).
Proof.
  unfold analyzeStock, runBacktest.
  destruct (Nat.ltb_spec (length candles) 21) as [Hlt | Hge].
  - repeat split; intros; try reflexivity; try assumption; try lia.
    destruct H as (a & r & Ha & _). discriminate.
  - repeat split; intros; try discriminate; try lia.
    eexists. eexists. split; reflexivity.
Qed.

(** ** Comparisons *)

Lemma Qleb_true x y : Qleb x y = true <-> x <= y.
Proof. apply Qle_bool_iff. Qed.

Lemma Qgeb_true x y : Qgeb x y = true <-> y <= x.
Proof. apply Qle_bool_iff. Qed.

Lemma Qgtb_true x y : Qgtb x y = true <-> y < x.
Proof.
  unfold Qgtb. rewrite negb_true_iff. split; intro H.
  - apply Qnot_le_lt. intro Hle. apply Qle_bool_iff in Hle. congruence.
  - destruct (Qle_bool x y) eqn:E; [| reflexivity].
    apply Qle_bool_iff in E. exfalso. exact (Qlt_not_le _ _ H E).
Qed.

Lemma Qltb_true x y : Qltb x y = true <-> x < y.
Proof. apply (Qgtb_true y x). Qed.

Lemma Qgtb_false x y : Qgtb x y = false <-> x <= y.
Proof.
  unfold Qgtb. rewrite negb_false_iff. apply Qle_bool_iff.
Qed.

Lemma Qltb_false x y : Qltb x y = false <-> y <= x.
Proof. apply (Qgtb_false y x). Qed.

(** ** The signal analyzer *)

(** C6: on day 21 of [wideDayHistory], processed while tracking, the high
    breaks the 20-day high and the low touches the 20-day low.  The
    analyzer records the buy trigger of that day and switches tracking off,
    and then reports the status TRACKING, not BUY_TRIGGERED; the simulator
    buys on that very day.  The status no longer says what the analyzer
    does: on [lostBreakoutHistory] the next day breaks the 20-day high
    without touching the low and the reported status stays TRACKING. *)
Lemma breakout_on_a_retouch_day_is_reported_as_tracking :
  scanTracking (scanAfter wideDayHistory 1) = true
  /\ twentyDayHighAt wideDayHistory 21 < c_high (at_ wideDayHistory 21)
  /\ c_low (at_ wideDayHistory 21) <= twentyDayLowAt wideDayHistory 21
  /\ option_map s_status (analyzeStock "TEST" wideDayHistory) = Some TRACKING
  /\ option_map s_buyTriggerDate (analyzeStock "TEST" wideDayHistory)
     = Some (Some 21%Z)
  /\ scanTracking (scanAfter wideDayHistory 2) = false
  /\ (exists ledgerEntry a,
         nth_error
           (dailyLog (simAfter "TEST" wideDayHistory 1000 (Some 100) LIFO 6 3 2))
           1
         = Some ledgerEntry
         /\ d_date ledgerEntry = 21%Z
         /\ d_activities ledgerEntry = [a]
         /\ a_type a = BUY)
  /\ twentyDayHighAt lostBreakoutHistory 22
     < c_high (at_ lostBreakoutHistory 22)
  /\ ~ c_low (at_ lostBreakoutHistory 22)
       <= twentyDayLowAt lostBreakoutHistory 22
  /\ option_map s_status (analyzeStock "TEST" lostBreakoutHistory)
     = Some TRACKING
  /\ option_map s_buyTriggerDate (analyzeStock "TEST" lostBreakoutHistory)
     = Some (Some 21%Z).
Proof.
  split; [reflexivity |].
  split; [vm_compute; reflexivity |].
  split; [vm_compute; discriminate |].
  split; [vm_compute; reflexivity |].
  split; [vm_compute; reflexivity |].
  split; [vm_compute; reflexivity |].
  split.
  { eexists. eexists. split; [vm_compute; reflexivity |].
    split; [reflexivity | split; reflexivity]. }
  split; [vm_compute; reflexivity |].
  split; [intro H; vm_compute in H; apply H; reflexivity |].
  split; vm_compute; reflexivity.
Qed.

(** ** The sell loops *)

Section SellLoop.

Variable symbol : string.
Variable day : DailyCandle.
Variable reach : Position -> bool.
Variable price : Position -> Q.

(** Both sell loops are instances of one loop: sell [pos] at [price pos]
    when [reach pos]. *)
Lemma sell_loop ps : forall idx acc,
  forEachIdx
    (fun acc pos j =>
       if reach pos then sellPosition symbol day (price pos) acc pos j else acc)
    ps idx acc
  = mkSells
      (x_trades acc
       ++ map (fun pos => closedTrade symbol day (price pos) pos) (filter reach ps))
      (x_activities acc
       ++ map (fun pos => sellActivity symbol day (price pos) pos) (filter reach ps))
      (proceeds price (filter reach ps) (x_cash acc))
      (x_positionsToClose acc ++ indicesWhere reach ps idx).
Proof.
  induction ps as [| pos ps IH]; intros idx acc.
  - destruct acc. cbn. rewrite !app_nil_r. reflexivity.
  - cbn [forEachIdx filter indicesWhere]. destruct (reach pos).
    + rewrite IH. unfold sellPosition. cbn [x_trades x_activities x_cash
        x_positionsToClose map proceeds fold_left].
      rewrite <- !app_assoc. reflexivity.
    + apply IH.
Qed.

Lemma indicesWhere_ge ps : forall idx k,
  In k (indicesWhere reach ps idx) -> (idx <= k)%nat.
Proof.
  induction ps as [| pos ps IH]; intros idx k Hin; [contradiction |].
  cbn [indicesWhere] in Hin. destruct (reach pos).
  - destruct Hin as [<- | Hin]; [lia |]. apply IH in Hin. lia.
  - apply IH in Hin. lia.
Qed.

Lemma includes_In xs k : includes xs k = true <-> In k xs.
Proof.
  unfold includes. rewrite existsb_exists. split.
  - intros (x & Hin & Heq). apply Nat.eqb_eq in Heq. subst. assumption.
  - intro Hin. exists k. split; [assumption | apply Nat.eqb_refl].
Qed.

(** Removing the indices the loop collected keeps the positions that did
    not reach their target, in order. *)
Lemma filterIdx_indicesWhere ps : forall idx pre,
  (forall k, In k pre -> (k < idx)%nat) ->
  filterIdx (fun k => negb (includes (pre ++ indicesWhere reach ps idx) k)) ps idx
  = filter (fun pos => negb (reach pos)) ps.
Proof.
  induction ps as [| pos ps IH]; intros idx pre Hpre; [reflexivity |].
  cbn [filterIdx filter indicesWhere]. destruct (reach pos) eqn:Hr; cbn [negb].
  - assert (Hin : includes (pre ++ idx :: indicesWhere reach ps (Datatypes.S idx)) idx
                  = true).
    { apply includes_In. apply in_or_app. right. left. reflexivity. }
    rewrite Hin. cbn [negb].
    replace (pre ++ idx :: indicesWhere reach ps (Datatypes.S idx))
      with ((pre ++ [idx]) ++ indicesWhere reach ps (Datatypes.S idx))
      by (rewrite <- app_assoc; reflexivity).
    apply IH. intros k Hk. apply in_app_or in Hk.
    destruct Hk as [Hk | [<- | []]]; [apply Hpre in Hk |]; lia.
  - assert (Hout : includes (pre ++ indicesWhere reach ps (Datatypes.S idx)) idx
                   = false).
    { destruct (includes (pre ++ indicesWhere reach ps (Datatypes.S idx)) idx) eqn:E;
        [| reflexivity].
      apply includes_In in E. apply in_app_or in E. destruct E as [E | E].
      - apply Hpre in E. lia.
      - apply indicesWhere_ge in E. lia. }
    rewrite Hout. cbn [negb]. f_equal.
    apply IH. intros k Hk. apply Hpre in Hk. lia.
Qed.

End SellLoop.

Lemma filter_true {A : Type} (xs : list A) : filter (fun _ => true) xs = xs.
Proof. induction xs as [| x xs IH]; cbn; [| rewrite IH]; reflexivity. Qed.

Lemma filter_false {A : Type} (xs : list A) : filter (fun _ => false) xs = [].
Proof. induction xs as [| x xs IH]; cbn; [reflexivity | exact IH]. Qed.

(** What a sell check leaves behind, for the loop that sells [pos] at
    [price pos] when [reach pos]. *)
Lemma afterSells_sell_loop symbol day (reach : Position -> bool)
  (price : Position -> Q) s :
  let x :=
    forEachIdx
      (fun acc pos j =>
         if reach pos then sellPosition symbol day (price pos) acc pos j else acc)
      (internalOpenPositions s) 0%nat (mkSells (trades s) [] (cash s) []) in
  x_trades x
  = trades s ++ map (fun pos => closedTrade symbol day (price pos) pos)
                  (filter reach (internalOpenPositions s))
  /\ x_activities x
     = map (fun pos => sellActivity symbol day (price pos) pos)
         (filter reach (internalOpenPositions s))
  /\ x_cash x = proceeds price (filter reach (internalOpenPositions s)) (cash s)
  /\ internalOpenPositions (afterSells s x)
     = filter (fun pos => negb (reach pos)) (internalOpenPositions s)
  /\ cash (afterSells s x) = x_cash x
  /\ trades (afterSells s x) = x_trades x
  /\ dailyLog (afterSells s x) = dailyLog s.
Proof.
  intro x. subst x. rewrite sell_loop.
  cbn [x_trades x_activities x_cash x_positionsToClose app afterSells
         internalOpenPositions cash trades dailyLog].
  repeat split.
  unfold afterSells. cbn [internalOpenPositions x_positionsToClose].
  apply (filterIdx_indicesWhere reach (internalOpenPositions s) 0 []).
  intros k [].
Qed.

(** The sell check of a day is such a loop: in LIFO mode each position
    against its own target; in WEIGHTED_AVERAGE mode all positions at the
    aggregate target when the high reaches it, and none otherwise. *)
Lemma checkSells_loop symbol exitStrategy day s :
  exists (reach : Position -> bool) (price : Position -> Q),
    checkSells symbol exitStrategy day s
    = forEachIdx
        (fun acc pos j =>
           if reach pos then sellPosition symbol day (price pos) acc pos j else acc)
        (internalOpenPositions s) 0%nat (mkSells (trades s) [] (cash s) [])
    /\ ((reach = reachesOwnTarget day /\ price = targetPriceOf
         /\ (exitStrategy = LIFO \/ internalOpenPositions s = []))
        \/ (exitStrategy = WEIGHTED_AVERAGE /\ internalOpenPositions s <> []
            /\ price = (fun _ => aggregateTargetPrice (internalOpenPositions s))
            /\ ((reach = (fun _ => true)
                 /\ aggregateTargetPrice (internalOpenPositions s) <= c_high day)
                \/ (reach = (fun _ => false)
                    /\ c_high day < aggregateTargetPrice (internalOpenPositions s))))).
Proof.
  unfold checkSells.
  destruct exitStrategy.
  - destruct (internalOpenPositions s) as [| first rest] eqn:Hps.
    + exists (reachesOwnTarget day), targetPriceOf. split; [reflexivity |].
      left. auto.
    + destruct (Qgeb (c_high day) (aggregateTargetPrice (first :: rest))) eqn:Hhit.
      * exists (fun _ => true), (fun _ => aggregateTargetPrice (first :: rest)).
        split; [reflexivity |]. right. repeat split; try discriminate.
        left. split; [reflexivity |]. apply Qgeb_true. assumption.
      * exists (fun _ => false), (fun _ => aggregateTargetPrice (first :: rest)).
        split.
        { clear. generalize (mkSells (trades s) [] (cash s) []).
          generalize 0%nat. induction (first :: rest) as [| p ps IH];
            intros; [reflexivity | cbn; apply IH]. }
        right. repeat split; try discriminate.
        right. split; [reflexivity |]. apply Qltb_true.
        unfold Qltb. unfold Qgeb in Hhit. rewrite Hhit. reflexivity.
  - exists (reachesOwnTarget day), targetPriceOf. split.
    + destruct (internalOpenPositions s); reflexivity.
    + left. auto.
Qed.

(** ** One day *)

Section Day.

Variable symbol : string.
Variable candles : list DailyCandle.
Variable initialCapital : Q.
Variable perTradeAmount : option Q.
Variable exitStrategy : ExitStrategy.
Variable targetProfitPercent : Q.
Variable avgLevels : Q.

Local Abbreviation entry :=
  (checkEntry symbol initialCapital perTradeAmount targetProfitPercent avgLevels).
Local Abbreviation step :=
  (processDay symbol candles initialCapital perTradeAmount exitStrategy
     targetProfitPercent avgLevels).

Lemma processDay_eq s i :
  let day := at_ candles i in
  let x := checkSells symbol exitStrategy day s in
  let r := entry day (twentyDayHighAt candles i) (twentyDayLowAt candles i)
             (afterSells s x) in
  step s i = endOfDay day (x_activities x ++ snd r) (fst r).
Proof.
  cbv zeta. unfold processDay.
  destruct (checkEntry symbol initialCapital perTradeAmount targetProfitPercent
              avgLevels (at_ candles i) (twentyDayHighAt candles i)
              (twentyDayLowAt candles i)
              (afterSells s (checkSells symbol exitStrategy (at_ candles i) s)))
    as [s2 acts].
  reflexivity.
Qed.

(** The entry check either leaves cash and positions alone and logs no
    BUY, or buys: one position at the 20-day high, paid from cash. *)
Lemma checkEntry_effect day hi lo s :
  let r := entry day hi lo s in
  let quantity := Math_floor (tradeAmount initialCapital perTradeAmount / hi) in
  let buyNumber := (currentBuyNumber s + 1)%Z in
  trades (fst r) = trades s
  /\ dailyLog (fst r) = dailyLog s
  /\ ((internalOpenPositions (fst r) = internalOpenPositions s
       /\ cash (fst r) = cash s
       /\ Forall (fun a => a_type a <> BUY) (snd r))
      \/ (0 < quantity
          /\ quantity * hi <= cash s
          /\ inject_Z (currentBuyNumber s) < avgLevels
          /\ hi < c_high day
          /\ (c_low day <= lo \/ isTracking s = true)
          /\ internalOpenPositions (fst r)
             = internalOpenPositions s
               ++ [mkPosition (c_date day) hi quantity buyNumber
                     targetProfitPercent]
          /\ cash (fst r) = cash s - quantity * hi
          /\ currentBuyNumber (fst r) = buyNumber
          /\ snd r
             = [mkActivity symbol BUY hi quantity (quantity * hi) buyNumber
                  None (c_date day) None None])).
Proof.
  cbv zeta. unfold checkEntry.
  set (tracking := if Qleb (c_low day) lo then true else isTracking s).
  set (quantity := Math_floor (tradeAmount initialCapital perTradeAmount / hi)).
  destruct (tracking && Qgtb (c_high day) hi) eqn:Hfire.
  2:{ cbn [fst snd trades dailyLog internalOpenPositions cash]. auto 10. }
  destruct (Qltb (inject_Z (currentBuyNumber s)) avgLevels) eqn:Hlevel.
  2:{ cbn [fst snd trades dailyLog internalOpenPositions cash]. auto 10. }
  destruct (Qgtb quantity 0 && Qgeb (cash s) (quantity * hi)) eqn:Hbuy.
  - cbn [fst snd trades dailyLog internalOpenPositions cash currentBuyNumber].
    split; [reflexivity | split; [reflexivity |]]. right.
    apply andb_true_iff in Hfire. destruct Hfire as [Htr Hhigh].
    apply andb_true_iff in Hbuy. destruct Hbuy as [Hq Hcash].
    apply Qgtb_true in Hhigh, Hq. apply Qgeb_true in Hcash.
    apply Qltb_true in Hlevel.
    repeat split; try assumption; try reflexivity.
    subst tracking. destruct (Qleb (c_low day) lo) eqn:Hlow.
    + left. apply Qleb_true. assumption.
    + right. assumption.
  - destruct (Qgtb quantity 0 && Qltb (cash s) (quantity * hi)).
    + cbn [fst snd trades dailyLog internalOpenPositions cash].
      split; [reflexivity | split; [reflexivity |]]. left.
      repeat split. constructor; [cbn; discriminate | constructor].
    + cbn [fst snd trades dailyLog internalOpenPositions cash]. auto 10.
Qed.

Lemma endOfDay_effect day acts s :
  cash (endOfDay day acts s) = cash s
  /\ internalOpenPositions (endOfDay day acts s) = internalOpenPositions s
  /\ trades (endOfDay day acts s) = trades s
  /\ currentBuyNumber (endOfDay day acts s) = currentBuyNumber s
  /\ dailyLog (endOfDay day acts s)
     = dailyLog s
       ++ [mkDailyState (c_date day) (cash s)
             (investedAt day (internalOpenPositions s))
             (cash s + investedAt day (internalOpenPositions s)) 0 acts].
Proof. repeat split. Qed.

Local Abbreviation run :=
  (simAfter symbol candles initialCapital perTradeAmount exitStrategy
     targetProfitPercent avgLevels).

End Day.

(** ** Runs without a breakout *)

Section QuietRun.

Variable symbol : string.
Variable candles : list DailyCandle.
Variable initialCapital : Q.
Variable perTradeAmount : option Q.
Variable exitStrategy : ExitStrategy.
Variable targetProfitPercent : Q.
Variable avgLevels : Q.

Local Abbreviation run :=
  (simAfter symbol candles initialCapital perTradeAmount exitStrategy
     targetProfitPercent avgLevels).

Hypothesis no_breakout : forall i,
  (20 <= i < length candles)%nat ->
  c_high (at_ candles i) <= twentyDayHighAt candles i.

Lemma quiet_run n :
  (n <= length candles - 20)%nat ->
  cash (run n) = initialCapital
  /\ internalOpenPositions (run n) = []
  /\ trades (run n) = [].
Proof.
  induction n as [| n IH]; intro Hn.
  - repeat split.
  - destruct IH as (Hcash & Hlots & Htrades); [lia |].
    rewrite simAfter_S, processDay_eq.
    set (day := at_ candles (20 + n)).
    set (x := checkSells symbol exitStrategy day (run n)).
    destruct (checkSells_loop symbol exitStrategy day (run n))
      as (reach & price & Heq & _).
    destruct (afterSells_sell_loop symbol day reach price (run n))
      as (Ht & _ & Hc & Hps & Hc1 & Ht1 & _).
    rewrite <- Heq in Ht, Hc, Hps, Hc1, Ht1. fold x in Ht, Hc, Hps, Hc1, Ht1.
    rewrite Hlots in Ht, Hc, Hps.
    cbn [filter map proceeds fold_left] in Ht, Hc, Hps.
    destruct (checkEntry_effect symbol initialCapital perTradeAmount
                targetProfitPercent avgLevels day
                (twentyDayHighAt candles (20 + n))
                (twentyDayLowAt candles (20 + n)) (afterSells (run n) x))
      as (Ht2 & _ & [(Hps2 & Hc2 & _) | Hbought]).
    + cbn [endOfDay cash internalOpenPositions trades].
      rewrite Hc2, Hps2, Ht2, Hc1, Hps, Ht1, Hc, Ht, Hcash, Htrades.
      rewrite app_nil_r. repeat split.
    + destruct Hbought as (_ & _ & _ & Hhigh & _). exfalso.
      apply (Qlt_not_le _ _ Hhigh). apply no_breakout. lia.
Qed.

End QuietRun.

(** C4: when no day from index 20 on has a high above the maximum high of
    the 20 bars before it, [runBacktest] returns a result with no trade, no
    open position and a final capital equal to the initial capital. *)
Theorem no_breakout_no_trades symbol candles initialCapital perTradeAmount
  exitStrategy targetProfitPercent avgLevels :
  (21 <= length candles)%nat ->
  (forall i, (20 <= i < length candles)%nat ->
             c_high (at_ candles i) <= twentyDayHighAt candles i) ->
  exists r,
    runBacktest symbol candles initialCapital perTradeAmount exitStrategy
      targetProfitPercent avgLevels = Some r
    /\ r_trades r = []
    /\ r_totalTrades r = 0%nat
    /\ r_openPositions r = []
    /\ r_finalCapital r == initialCapital.
Proof.
  intros Hlen Hquiet. unfold runBacktest.
  destruct (Nat.ltb_spec (length candles) 21) as [Hlt | _]; [lia |].
  eexists. split; [reflexivity |].
  destruct (quiet_run symbol candles initialCapital perTradeAmount exitStrategy
              targetProfitPercent avgLevels Hquiet (length candles - 20))
    as (Hcash & Hlots & Htrades); [lia |].
  unfold finalize.
  cbn [r_trades r_totalTrades r_openPositions r_finalCapital].
  rewrite Hcash, Hlots, Htrades. cbn [map fold_left length].
  repeat split. ring.
Qed.

(** Twenty-one quiet days: capital 1000 in, capital 1000 out. *)
Lemma no_breakout_no_trades_witness :
  exists r,
    runBacktest "TEST" quietHistory 1000 (Some 100) WEIGHTED_AVERAGE 6 3 = Some r
    /\ r_trades r = []
    /\ r_finalCapital r == 1000.
Proof.
  destruct (no_breakout_no_trades "TEST" quietHistory 1000 (Some 100)
              WEIGHTED_AVERAGE 6 3) as (r & Hr & Ht & _ & _ & Hc).
  - vm_compute. lia.
  - intros i Hi. assert (i = 20%nat) as -> by (vm_compute in Hi; lia).
    vm_compute. discriminate.
  - exists r. repeat split; assumption.
Defined.

(** ** Sums and windows *)

Lemma sum_ge {A : Type} (f : A -> Q) (xs : list A) : forall a,
  (forall x, In x xs -> 0 <= f x) ->
  a <= fold_left (fun sum x => sum + f x) xs a.
Proof.
  induction xs as [| x xs IH]; intros a Hf; cbn [fold_left].
  - apply Qle_refl.
  - apply Qle_trans with (a + f x).
    + assert (0 <= f x) by (apply Hf; left; reflexivity). Lqa.lra.
    + apply IH. intros y Hy. apply Hf. right. assumption.
Qed.

Lemma In_firstn {A : Type} (x : A) xs : forall n, In x (firstn n xs) -> In x xs.
Proof.
  induction xs as [| y xs IH]; intros [| n] Hin; cbn in Hin;
    try contradiction.
  destruct Hin as [<- | Hin]; [left; reflexivity | right; eapply IH; eassumption].
Qed.

Lemma In_skipn {A : Type} (x : A) xs : forall n, In x (skipn n xs) -> In x xs.
Proof.
  induction xs as [| y xs IH]; intros [| n] Hin; cbn in Hin;
    try contradiction; try assumption.
  right. eapply IH; eassumption.
Qed.

Lemma In_slice {A : Type} (x : A) a b xs : In x (slice a b xs) -> In x xs.
Proof.
  unfold slice. intro Hin. apply In_firstn in Hin. apply In_skipn in Hin.
  assumption.
Qed.

Lemma fold_Qmax_ge xs : forall x, x <= fold_left Qmax xs x.
Proof.
  induction xs as [| y xs IH]; intro x; cbn [fold_left].
  - apply Qle_refl.
  - apply Qle_trans with (Qmax x y); [apply Q.le_max_l | apply IH].
Qed.

Lemma twentyDayHigh_nonneg candles i :
  (forall c, In c candles -> 0 <= c_high c) -> 0 <= twentyDayHighAt candles i.
Proof.
  intro Hhigh. unfold twentyDayHighAt, Math_max.
  destruct (slice (i - 20) i candles) as [| c cs] eqn:Hw; cbn [map].
  - apply Qle_refl.
  - apply Qle_trans with (c_high c); [| apply fold_Qmax_ge].
    apply Hhigh. apply (In_slice c (i - 20) i). rewrite Hw. left. reflexivity.
Qed.

(** ** Reachable states *)

Section Reachable.

Variable symbol : string.
Variable candles : list DailyCandle.
Variable initialCapital : Q.
Variable perTradeAmount : option Q.
Variable exitStrategy : ExitStrategy.
Variable targetProfitPercent : Q.
Variable avgLevels : Q.

Local Abbreviation run :=
  (simAfter symbol candles initialCapital perTradeAmount exitStrategy
     targetProfitPercent avgLevels).

Variable P : Position -> Prop.

Hypothesis bought_lot : forall i buyNumber,
  let twentyDayHigh := twentyDayHighAt candles i in
  let quantity :=
    Math_floor (tradeAmount initialCapital perTradeAmount / twentyDayHigh) in
  0 < quantity ->
  P (mkPosition (c_date (at_ candles i)) twentyDayHigh quantity buyNumber
       targetProfitPercent).

(** A property of every lot at its purchase holds of every open lot. *)
Lemma open_lots_Forall n : Forall P (internalOpenPositions (run n)).
Proof.
  induction n as [| n IH]; [constructor |].
  rewrite simAfter_S, processDay_eq.
  set (day := at_ candles (20 + n)).
  set (x := checkSells symbol exitStrategy day (run n)).
  destruct (checkSells_loop symbol exitStrategy day (run n))
    as (reach & price & Heq & _).
  destruct (afterSells_sell_loop symbol day reach price (run n))
    as (_ & _ & _ & Hps & _).
  rewrite <- Heq in Hps. fold x in Hps.
  assert (Hkept : Forall P (internalOpenPositions (afterSells (run n) x))).
  { rewrite Hps. apply (incl_Forall (l1 := internalOpenPositions (run n)));
      [apply incl_filter | exact IH]. }
  destruct (checkEntry_effect symbol initialCapital perTradeAmount
              targetProfitPercent avgLevels day
              (twentyDayHighAt candles (20 + n))
              (twentyDayLowAt candles (20 + n)) (afterSells (run n) x))
    as (_ & _ & [(Hps2 & _) | Hbought]).
  - destruct (endOfDay_effect day
      (x_activities x
       ++ snd (checkEntry symbol initialCapital perTradeAmount
                 targetProfitPercent avgLevels day
                 (twentyDayHighAt candles (20 + n))
                 (twentyDayLowAt candles (20 + n)) (afterSells (run n) x)))
      (fst (checkEntry symbol initialCapital perTradeAmount
                 targetProfitPercent avgLevels day
                 (twentyDayHighAt candles (20 + n))
                 (twentyDayLowAt candles (20 + n)) (afterSells (run n) x))))
      as (_ & Hps3 & _).
    rewrite Hps3, Hps2. exact Hkept.
  - destruct Hbought as (Hq & _ & _ & _ & _ & Hps2 & _).
    destruct (endOfDay_effect day
      (x_activities x
       ++ snd (checkEntry symbol initialCapital perTradeAmount
                 targetProfitPercent avgLevels day
                 (twentyDayHighAt candles (20 + n))
                 (twentyDayLowAt candles (20 + n)) (afterSells (run n) x)))
      (fst (checkEntry symbol initialCapital perTradeAmount
                 targetProfitPercent avgLevels day
                 (twentyDayHighAt candles (20 + n))
                 (twentyDayLowAt candles (20 + n)) (afterSells (run n) x))))
      as (_ & Hps3 & _).
    rewrite Hps3, Hps2. apply Forall_app. split; [exact Hkept |].
    constructor; [| constructor]. apply bought_lot. exact Hq.
Qed.

End Reachable.

(** Every open lot has a positive quantity. *)
Lemma open_lots_positive symbol candles initialCapital perTradeAmount
  exitStrategy targetProfitPercent avgLevels n :
  Forall (fun pos => 0 < p_quantity pos)
    (internalOpenPositions
       (simAfter symbol candles initialCapital perTradeAmount exitStrategy
          targetProfitPercent avgLevels n)).
Proof.
  apply open_lots_Forall. intros i buyNumber twentyDayHigh quantity Hq.
  exact Hq.
Qed.

(** ** The exit strategies *)

Lemma checkEntry_activities symbol initialCapital perTradeAmount
  targetProfitPercent avgLevels day hi lo s :
  Forall (fun a => a_type a <> SELL)
    (snd (checkEntry symbol initialCapital perTradeAmount targetProfitPercent
            avgLevels day hi lo s)).
Proof.
  unfold checkEntry.
  repeat match goal with
         | |- context [if ?b then _ else _] => destruct b
         end;
    cbn [snd]; repeat constructor; cbn; discriminate.
Qed.

(** What a day leaves in the trade list and in the ledger, given its sell
    check. *)
Lemma processDay_records symbol candles initialCapital perTradeAmount
  exitStrategy targetProfitPercent avgLevels s i :
  let day := at_ candles i in
  let x := checkSells symbol exitStrategy day s in
  let s' := processDay symbol candles initialCapital perTradeAmount
              exitStrategy targetProfitPercent avgLevels s i in
  trades s' = x_trades x
  /\ exists ledgerEntry entryActivities,
      dailyLog s' = dailyLog s ++ [ledgerEntry]
      /\ d_activities ledgerEntry = x_activities x ++ entryActivities
      /\ Forall (fun a => a_type a <> SELL) entryActivities.
Proof.
  intros day x s'. subst s'. rewrite processDay_eq. fold day x.
  destruct (checkSells_loop symbol exitStrategy day s)
    as (reach & price & Heq & _).
  destruct (afterSells_sell_loop symbol day reach price s)
    as (_ & _ & _ & _ & _ & Ht & Hlog).
  rewrite <- Heq in Ht, Hlog. fold x in Ht, Hlog.
  destruct (checkEntry_effect symbol initialCapital perTradeAmount
              targetProfitPercent avgLevels day (twentyDayHighAt candles i)
              (twentyDayLowAt candles i) (afterSells s x))
    as (Ht2 & Hlog2 & _).
  cbn [endOfDay trades dailyLog]. rewrite Ht2, Hlog2, Ht, Hlog.
  split; [reflexivity |].
  eexists. eexists. split; [reflexivity |]. cbn [d_activities].
  split; [reflexivity |]. apply checkEntry_activities.
Qed.

(** ** Cash *)

Lemma target_factor_nonneg targetPercent :
  -100 <= targetPercent -> 0 <= 1 + targetPercent / 100.
Proof.
  intro Ht.
  setoid_replace (targetPercent / 100) with (targetPercent * (1 # 100))
    by field.
  Lqa.lra.
Qed.

Lemma lotOk_own_target pos :
  lotOk pos -> 0 <= p_quantity pos * targetPriceOf pos.
Proof.
  intros (Hq & Hp & Ht). unfold targetPriceOf.
  apply Qmult_le_0_compat; [apply Qlt_le_weak; assumption |].
  apply Qmult_le_0_compat; [assumption | apply target_factor_nonneg; assumption].
Qed.

Lemma lotOk_aggregate_target lots :
  Forall lotOk lots -> 0 <= aggregateTargetPrice lots.
Proof.
  intro Hall. destruct lots as [| first rest]; [apply Qle_refl |].
  unfold aggregateTargetPrice.
  apply Qmult_le_0_compat.
  - unfold weightedAvgPrice.
    destruct (Qgtb (totalQty (first :: rest)) 0) eqn:Hqty; [| apply Qle_refl].
    apply Qgtb_true in Hqty. unfold Qdiv.
    apply Qmult_le_0_compat.
    + unfold totalCost.
      apply (sum_ge (fun pos => p_quantity pos * p_buyPrice pos)).
      intros pos Hin. rewrite Forall_forall in Hall.
      destruct (Hall pos Hin) as (Hq & Hp & _).
      apply Qmult_le_0_compat; [apply Qlt_le_weak |]; assumption.
    + apply Qinv_le_0_compat. apply Qlt_le_weak. assumption.
  - inversion Hall as [| ? ? (_ & _ & Ht) _]; subst.
    apply target_factor_nonneg. assumption.
Qed.

Section Cash.

Variable symbol : string.
Variable candles : list DailyCandle.
Variable initialCapital : Q.
Variable perTradeAmount : option Q.
Variable exitStrategy : ExitStrategy.
Variable targetProfitPercent : Q.
Variable avgLevels : Q.

Local Abbreviation run :=
  (simAfter symbol candles initialCapital perTradeAmount exitStrategy
     targetProfitPercent avgLevels).

Hypothesis capital_nonneg : 0 <= initialCapital.
Hypothesis target_bounded : -100 <= targetProfitPercent.
Hypothesis highs_nonneg : forall c, In c candles -> 0 <= c_high c.

Lemma open_lots_ok n : Forall lotOk (internalOpenPositions (run n)).
Proof.
  apply open_lots_Forall. intros i buyNumber twentyDayHigh quantity Hq.
  repeat split; cbn [p_quantity p_buyPrice p_targetPercent].
  - exact Hq.
  - apply twentyDayHigh_nonneg. exact highs_nonneg.
  - exact target_bounded.
Qed.

(** A sale only adds to cash. *)
Lemma sells_add_cash n :
  cash (run n)
  <= x_cash (checkSells symbol exitStrategy (at_ candles (20 + n)) (run n)).
Proof.
  set (day := at_ candles (20 + n)).
  pose proof (open_lots_ok n) as Hok. rewrite Forall_forall in Hok.
  destruct (checkSells_loop symbol exitStrategy day (run n))
    as (reach & price & Heq & Hcases).
  destruct (afterSells_sell_loop symbol day reach price (run n))
    as (_ & _ & Hc & _).
  rewrite Heq, Hc. unfold proceeds.
  apply (sum_ge (fun pos => p_quantity pos * price pos)).
  intros pos Hin. apply filter_In in Hin. destruct Hin as [Hin _].
  destruct Hcases as [(_ & -> & _) | (_ & _ & -> & _)].
  - apply lotOk_own_target. apply Hok. assumption.
  - apply Qmult_le_0_compat.
    + apply Qlt_le_weak. apply (Hok pos Hin).
    + apply lotOk_aggregate_target. apply open_lots_ok.
Qed.

Lemma cash_nonneg n :
  0 <= cash (run n) /\ Forall (fun e => 0 <= d_cash e) (dailyLog (run n)).
Proof.
  induction n as [| n (IHcash & IHlog)]; [split; [assumption | constructor] |].
  pose proof (sells_add_cash n) as Hsell.
  rewrite simAfter_S, processDay_eq.
  set (day := at_ candles (20 + n)) in *.
  set (x := checkSells symbol exitStrategy day (run n)) in *.
  destruct (checkSells_loop symbol exitStrategy day (run n))
    as (reach & price & Heq & _).
  destruct (afterSells_sell_loop symbol day reach price (run n))
    as (_ & _ & _ & _ & Hc1 & _ & Hlog1).
  rewrite <- Heq in Hc1, Hlog1. fold x in Hc1, Hlog1.
  destruct (checkEntry_effect symbol initialCapital perTradeAmount
              targetProfitPercent avgLevels day
              (twentyDayHighAt candles (20 + n))
              (twentyDayLowAt candles (20 + n)) (afterSells (run n) x))
    as (_ & Hlog2 & Hcases).
  cbn [endOfDay cash dailyLog]. rewrite Hlog2, Hlog1.
  assert (Hcash : 0 <= cash (fst (checkEntry symbol initialCapital
                    perTradeAmount targetProfitPercent avgLevels day
                    (twentyDayHighAt candles (20 + n))
                    (twentyDayLowAt candles (20 + n)) (afterSells (run n) x)))).
  { destruct Hcases as [(_ & -> & _) | (_ & Hpaid & _ & _ & _ & _ & -> & _)].
    - rewrite Hc1. apply Qle_trans with (cash (run n)); assumption.
    - Lqa.lra. }
  split; [exact Hcash |].
  apply Forall_app. split; [exact IHlog |].
  constructor; [exact Hcash | constructor].
Qed.

End Cash.




(** ** The daily ledger and the portfolio diary *)

Lemma processDay_ledger symbol candles initialCapital perTradeAmount
  exitStrategy targetProfitPercent avgLevels s i :
  exists ledgerEntry,
    dailyLog (processDay symbol candles initialCapital perTradeAmount
                exitStrategy targetProfitPercent avgLevels s i)
    = dailyLog s ++ [ledgerEntry]
    /\ d_profit ledgerEntry = 0
    /\ d_date ledgerEntry = c_date (at_ candles i)
    /\ d_equity ledgerEntry == d_cash ledgerEntry + d_invested ledgerEntry.
Proof.
  rewrite processDay_eq.
  set (day := at_ candles i).
  set (x := checkSells symbol exitStrategy day s).
  destruct (checkSells_loop symbol exitStrategy day s)
    as (reach & price & Heq & _).
  destruct (afterSells_sell_loop symbol day reach price s)
    as (_ & _ & _ & _ & _ & _ & Hlog).
  rewrite <- Heq in Hlog. fold x in Hlog.
  destruct (checkEntry_effect symbol initialCapital perTradeAmount
              targetProfitPercent avgLevels day (twentyDayHighAt candles i)
              (twentyDayLowAt candles i) (afterSells s x))
    as (_ & Hlog2 & _).
  cbn [endOfDay dailyLog]. rewrite Hlog2, Hlog.
  eexists. split; [reflexivity |].
  cbn [d_profit d_date d_equity d_cash d_invested].
  split; [reflexivity | split; [reflexivity | apply Qeq_refl]].
Qed.

Lemma ledger_profit_zero symbol candles initialCapital perTradeAmount
  exitStrategy targetProfitPercent avgLevels n :
  Forall (fun e => d_profit e = 0)
    (dailyLog (simAfter symbol candles initialCapital perTradeAmount
                 exitStrategy targetProfitPercent avgLevels n)).
Proof.
  induction n as [| n IH]; [constructor |].
  rewrite simAfter_S.
  destruct (processDay_ledger symbol candles initialCapital perTradeAmount
              exitStrategy targetProfitPercent avgLevels
              (simAfter symbol candles initialCapital perTradeAmount
                 exitStrategy targetProfitPercent avgLevels n) (20 + n))
    as (e & -> & Hp & _).
  apply Forall_app. split; [exact IH |]. constructor; [exact Hp | constructor].
Qed.

Lemma setDayProfit_length diary : forall i v,
  length (setDayProfit diary i v) = length diary.
Proof.
  induction diary as [| e rest IH]; intros [| i] v; cbn; try reflexivity.
  rewrite IH. reflexivity.
Qed.

Lemma setDayProfit_portfolioValue diary : forall i v j,
  pd_portfolioValue (nth j (setDayProfit diary i v) noPortfolioDay)
  = pd_portfolioValue (nth j diary noPortfolioDay).
Proof.
  induction diary as [| e rest IH]; intros [| i] v [| j]; cbn; try reflexivity.
  apply IH.
Qed.

Lemma setDayProfit_same diary : forall i v,
  (i < length diary)%nat ->
  pd_dayProfit (nth i (setDayProfit diary i v) noPortfolioDay) = v.
Proof.
  induction diary as [| e rest IH]; intros [| i] v Hi; cbn in *;
    try lia; try reflexivity.
  apply IH. lia.
Qed.

Lemma setDayProfit_other diary : forall i v j,
  j <> i ->
  nth j (setDayProfit diary i v) noPortfolioDay = nth j diary noPortfolioDay.
Proof.
  induction diary as [| e rest IH]; intros [| i] v [| j] Hj; cbn;
    try reflexivity; try congruence.
  apply IH. congruence.
Qed.

(** The loop "Calculate daily P&L change", after [k] iterations. *)
Lemma dayProfit_loop diary k :
  (k <= length diary - 1)%nat ->
  let diary' := fold_left dayProfitStep (seq 1 k) diary in
  length diary' = length diary
  /\ (forall j,
         pd_portfolioValue (nth j diary' noPortfolioDay)
         = pd_portfolioValue (nth j diary noPortfolioDay))
  /\ (forall j, (1 <= j <= k)%nat ->
         pd_dayProfit (nth j diary' noPortfolioDay)
         = pd_portfolioValue (nth j diary noPortfolioDay)
           - pd_portfolioValue (nth (j - 1) diary noPortfolioDay))
  /\ (forall j, (j = 0 \/ k < j)%nat ->
         nth j diary' noPortfolioDay = nth j diary noPortfolioDay).
Proof.
  induction k as [| k IH]; intro Hk; cbv zeta.
  - cbn [seq fold_left]. repeat split; intros; try reflexivity; lia.
  - rewrite seq_S, fold_left_app. cbn [fold_left].
    destruct IH as (Hlen & Hpv & Hfilled & Hrest); [lia |].
    set (diary' := fold_left dayProfitStep (seq 1 k) diary) in *.
    unfold dayProfitStep.
    set (v := pd_portfolioValue (nth (1 + k) diary' noPortfolioDay)
              - pd_portfolioValue (nth (1 + k - 1) diary' noPortfolioDay)).
    split; [rewrite setDayProfit_length; exact Hlen |].
    split; [intro j; rewrite setDayProfit_portfolioValue; apply Hpv |].
    split.
    + intros j Hj. destruct (Nat.eq_dec j (1 + k)) as [-> | Hne].
      * rewrite setDayProfit_same by lia. unfold v. rewrite !Hpv. reflexivity.
      * rewrite setDayProfit_other by exact Hne. apply Hfilled. lia.
    + intros j Hj. rewrite setDayProfit_other by lia. apply Hrest. lia.
Qed.

(** C5, as the code has it: [runBacktest] has no second pass, the [profit]
    field of every entry of its daily ledger is 0.  The second pass is in
    the backtest route, over the portfolio diary built from the ledgers:
    there the first entry's [dayProfit] is 0 and every later entry [i] has
    [dayProfit = portfolioValue[i] - portfolioValue[i-1]]. *)
Theorem day_profit_is_filled_in_the_diary :
  (forall symbol candles initialCapital perTradeAmount exitStrategy
          targetProfitPercent avgLevels,
      match runBacktest symbol candles initialCapital perTradeAmount
              exitStrategy targetProfitPercent avgLevels with
      | Some r => Forall (fun e => d_profit e = 0) (r_dailyLog r)
      | None => True
      end)
  /\ (forall initialCapital results,
         let diary := portfolioDiary initialCapital results in
         pd_dayProfit (nth 0 diary noPortfolioDay) = 0
         /\ forall i, (1 <= i < length diary)%nat ->
              pd_dayProfit (nth i diary noPortfolioDay)
              = pd_portfolioValue (nth i diary noPortfolioDay)
                - pd_portfolioValue (nth (i - 1) diary noPortfolioDay)).
Proof.
  split.
  - intros. unfold runBacktest.
    destruct (length candles <? 21)%nat; [exact I |].
    cbn [finalize r_dailyLog]. apply ledger_profit_zero.
  - intros initialCapital results diary. subst diary.
    unfold portfolioDiary, fillDayProfit.
    set (days := sortByDate (collectDays results)).
    set (diary := map (toPortfolioDay initialCapital) days).
    destruct (dayProfit_loop diary (length diary - 1) (Nat.le_refl _))
      as (Hlen & Hpv & Hfilled & Hrest).
    split.
    + rewrite Hrest by (left; reflexivity).
      subst diary. destruct days; reflexivity.
    + intros i Hi. rewrite Hlen in Hi.
      rewrite Hfilled by lia. rewrite !Hpv. reflexivity.
Qed.

(** The diary of the run of [twoLotHistory] alone: its second day loses
    what the ten shares lose between a close of 10 and a close of 8. *)
Lemma day_profit_is_filled_in_the_diary_witness :
  exists r,
    runBacktest "TEST" twoLotHistory 1000 (Some 100) LIFO 6 3 = Some r
    /\ pd_dayProfit (nth 1 (portfolioDiary 1000 [r]) noPortfolioDay) == -20.
Proof.
  let v := eval vm_compute in
    (runBacktest "TEST" twoLotHistory 1000 (Some 100) LIFO 6 3) in
  match v with
  | Some ?r =>
      exists r; split; [vm_compute; reflexivity |];
      destruct day_profit_is_filled_in_the_diary as (_ & Hdiary);
      destruct (Hdiary 1000 [r]) as (_ & Hfill);
      rewrite (Hfill 1%nat) by (vm_compute; lia)
  end.
  vm_compute. reflexivity.
Defined.

(** The [profit] field of a ledger entry is not the change of equity: in
    the result of the run of [twoLotHistory] the equity falls from 1000 to
    980 between the first two ledger entries and the [profit] field of the
    second entry is 0. *)
Lemma ledger_profit_is_not_the_equity_change :
  exists r e0 e1,
    runBacktest "TEST" twoLotHistory 1000 (Some 100) LIFO 6 3 = Some r
    /\ nth_error (r_dailyLog r) 0 = Some e0
    /\ nth_error (r_dailyLog r) 1 = Some e1
    /\ d_equity e0 == 1000
    /\ d_equity e1 == 980
    /\ d_profit e1 = 0
    /\ ~ d_profit e1 == d_equity e1 - d_equity e0.
Proof.
  let v := eval vm_compute in
    (runBacktest "TEST" twoLotHistory 1000 (Some 100) LIFO 6 3) in
  match v with
  | Some ?r =>
      match eval vm_compute in (r_dailyLog r) with
      | ?e0 :: ?e1 :: _ => exists r, e0, e1
      end
  end.
  split; [vm_compute; reflexivity |].
  repeat split; try reflexivity.
  vm_compute. discriminate.
Qed.

(** * Further properties *)

(** ** Sums *)

Lemma fold_left_sumOf {A : Type} (f : A -> Q) (xs : list A) : forall a,
  fold_left (fun sum x => sum + f x) xs a == a + sumOf f xs.
Proof.
  induction xs as [| x xs IH]; intro a; cbn [fold_left sumOf].
  - ring.
  - rewrite IH. ring.
Qed.

Lemma sumOf_app {A : Type} (f : A -> Q) (xs ys : list A) :
  sumOf f (xs ++ ys) == sumOf f xs + sumOf f ys.
Proof.
  induction xs as [| x xs IH]; cbn [app sumOf].
  - ring.
  - rewrite IH. ring.
Qed.

(** ** The accounts of a run *)

Section Accounts.

Variable symbol : string.
Variable candles : list DailyCandle.
Variable initialCapital : Q.
Variable perTradeAmount : option Q.
Variable exitStrategy : ExitStrategy.
Variable targetProfitPercent : Q.
Variable avgLevels : Q.

Local Abbreviation run :=
  (simAfter symbol candles initialCapital perTradeAmount exitStrategy
     targetProfitPercent avgLevels).

Lemma runBacktest_finalize r :
  runBacktest symbol candles initialCapital perTradeAmount exitStrategy
    targetProfitPercent avgLevels = Some r ->
  (21 <= length candles)%nat
  /\ r = finalize symbol candles initialCapital (run (length candles - 20)).
Proof.
  unfold runBacktest.
  destruct (Nat.ltb_spec (length candles) 21) as [Hlt | Hge]; [discriminate |].
  intro Hr. injection Hr as <-. split; [exact Hge | reflexivity].
Qed.

End Accounts.

Lemma filter_split_length {A : Type} (p : A -> bool) (xs : list A) :
  (length (filter p xs) + length (filter (fun x => negb (p x)) xs)
   = length xs)%nat.
Proof.
  induction xs as [| x xs IH]; cbn [filter]; [reflexivity |].
  destruct (p x); cbn [negb length]; lia.
Qed.

Lemma win_rate_bounds (winning total : nat) :
  (winning <= total)%nat ->
  0 <= (if (0 <? total)%nat
        then (inject_Z (Z.of_nat winning) / inject_Z (Z.of_nat total)) * 100
        else 0) <= 100.
Proof.
  intro Hle.
  destruct (Nat.ltb_spec 0 total) as [Hpos | Hzero];
    [| split; [apply Qle_refl | discriminate]].
  assert (Hw : 0 <= inject_Z (Z.of_nat winning)).
  { rewrite <- (Zle_Qle 0). lia. }
  assert (Ht : 0 < inject_Z (Z.of_nat total)).
  { rewrite <- (Zlt_Qlt 0). lia. }
  assert (Hwt : inject_Z (Z.of_nat winning) <= inject_Z (Z.of_nat total)).
  { rewrite <- Zle_Qle. lia. }
  split.
  - apply Qmult_le_0_compat; [| discriminate].
    apply Qle_shift_div_l; [exact Ht |]. Lqa.lra.
  - assert (Hratio : inject_Z (Z.of_nat winning) / inject_Z (Z.of_nat total)
                     <= 1).
    { apply Qle_shift_div_r; [exact Ht |]. Lqa.lra. }
    Lqa.lra.
Qed.

(** The counts of winning and of losing trades add up. *)
Lemma trades_split symbol candles initialCapital perTradeAmount exitStrategy
  targetProfitPercent avgLevels r :
  runBacktest symbol candles initialCapital perTradeAmount exitStrategy
    targetProfitPercent avgLevels = Some r ->
  (r_winningTrades r + r_losingTrades r = r_totalTrades r)%nat.
Proof.
  intro Hr. apply runBacktest_finalize in Hr. destruct Hr as (_ & ->).
  unfold finalize. cbn [r_winningTrades r_losingTrades r_totalTrades].
  rewrite (filter_ext (fun t => Qleb (t_profit t) 0)
             (fun t => negb (Qgtb (t_profit t) 0))).
  - apply filter_split_length.
  - intro t. unfold Qgtb, Qleb. rewrite negb_involutive. reflexivity.
Qed.



(** ** The pyramid *)

Section Pyramid.

Variable symbol : string.
Variable candles : list DailyCandle.
Variable initialCapital : Q.
Variable perTradeAmount : option Q.
Variable exitStrategy : ExitStrategy.
Variable targetProfitPercent : Q.
Variable avgLevels : Q.

Local Abbreviation run :=
  (simAfter symbol candles initialCapital perTradeAmount exitStrategy
     targetProfitPercent avgLevels).

(** The entry check leaves the sequence number and the lots alone, or
    increments the number, below the limit, and adds at most one lot. *)
Lemma checkEntry_sequence day hi lo s :
  let r := checkEntry symbol initialCapital perTradeAmount targetProfitPercent
             avgLevels day hi lo s in
  (currentBuyNumber (fst r) = currentBuyNumber s
   /\ internalOpenPositions (fst r) = internalOpenPositions s)
  \/ (currentBuyNumber (fst r) = (currentBuyNumber s + 1)%Z
      /\ inject_Z (currentBuyNumber s) < avgLevels
      /\ (length (internalOpenPositions (fst r))
          <= Datatypes.S (length (internalOpenPositions s)))%nat).
Proof.
  cbv zeta. unfold checkEntry.
  destruct ((if Qleb (c_low day) lo then true else isTracking s)
            && Qgtb (c_high day) hi); [| left; split; reflexivity].
  destruct (Qltb (inject_Z (currentBuyNumber s)) avgLevels) eqn:Hlevel;
    [| left; split; reflexivity].
  apply Qltb_true in Hlevel. right.
  destruct (Qgtb (Math_floor (tradeAmount initialCapital perTradeAmount / hi)) 0
            && Qgeb (cash s)
                 (Math_floor (tradeAmount initialCapital perTradeAmount / hi) * hi)).
  - cbn [fst currentBuyNumber internalOpenPositions].
    rewrite length_app. cbn [length]. repeat split; [assumption | lia].
  - destruct (Qgtb (Math_floor (tradeAmount initialCapital perTradeAmount / hi)) 0
              && Qltb (cash s)
                   (Math_floor (tradeAmount initialCapital perTradeAmount / hi)
                    * hi));
      cbn [fst currentBuyNumber internalOpenPositions];
      repeat split; try assumption; lia.
Qed.

Lemma afterSells_sequence s x :
  (length (internalOpenPositions (afterSells s x))
   <= length (internalOpenPositions s))%nat ->
  (Z.of_nat (length (internalOpenPositions s)) <= currentBuyNumber s)%Z ->
  (Z.of_nat (length (internalOpenPositions (afterSells s x)))
   <= currentBuyNumber (afterSells s x))%Z
  /\ (currentBuyNumber (afterSells s x) = 0%Z
      \/ currentBuyNumber (afterSells s x) = currentBuyNumber s).
Proof.
  unfold afterSells. cbn [internalOpenPositions currentBuyNumber].
  set (remaining := filterIdx _ _ _).
  intros Hlen Hinv.
  destruct (Nat.eqb_spec (length remaining) 0) as [Hnil | Hsome];
    destruct (Z.ltb_spec 0 (currentBuyNumber s)); cbn [andb]; lia.
Qed.

(** The open lots are never more than the sequence number, which is 0 or
    at most one step past the limit. *)
Lemma pyramid_invariant n :
  (Z.of_nat (length (internalOpenPositions (run n)))
   <= currentBuyNumber (run n))%Z
  /\ (currentBuyNumber (run n) = 0%Z
      \/ inject_Z (currentBuyNumber (run n)) < avgLevels + 1).
Proof.
  induction n as [| n (IHlen & IHseq)]; [cbn; split; [lia | left; reflexivity] |].
  rewrite simAfter_S, processDay_eq.
  set (day := at_ candles (20 + n)).
  set (x := checkSells symbol exitStrategy day (run n)).
  destruct (checkSells_loop symbol exitStrategy day (run n))
    as (reach & price & Heq & _).
  destruct (afterSells_sell_loop symbol day reach price (run n))
    as (_ & _ & _ & Hps & _).
  rewrite <- Heq in Hps. fold x in Hps.
  destruct (afterSells_sequence (run n) x) as (Hlen1 & Hseq1);
    [rewrite Hps; apply filter_length_le | exact IHlen |].
  set (s1 := afterSells (run n) x) in *.
  assert (Hseq1' : currentBuyNumber s1 = 0%Z
                   \/ inject_Z (currentBuyNumber s1) < avgLevels + 1).
  { destruct Hseq1 as [-> | ->]; [left; reflexivity | exact IHseq]. }
  cbn [endOfDay internalOpenPositions currentBuyNumber].
  destruct (checkEntry_sequence day (twentyDayHighAt candles (20 + n))
              (twentyDayLowAt candles (20 + n)) s1)
    as [(-> & ->) | (-> & Hlevel & Hlen2)].
  - split; assumption.
  - split; [lia |]. right. rewrite inject_Z_plus.
    change (inject_Z 1) with 1. Lqa.lra.
Qed.

End Pyramid.

(** X3: with a limit of [levels] entries the simulator never holds more
    than [levels] open lots, on any day and in the result. *)
Theorem open_lots_within_levels symbol candles initialCapital perTradeAmount
  exitStrategy targetProfitPercent (levels : nat) :
  let avgLevels := inject_Z (Z.of_nat levels) in
  (forall n,
      (length (internalOpenPositions
                 (simAfter symbol candles initialCapital perTradeAmount
                    exitStrategy targetProfitPercent avgLevels n))
       <= levels)%nat)
  /\ (forall r,
         runBacktest symbol candles initialCapital perTradeAmount exitStrategy
           targetProfitPercent avgLevels = Some r ->
         (length (r_openPositions r) <= levels)%nat).
Proof.
  intro avgLevels.
  assert (Hdays : forall n,
    (length (internalOpenPositions
               (simAfter symbol candles initialCapital perTradeAmount
                  exitStrategy targetProfitPercent avgLevels n))
     <= levels)%nat).
  { intro n.
    destruct (pyramid_invariant symbol candles initialCapital perTradeAmount
                exitStrategy targetProfitPercent avgLevels n) as (Hlen & Hseq).
    destruct Hseq as [Hzero | Hlimit]; [lia |].
    subst avgLevels.
    change 1 with (inject_Z 1) in Hlimit.
    rewrite <- inject_Z_plus, <- Zlt_Qlt in Hlimit. lia. }
  split; [exact Hdays |].
  intros r Hr. apply runBacktest_finalize in Hr. destruct Hr as (_ & ->).
  unfold finalize. cbn [r_openPositions]. rewrite length_map. apply Hdays.
Qed.

Lemma open_lots_within_levels_witness :
  exists r, twoLotRun = Some r /\ (length (r_openPositions r) <= 3)%nat.
Proof.
  destruct twoLotRun as [r |] eqn:Hr.
  - exists r. split; [reflexivity |].
    destruct (open_lots_within_levels "TEST" twoLotHistory 1000 (Some 100)
                LIFO 6 3) as (_ & Hres).
    apply Hres. exact Hr.
  - vm_compute in Hr. discriminate.
Defined.

(** ** Equity and drawdown *)

Section Marks.

Variable symbol : string.
Variable candles : list DailyCandle.
Variable initialCapital : Q.
Variable perTradeAmount : option Q.
Variable exitStrategy : ExitStrategy.
Variable targetProfitPercent : Q.
Variable avgLevels : Q.

Local Abbreviation run :=
  (simAfter symbol candles initialCapital perTradeAmount exitStrategy
     targetProfitPercent avgLevels).
Local Abbreviation step :=
  (processDay symbol candles initialCapital perTradeAmount exitStrategy
     targetProfitPercent avgLevels).

Lemma checkEntry_marks day hi lo s :
  let r := checkEntry symbol initialCapital perTradeAmount targetProfitPercent
             avgLevels day hi lo s in
  maxEquity (fst r) = maxEquity s /\ maxDrawdown (fst r) = maxDrawdown s.
Proof.
  cbv zeta. unfold checkEntry.
  repeat match goal with
         | |- context [if ?b then _ else _] => destruct b
         end;
    split; reflexivity.
Qed.

(** The end-of-day accounting of day [i], in terms of the state it leaves. *)
Lemma processDay_marks s i :
  let s' := step s i in
  let equity := cash s' + investedAt (at_ candles i) (internalOpenPositions s') in
  let drawdown := ((maxEquity s' - equity) / maxEquity s') * 100 in
  maxEquity s' = (if Qgtb equity (maxEquity s) then equity else maxEquity s)
  /\ maxDrawdown s'
     = (if Qgtb drawdown (maxDrawdown s) then drawdown else maxDrawdown s)
  /\ exists activities,
      dailyLog s'
      = dailyLog s
        ++ [mkDailyState (c_date (at_ candles i)) (cash s')
              (investedAt (at_ candles i) (internalOpenPositions s')) equity 0
              activities].
Proof.
  cbv zeta. rewrite processDay_eq.
  set (day := at_ candles i).
  set (x := checkSells symbol exitStrategy day s).
  destruct (checkSells_loop symbol exitStrategy day s)
    as (reach & price & Heq & _).
  destruct (afterSells_sell_loop symbol day reach price s)
    as (_ & _ & _ & _ & _ & _ & Hlog).
  rewrite <- Heq in Hlog. fold x in Hlog.
  destruct (checkEntry_effect symbol initialCapital perTradeAmount
              targetProfitPercent avgLevels day (twentyDayHighAt candles i)
              (twentyDayLowAt candles i) (afterSells s x))
    as (_ & Hlog2 & _).
  destruct (checkEntry_marks day (twentyDayHighAt candles i)
              (twentyDayLowAt candles i) (afterSells s x)) as (Hm & Hd).
  cbn [endOfDay cash internalOpenPositions maxEquity maxDrawdown dailyLog].
  rewrite Hm, Hd, Hlog2, Hlog.
  change (maxEquity (afterSells s x)) with (maxEquity s).
  change (maxDrawdown (afterSells s x)) with (maxDrawdown s).
  split; [reflexivity | split; [reflexivity |]].
  eexists. reflexivity.
Qed.

(** The ledger after [n] days has [n] entries; entry [k] carries the date
    of bar [20 + k], the cash at the end of that day and the lots open at
    the end of that day valued at its close. *)
Lemma ledger_entry n : forall k,
  (k < n)%nat ->
  exists activities,
    nth_error (dailyLog (run n)) k
    = Some (mkDailyState (c_date (at_ candles (20 + k)))
              (cash (run (Datatypes.S k)))
              (investedAt (at_ candles (20 + k))
                 (internalOpenPositions (run (Datatypes.S k))))
              (cash (run (Datatypes.S k))
               + investedAt (at_ candles (20 + k))
                   (internalOpenPositions (run (Datatypes.S k))))
              0 activities)
    /\ length (dailyLog (run n)) = n.
Proof.
  induction n as [| n IH]; intros k Hk; [lia |].
  assert (Hlen : length (dailyLog (run n)) = n).
  { destruct n as [| m]; [reflexivity |].
    destruct (IH m) as (_ & _ & Hlen); [lia | exact Hlen]. }
  destruct (processDay_marks (run n) (20 + n)) as (_ & _ & acts & Hlog).
  rewrite <- simAfter_S in Hlog.
  destruct (Nat.eq_dec k n) as [-> | Hne].
  - exists acts. rewrite Hlog. split.
    + rewrite nth_error_app2 by lia. rewrite Hlen, Nat.sub_diag. reflexivity.
    + rewrite length_app, Hlen. cbn [length]. lia.
  - destruct (IH k) as (acts' & Hnth & _); [lia |].
    exists acts'. rewrite Hlog. split.
    + rewrite nth_error_app1 by lia. exact Hnth.
    + rewrite length_app, Hlen. cbn [length]. lia.
Qed.

(** The running maximum starts at the initial capital and never falls;
    the maximum drawdown starts at 0 and never falls. *)
Lemma marks_invariant n :
  initialCapital <= maxEquity (run n) /\ 0 <= maxDrawdown (run n).
Proof.
  induction n as [| n (IHm & IHd)]; [split; apply Qle_refl |].
  rewrite simAfter_S.
  destruct (processDay_marks (run n) (20 + n)) as (Hm & Hd & _).
  rewrite Hm, Hd. split.
  - match goal with
    | |- context [if Qgtb ?e ?m then _ else _] =>
        destruct (Qgtb e m) eqn:Hgt; [apply Qgtb_true in Hgt; Lqa.lra | exact IHm]
    end.
  - match goal with
    | |- context [if Qgtb ?d ?m then _ else _] =>
        destruct (Qgtb d m) eqn:Hgt; [apply Qgtb_true in Hgt; Lqa.lra | exact IHd]
    end.
Qed.

End Marks.

(** X4: the daily ledger of a result has one entry per bar from index 20
    on; entry [k] carries the date of bar [20 + k], the cash at the end of
    that day, the open lots of that day valued at its close, and their sum
    as equity. *)
Theorem ledger_has_one_entry_per_day symbol candles initialCapital
  perTradeAmount exitStrategy targetProfitPercent avgLevels r :
  runBacktest symbol candles initialCapital perTradeAmount exitStrategy
    targetProfitPercent avgLevels = Some r ->
  let run := simAfter symbol candles initialCapital perTradeAmount exitStrategy
               targetProfitPercent avgLevels in
  length (r_dailyLog r) = (length candles - 20)%nat
  /\ forall k e,
      nth_error (r_dailyLog r) k = Some e ->
      d_date e = c_date (at_ candles (20 + k))
      /\ d_cash e = cash (run (Datatypes.S k))
      /\ d_invested e
         = investedAt (at_ candles (20 + k))
             (internalOpenPositions (run (Datatypes.S k)))
      /\ d_equity e = d_cash e + d_invested e.
Proof.
  intros Hr run. apply runBacktest_finalize in Hr. destruct Hr as (Hlen & ->).
  unfold finalize. cbn [r_dailyLog]. fold run.
  split.
  - destruct (ledger_entry symbol candles initialCapital perTradeAmount
                exitStrategy targetProfitPercent avgLevels
                (length candles - 20) 0) as (_ & _ & Hl); [lia | exact Hl].
  - intros k e Hnth.
    assert (Hk : (k < length candles - 20)%nat).
    { destruct (ledger_entry symbol candles initialCapital perTradeAmount
                  exitStrategy targetProfitPercent avgLevels
                  (length candles - 20) 0) as (_ & _ & Hl); [lia |].
      fold run in Hl. rewrite <- Hl. apply nth_error_Some. congruence. }
    destruct (ledger_entry symbol candles initialCapital perTradeAmount
                exitStrategy targetProfitPercent avgLevels
                (length candles - 20) k Hk) as (acts & Hentry & _).
    fold run in Hentry. rewrite Hentry in Hnth. injection Hnth as <-.
    repeat split.
Qed.

Lemma ledger_has_one_entry_per_day_witness :
  exists r, twoLotRun = Some r /\ length (r_dailyLog r) = 23%nat.
Proof.
  destruct twoLotRun as [r |] eqn:Hr.
  - exists r. split; [reflexivity |].
    destruct (ledger_has_one_entry_per_day "TEST" twoLotHistory 1000 (Some 100)
                LIFO 6 3 r Hr) as (Hlen & _).
    exact Hlen.
  - vm_compute in Hr. discriminate.
Defined.

Lemma at_close_nonneg candles i :
  (forall c, In c candles -> 0 <= c_close c) -> 0 <= c_close (at_ candles i).
Proof.
  intro Hclose. unfold at_.
  destruct (nth_in_or_default i candles noCandle) as [Hin | ->].
  - apply Hclose. exact Hin.
  - apply Qle_refl.
Qed.

Section Drawdown.

Variable symbol : string.
Variable candles : list DailyCandle.
Variable initialCapital : Q.
Variable perTradeAmount : option Q.
Variable exitStrategy : ExitStrategy.
Variable targetProfitPercent : Q.
Variable avgLevels : Q.

Local Abbreviation run :=
  (simAfter symbol candles initialCapital perTradeAmount exitStrategy
     targetProfitPercent avgLevels).

Hypothesis capital_pos : 0 < initialCapital.
Hypothesis target_bounded : -100 <= targetProfitPercent.
Hypothesis highs_nonneg : forall c, In c candles -> 0 <= c_high c.
Hypothesis closes_nonneg : forall c, In c candles -> 0 <= c_close c.

Lemma equity_nonneg n :
  0 <= cash (run n) + investedAt (at_ candles (19 + n)) (internalOpenPositions (run n)).
Proof.
  destruct (cash_nonneg symbol candles initialCapital perTradeAmount
              exitStrategy targetProfitPercent avgLevels
              (Qlt_le_weak _ _ capital_pos) target_bounded highs_nonneg n)
    as (Hcash & _).
  assert (Hinv : 0 <= investedAt (at_ candles (19 + n))
                        (internalOpenPositions (run n))).
  { unfold investedAt.
    apply (sum_ge (fun pos => p_quantity pos * c_close (at_ candles (19 + n)))).
    intros pos Hin.
    pose proof (open_lots_positive symbol candles initialCapital perTradeAmount
                  exitStrategy targetProfitPercent avgLevels n) as Hpos.
    rewrite Forall_forall in Hpos.
    apply Qmult_le_0_compat;
      [apply Qlt_le_weak; apply Hpos; exact Hin
      | apply at_close_nonneg; exact closes_nonneg]. }
  Lqa.lra.
Qed.

Lemma drawdown_bounded n : maxDrawdown (run n) <= 100.
Proof.
  induction n as [| n IH]; [cbn; discriminate |].
  pose proof (marks_invariant symbol candles initialCapital perTradeAmount
                exitStrategy targetProfitPercent avgLevels (Datatypes.S n))
    as (Hmax & _).
  pose proof (equity_nonneg (Datatypes.S n)) as Heq.
  change (19 + Datatypes.S n)%nat with (20 + n)%nat in Heq.
  revert Hmax Heq. rewrite simAfter_S.
  destruct (processDay_marks symbol candles initialCapital perTradeAmount
              exitStrategy targetProfitPercent avgLevels (run n) (20 + n))
    as (_ & Hd & _).
  rewrite Hd. clear Hd. intros Hmax Heq.
  match goal with
  | |- (if Qgtb ?d ?m then _ else _) <= _ =>
      destruct (Qgtb d m); [| exact IH]
  end.
  match goal with
  | |- ((?m - ?e) / ?m) * 100 <= 100 =>
      assert (Hratio : (m - e) / m <= 1)
        by (apply Qle_shift_div_r; Lqa.lra);
      Lqa.lra
  end.
Qed.

End Drawdown.

(** X5: the maximum drawdown of a result is never negative; with a positive
    initial capital, a target percent of at least -100 and bars whose highs
    and closes are not negative it is at most 100. *)
Theorem max_drawdown_is_a_percentage symbol candles initialCapital
  perTradeAmount exitStrategy targetProfitPercent avgLevels r :
  runBacktest symbol candles initialCapital perTradeAmount exitStrategy
    targetProfitPercent avgLevels = Some r ->
  0 <= r_maxDrawdown r
  /\ (0 < initialCapital ->
      -100 <= targetProfitPercent ->
      (forall c, In c candles -> 0 <= c_high c /\ 0 <= c_close c) ->
      r_maxDrawdown r <= 100).
Proof.
  intro Hr. apply runBacktest_finalize in Hr. destruct Hr as (_ & ->).
  unfold finalize. cbn [r_maxDrawdown]. split.
  - apply marks_invariant.
  - intros Hcap Htarget Hbars. apply drawdown_bounded; try assumption.
    + intros c Hin. apply Hbars. exact Hin.
    + intros c Hin. apply Hbars. exact Hin.
Qed.

Lemma max_drawdown_is_a_percentage_witness :
  exists r, twoLotRun = Some r /\ 0 <= r_maxDrawdown r <= 100.
Proof.
  destruct twoLotRun as [r |] eqn:Hr.
  - exists r. split; [reflexivity |].
    destruct (max_drawdown_is_a_percentage "TEST" twoLotHistory 1000 (Some 100)
                LIFO 6 3 r Hr) as (Hlow & Hhigh).
    split; [exact Hlow |]. apply Hhigh.
    + vm_compute. reflexivity.
    + vm_compute. discriminate.
    + intros c Hin. vm_compute in Hin.
      repeat (destruct Hin as [<- | Hin];
              [split; vm_compute; discriminate |]).
      contradiction.
  - vm_compute in Hr. discriminate.
Defined.

(** ** LIFO trades *)

Lemma floor_quotient_pos a b : 0 < Math_floor (a / b) -> ~ b == 0.
Proof.
  intros Hpos Hb. unfold Math_floor in Hpos.
  assert (Hq : a / b == 0).
  { unfold Qdiv. rewrite Hb. change (/ 0) with 0. ring. }
  rewrite (Qfloor_comp _ _ Hq) in Hpos. vm_compute in Hpos. discriminate.
Qed.

Section LifoTrades.

Variable symbol : string.
Variable candles : list DailyCandle.
Variable initialCapital : Q.
Variable perTradeAmount : option Q.
Variable targetProfitPercent : Q.
Variable avgLevels : Q.

Local Abbreviation run :=
  (simAfter symbol candles initialCapital perTradeAmount LIFO
     targetProfitPercent avgLevels).

Hypothesis target_nonneg : 0 <= targetProfitPercent.
Hypothesis highs_nonneg : forall c, In c candles -> 0 <= c_high c.

Lemma lifo_lots n :
  Forall (fun pos => 0 < p_quantity pos /\ 0 < p_buyPrice pos
                     /\ p_targetPercent pos = targetProfitPercent)
    (internalOpenPositions (run n)).
Proof.
  apply open_lots_Forall. intros i buyNumber twentyDayHigh quantity Hq.
  cbn [p_quantity p_buyPrice p_targetPercent].
  split; [exact Hq | split; [| reflexivity]].
  pose proof (twentyDayHigh_nonneg candles i highs_nonneg) as Hge.
  pose proof (floor_quotient_pos _ _ Hq) as Hne.
  fold twentyDayHigh in Hge.
  destruct (Qlt_le_dec 0 twentyDayHigh) as [Hlt | Hle]; [exact Hlt |].
  exfalso. apply Hne. apply Qle_antisym; assumption.
Qed.

Lemma lifo_trades n :
  Forall (fun t => 0 <= t_profit t /\ t_buyPrice t <= t_sellPrice t
                   /\ t_targetPercent t = targetProfitPercent)
    (trades (run n)).
Proof.
  induction n as [| n IH]; [constructor |].
  rewrite simAfter_S.
  destruct (processDay_records symbol candles initialCapital perTradeAmount
              LIFO targetProfitPercent avgLevels (run n) (20 + n)) as (-> & _).
  set (day := at_ candles (20 + n)).
  assert (Hx : checkSells symbol LIFO day (run n)
               = forEachIdx
                   (fun acc pos j =>
                      if reachesOwnTarget day pos
                      then sellPosition symbol day (targetPriceOf pos) acc pos j
                      else acc)
                   (internalOpenPositions (run n)) 0%nat
                   (mkSells (trades (run n)) [] (cash (run n)) []))
    by reflexivity.
  destruct (afterSells_sell_loop symbol day (reachesOwnTarget day)
              targetPriceOf (run n)) as (Ht & _).
  rewrite <- Hx in Ht. rewrite Ht.
  apply Forall_app. split; [exact IH |].
  apply Forall_forall. intros t Hin. apply in_map_iff in Hin.
  destruct Hin as (pos & <- & Hpos). apply filter_In in Hpos.
  destruct Hpos as (Hpos & _).
  pose proof (lifo_lots n) as Hlots. rewrite Forall_forall in Hlots.
  destruct (Hlots pos Hpos) as (Hq & Hp & Htp).
  unfold closedTrade, targetPriceOf.
  cbn [t_profit t_sellPrice t_buyPrice t_targetPercent]. rewrite Htp.
  assert (Hgain : 0 <= p_buyPrice pos * (targetProfitPercent * (1 # 100))).
  { apply Qmult_le_0_compat; [apply Qlt_le_weak; exact Hp | Lqa.lra]. }
  assert (Hsell : p_buyPrice pos * (1 + targetProfitPercent / 100)
                  == p_buyPrice pos
                     + p_buyPrice pos * (targetProfitPercent * (1 # 100)))
    by field.
  split; [| split; [rewrite Hsell; Lqa.lra | reflexivity]].
  setoid_replace ((p_buyPrice pos * (1 + targetProfitPercent / 100)
                   - p_buyPrice pos) * p_quantity pos)
    with (p_buyPrice pos * (targetProfitPercent * (1 # 100)) * p_quantity pos)
    by field.
  apply Qmult_le_0_compat; [exact Hgain | apply Qlt_le_weak; exact Hq].
Qed.

End LifoTrades.



(** ** No level to buy *)

Section NoLevels.

Variable symbol : string.
Variable candles : list DailyCandle.
Variable initialCapital : Q.
Variable perTradeAmount : option Q.
Variable exitStrategy : ExitStrategy.
Variable targetProfitPercent : Q.
Variable avgLevels : Q.

Local Abbreviation run :=
  (simAfter symbol candles initialCapital perTradeAmount exitStrategy
     targetProfitPercent avgLevels).

Lemma checkEntry_at_limit day hi lo s :
  avgLevels <= inject_Z (currentBuyNumber s) ->
  let r := checkEntry symbol initialCapital perTradeAmount targetProfitPercent
             avgLevels day hi lo s in
  snd r = []
  /\ cash (fst r) = cash s
  /\ currentBuyNumber (fst r) = currentBuyNumber s
  /\ internalOpenPositions (fst r) = internalOpenPositions s
  /\ trades (fst r) = trades s
  /\ dailyLog (fst r) = dailyLog s.
Proof.
  intro Hlimit. cbv zeta. unfold checkEntry.
  apply Qltb_false in Hlimit. rewrite Hlimit.
  destruct ((if Qleb (c_low day) lo then true else isTracking s)
            && Qgtb (c_high day) hi); repeat split.
Qed.

Hypothesis no_levels : avgLevels <= 0.

Lemma idle_run n :
  cash (run n) = initialCapital
  /\ currentBuyNumber (run n) = 0%Z
  /\ internalOpenPositions (run n) = []
  /\ trades (run n) = []
  /\ Forall (fun e => d_activities e = []) (dailyLog (run n)).
Proof.
  induction n as [| n (Hcash & Hseq & Hlots & Htrades & Hlog)];
    [repeat split; constructor |].
  rewrite simAfter_S, processDay_eq.
  set (day := at_ candles (20 + n)).
  set (x := checkSells symbol exitStrategy day (run n)).
  destruct (checkSells_loop symbol exitStrategy day (run n))
    as (reach & price & Heq & _).
  destruct (afterSells_sell_loop symbol day reach price (run n))
    as (Ht & Ha & Hc & Hps & Hc1 & Ht1 & Hlog1).
  rewrite <- Heq in Ht, Ha, Hc, Hps, Hc1, Ht1, Hlog1.
  fold x in Ht, Ha, Hc, Hps, Hc1, Ht1, Hlog1.
  rewrite Hlots in Ht, Ha, Hc, Hps.
  cbn [filter map proceeds fold_left] in Ht, Ha, Hc, Hps.
  assert (Hseq1 : currentBuyNumber (afterSells (run n) x) = 0%Z).
  { unfold afterSells. cbn [currentBuyNumber]. rewrite Hseq.
    rewrite andb_false_r. reflexivity. }
  destruct (checkEntry_at_limit day (twentyDayHighAt candles (20 + n))
              (twentyDayLowAt candles (20 + n)) (afterSells (run n) x))
    as (Hacts & Hc2 & Hseq2 & Hps2 & Ht2 & Hlog2);
    [rewrite Hseq1; exact no_levels |].
  cbn [endOfDay cash currentBuyNumber internalOpenPositions trades dailyLog].
  rewrite Hacts, Hc2, Hseq2, Hps2, Ht2, Hlog2, Hc1, Hseq1, Hps, Ht1, Hlog1,
    Hc, Ht, Ha, Hcash, Htrades, !app_nil_r.
  repeat split. apply Forall_app. split; [exact Hlog |].
  constructor; [reflexivity | constructor].
Qed.

End NoLevels.

(** X7: with [avgLevels <= 0] the simulator never enters: the result has no
    trade and no open position, its final capital is the initial capital
    and no ledger entry has an activity, not even a SKIPPED one. *)
Theorem no_levels_no_activity symbol candles initialCapital perTradeAmount
  exitStrategy targetProfitPercent avgLevels :
  avgLevels <= 0 ->
  (21 <= length candles)%nat ->
  exists r,
    runBacktest symbol candles initialCapital perTradeAmount exitStrategy
      targetProfitPercent avgLevels = Some r
    /\ r_trades r = []
    /\ r_openPositions r = []
    /\ r_finalCapital r == initialCapital
    /\ Forall (fun e => d_activities e = []) (r_dailyLog r).
Proof.
  intros Hlevels Hlen. unfold runBacktest.
  destruct (Nat.ltb_spec (length candles) 21) as [Hlt | _]; [lia |].
  eexists. split; [reflexivity |].
  destruct (idle_run symbol candles initialCapital perTradeAmount exitStrategy
              targetProfitPercent avgLevels Hlevels (length candles - 20))
    as (Hcash & _ & Hlots & Htrades & Hlog).
  unfold finalize.
  cbn [r_trades r_openPositions r_finalCapital r_dailyLog].
  rewrite Hcash, Hlots, Htrades. cbn [map fold_left].
  repeat split; [ring | exact Hlog].
Qed.

(** The breakout of [breakoutHistory] with no level allowed. *)
Lemma no_levels_no_activity_witness :
  exists r,
    runBacktest "TEST" breakoutHistory 1000 (Some 100) LIFO 6 0 = Some r
    /\ r_finalCapital r == 1000.
Proof.
  destruct (no_levels_no_activity "TEST" breakoutHistory 1000 (Some 100) LIFO
              6 0) as (r & Hr & _ & _ & Hcap & _).
  - vm_compute. discriminate.
  - vm_compute. lia.
  - exists r. split; assumption.
Defined.

(** ** The regime reported by the analyzer *)

Section Regime.

Variable candles : list DailyCandle.

(** One scan day, by cases on the two conditions. *)
Lemma scanDay_cases s i :
  let day := at_ candles i in
  (touchesLow candles i ->
   scanStatus (scanDay candles s i) = TRACKING
   /\ scanTriggerDate (scanDay candles s i) = Some (c_date day)
   /\ scanTracking (scanDay candles s i)
      = (if scanTracking s
         then negb (Qgtb (c_high day) (twentyDayHighAt candles i))
         else true))
  /\ (~ touchesLow candles i -> scanTracking s = false ->
      scanDay candles s i = s)
  /\ (~ touchesLow candles i -> scanTracking s = true ->
      breaksHigh candles i ->
      scanDay candles s i
      = mkScan false BUY_TRIGGERED (scanTriggerDate s) (Some (c_date day)))
  /\ (~ touchesLow candles i -> scanTracking s = true ->
      ~ breaksHigh candles i ->
      scanDay candles s i = s).
Proof.
  cbv zeta. unfold touchesLow, breaksHigh, scanDay.
  destruct (Qleb (c_low (at_ candles i)) (twentyDayLowAt candles i)) eqn:Hlow.
  - apply Qleb_true in Hlow.
    split; [| repeat split; intros Hn; contradiction].
    intros _. destruct (scanTracking s) eqn:Htr; cbn [negb].
    + destruct (Qgtb (c_high (at_ candles i)) (twentyDayHighAt candles i));
        cbn [scanTracking scanStatus scanTriggerDate negb]; rewrite ?Htr;
        repeat split.
    + repeat split.
  - assert (Hno : ~ c_low (at_ candles i) <= twentyDayLowAt candles i).
    { intro H. apply Qleb_true in H. congruence. }
    split; [intro H; contradiction |].
    split; [intros _ ->; reflexivity |].
    split.
    + intros _ -> Hhigh. apply Qgtb_true in Hhigh. cbn [negb].
      rewrite Hhigh. reflexivity.
    + intros _ -> Hhigh. cbn [negb].
      destruct (Qgtb (c_high (at_ candles i)) (twentyDayHighAt candles i))
        eqn:Hgt; [| reflexivity].
      apply Qgtb_true in Hgt. contradiction.
Qed.

Lemma touchesLow_dec i : {touchesLow candles i} + {~ touchesLow candles i}.
Proof.
  unfold touchesLow.
  destruct (Qlt_le_dec (twentyDayLowAt candles i) (c_low (at_ candles i)))
    as [Hlt | Hle]; [right; apply Qlt_not_le; exact Hlt | left; exact Hle].
Qed.

Lemma breaksHigh_dec i : {breaksHigh candles i} + {~ breaksHigh candles i}.
Proof.
  unfold breaksHigh.
  destruct (Qlt_le_dec (twentyDayHighAt candles i) (c_high (at_ candles i)))
    as [Hlt | Hle]; [left; exact Hlt | right; apply Qle_not_lt; exact Hle].
Qed.

(** The status is NEUTRAL exactly as long as no day touched its low, and a
    NEUTRAL scan is not tracking and has recorded no date. *)
Lemma neutral_invariant n :
  (scanStatus (scanAfter candles n) = NEUTRAL
   <-> forall k, (k < n)%nat -> ~ touchesLow candles (20 + k))
  /\ (scanStatus (scanAfter candles n) = NEUTRAL ->
      scanAfter candles n = initialScan).
Proof.
  induction n as [| n (IHiff & IHinit)].
  - split; [split; [intros _ k Hk; lia | reflexivity] | reflexivity].
  - rewrite scanAfter_S.
    destruct (scanDay_cases (scanAfter candles n) (20 + n))
      as (Htouch & Hidle & Hfire & Hwait).
    destruct (touchesLow_dec (20 + n)) as [Hlow | Hlow].
    + destruct (Htouch Hlow) as (Hst & _). rewrite Hst.
      split; [split; [discriminate |] | discriminate].
      intro Hnever. exfalso. apply (Hnever n); [lia | exact Hlow].
    + destruct (scanTracking (scanAfter candles n)) eqn:Htr.
      * assert (Hnot : scanStatus (scanAfter candles n) <> NEUTRAL).
        { intro Hneutral. apply IHinit in Hneutral. rewrite Hneutral in Htr.
          discriminate. }
        assert (Hnot' : scanStatus (scanDay candles (scanAfter candles n) (20 + n))
                        <> NEUTRAL).
        { destruct (breaksHigh_dec (20 + n)) as [Hhigh | Hhigh].
          - rewrite (Hfire Hlow eq_refl Hhigh). discriminate.
          - rewrite (Hwait Hlow eq_refl Hhigh). exact Hnot. }
        split; [split; [intro H; contradiction |] | intro H; contradiction].
        intro Hnever. exfalso. apply Hnot. apply IHiff.
        intros k Hk. apply Hnever. lia.
      * rewrite (Hidle Hlow eq_refl).
        split; [| exact IHinit]. rewrite IHiff. split.
        -- intros Hnever k Hk. destruct (Nat.eq_dec k n) as [-> | Hne];
             [exact Hlow | apply Hnever; lia].
        -- intros Hnever k Hk. apply Hnever. lia.
Qed.

(** A tracking scan was armed by a low touch whose date it holds; a scan
    whose status is BUY_TRIGGERED is not tracking, holds the date of a
    breakout day since which no day touched its low, and the date of a low
    touch before it. *)
Lemma triggered_invariant n :
  (scanTracking (scanAfter candles n) = true ->
   exists t, (t < n)%nat
             /\ scanTriggerDate (scanAfter candles n)
                = Some (c_date (at_ candles (20 + t)))
             /\ touchesLow candles (20 + t))
  /\ (scanStatus (scanAfter candles n) = BUY_TRIGGERED ->
      scanTracking (scanAfter candles n) = false
      /\ exists k, (k < n)%nat
           /\ scanBuyTriggerDate (scanAfter candles n)
              = Some (c_date (at_ candles (20 + k)))
           /\ breaksHigh candles (20 + k)
           /\ (forall j, (k <= j < n)%nat -> ~ touchesLow candles (20 + j))
           /\ exists t, (t < k)%nat
                /\ scanTriggerDate (scanAfter candles n)
                   = Some (c_date (at_ candles (20 + t)))
                /\ touchesLow candles (20 + t)).
Proof.
  induction n as [| n (IHarmed & IHfired)].
  - split; [intro H; discriminate | intro H; discriminate].
  - rewrite scanAfter_S.
    destruct (scanDay_cases (scanAfter candles n) (20 + n))
      as (Htouch & Hidle & Hfire & Hwait).
    destruct (touchesLow_dec (20 + n)) as [Hlow | Hlow].
    + destruct (Htouch Hlow) as (Hst & Hdate & _). rewrite Hst, Hdate.
      split; [| discriminate].
      intros _. exists n. repeat split; [lia | exact Hlow].
    + destruct (scanTracking (scanAfter candles n)) eqn:Htr.
      * destruct (breaksHigh_dec (20 + n)) as [Hhigh | Hhigh].
        -- rewrite (Hfire Hlow eq_refl Hhigh).
           cbn [scanTracking scanStatus scanTriggerDate scanBuyTriggerDate].
           split; [discriminate |]. intros _. split; [reflexivity |].
           exists n. split; [lia |]. split; [reflexivity |].
           split; [exact Hhigh |]. split.
           ++ intros j Hj. assert (j = n) as -> by lia. exact Hlow.
           ++ destruct (IHarmed eq_refl) as (t & Ht & Hd & Hl).
              exists t. repeat split; assumption.
        -- rewrite (Hwait Hlow eq_refl Hhigh). rewrite Htr. split.
           ++ intros _. destruct (IHarmed eq_refl) as (t & Ht & Hd & Hl).
              exists t. repeat split; [lia | exact Hd | exact Hl].
           ++ intro Hst. destruct (IHfired Hst) as (Hoff & _). discriminate.
      * rewrite (Hidle Hlow eq_refl). rewrite Htr.
        split; [discriminate |].
        intro Hst. destruct (IHfired Hst) as (_ & k & Hk & Hd & Hh & Hq & Ht).
        split; [reflexivity |]. exists k.
        split; [lia |]. split; [exact Hd |]. split; [exact Hh |].
        split; [| exact Ht].
        intros j Hj. destruct (Nat.eq_dec j n) as [-> | Hne];
          [exact Hlow | apply Hq; lia].
Qed.

End Regime.

(** ** Windows *)

Lemma fold_Qmax_bounds xs : forall x,
  (forall y, In y (x :: xs) -> y <= fold_left Qmax xs x)
  /\ exists y, In y (x :: xs) /\ fold_left Qmax xs x == y.
Proof.
  induction xs as [| z xs IH]; intro x; cbn [fold_left].
  - split.
    + intros y [<- | []]. apply Qle_refl.
    + exists x. split; [left; reflexivity | reflexivity].
  - destruct (IH (Qmax x z)) as (Hub & y & Hin & Heq). split.
    + intros w [<- | [<- | Hw]].
      * apply Qle_trans with (Qmax x z); [apply Q.le_max_l |].
        apply Hub. left. reflexivity.
      * apply Qle_trans with (Qmax x z); [apply Q.le_max_r |].
        apply Hub. left. reflexivity.
      * apply Hub. right. exact Hw.
    + destruct Hin as [<- | Hin].
      * destruct (Q.max_dec x z) as [Hx | Hz].
        -- exists x. split; [left; reflexivity | rewrite Heq; exact Hx].
        -- exists z. split; [right; left; reflexivity | rewrite Heq; exact Hz].
      * exists y. split; [right; right; exact Hin | exact Heq].
Qed.

Lemma fold_Qmin_bounds xs : forall x,
  (forall y, In y (x :: xs) -> fold_left Qmin xs x <= y)
  /\ exists y, In y (x :: xs) /\ fold_left Qmin xs x == y.
Proof.
  induction xs as [| z xs IH]; intro x; cbn [fold_left].
  - split.
    + intros y [<- | []]. apply Qle_refl.
    + exists x. split; [left; reflexivity | reflexivity].
  - destruct (IH (Qmin x z)) as (Hlb & y & Hin & Heq). split.
    + intros w [<- | [<- | Hw]].
      * apply Qle_trans with (Qmin x z); [| apply Q.le_min_l].
        apply Hlb. left. reflexivity.
      * apply Qle_trans with (Qmin x z); [| apply Q.le_min_r].
        apply Hlb. left. reflexivity.
      * apply Hlb. right. exact Hw.
    + destruct Hin as [<- | Hin].
      * destruct (Q.min_dec x z) as [Hx | Hz].
        -- exists x. split; [left; reflexivity | rewrite Heq; exact Hx].
        -- exists z. split; [right; left; reflexivity | rewrite Heq; exact Hz].
      * exists y. split; [right; right; exact Hin | exact Heq].
Qed.

Lemma Math_max_bounds xs :
  xs <> [] ->
  (forall y, In y xs -> y <= Math_max xs)
  /\ exists y, In y xs /\ Math_max xs == y.
Proof.
  destruct xs as [| x xs]; [congruence |]. intros _. apply fold_Qmax_bounds.
Qed.

Lemma Math_min_bounds xs :
  xs <> [] ->
  (forall y, In y xs -> Math_min xs <= y)
  /\ exists y, In y xs /\ Math_min xs == y.
Proof.
  destruct xs as [| x xs]; [congruence |]. intros _. apply fold_Qmin_bounds.
Qed.

(** The bars of a slice are the bars at its indices. *)
Lemma In_slice_iff (candles : list DailyCandle) a b c :
  (a <= b <= length candles)%nat ->
  In c (slice a b candles)
  <-> exists j, (a <= j < b)%nat /\ c = at_ candles j.
Proof.
  intro Hab. unfold slice, at_. split.
  - intro Hin. apply (In_nth _ _ noCandle) in Hin.
    destruct Hin as (k & Hk & Hnth).
    rewrite length_firstn, length_skipn in Hk.
    rewrite nth_firstn in Hnth.
    destruct (Nat.ltb_spec k (b - a)) as [Hlt | Hge]; [| lia].
    rewrite nth_skipn in Hnth.
    exists (a + k)%nat. split; [lia | symmetry; exact Hnth].
  - intros (j & Hj & ->).
    assert (Hnth : nth (j - a) (firstn (b - a) (skipn a candles)) noCandle
                   = nth j candles noCandle).
    { rewrite nth_firstn.
      destruct (Nat.ltb_spec (j - a) (b - a)) as [_ | Hge]; [| lia].
      rewrite nth_skipn. f_equal. lia. }
    rewrite <- Hnth. apply nth_In. rewrite length_firstn, length_skipn. lia.
Qed.

Lemma window_bounds candles i :
  (20 <= i <= length candles)%nat ->
  (forall j, (i - 20 <= j < i)%nat ->
      c_high (at_ candles j) <= twentyDayHighAt candles i
      /\ twentyDayLowAt candles i <= c_low (at_ candles j))
  /\ (exists j, (i - 20 <= j < i)%nat
                /\ twentyDayHighAt candles i == c_high (at_ candles j))
  /\ (exists j, (i - 20 <= j < i)%nat
                /\ twentyDayLowAt candles i == c_low (at_ candles j)).
Proof.
  intro Hi. unfold twentyDayHighAt, twentyDayLowAt.
  set (window := slice (i - 20) i candles).
  assert (Hin : forall c, In c window
                  <-> exists j, (i - 20 <= j < i)%nat /\ c = at_ candles j)
    by (intro c; apply In_slice_iff; lia).
  assert (Hne : window <> []).
  { intro Hnil. assert (Hc : In (at_ candles (i - 20)) window)
      by (apply Hin; exists (i - 20)%nat; split; [lia | reflexivity]).
    rewrite Hnil in Hc. contradiction. }
  destruct (Math_max_bounds (map c_high window)) as (Hub & h & Hh & Hheq);
    [destruct window; [congruence | discriminate] |].
  destruct (Math_min_bounds (map c_low window)) as (Hlb & l & Hl & Hleq);
    [destruct window; [congruence | discriminate] |].
  split; [| split].
  - intros j Hj.
    assert (Hc : In (at_ candles j) window)
      by (apply Hin; exists j; split; [exact Hj | reflexivity]).
    split; [apply Hub | apply Hlb]; apply in_map; exact Hc.
  - apply in_map_iff in Hh. destruct Hh as (c & <- & Hc).
    apply Hin in Hc. destruct Hc as (j & Hj & ->). exists j. split; assumption.
  - apply in_map_iff in Hl. destruct Hl as (c & <- & Hc).
    apply Hin in Hc. destruct Hc as (j & Hj & ->). exists j. split; assumption.
Qed.

(** X8: the 20-day high used on day [i], by the analyzer and by the
    simulator, is the greatest high of the bars [i-20 .. i-1]: no high of
    the window exceeds it and one of them equals it; the 20-day low is the
    smallest low of the same bars. *)
Theorem window_levels_are_extremes candles i :
  (20 <= i <= length candles)%nat ->
  (forall j, (i - 20 <= j < i)%nat ->
      c_high (at_ candles j) <= twentyDayHighAt candles i
      /\ twentyDayLowAt candles i <= c_low (at_ candles j))
  /\ (exists j, (i - 20 <= j < i)%nat
                /\ twentyDayHighAt candles i == c_high (at_ candles j))
  /\ (exists j, (i - 20 <= j < i)%nat
                /\ twentyDayLowAt candles i == c_low (at_ candles j)).
Proof. apply window_bounds. Qed.

Lemma window_levels_are_extremes_witness :
  twentyDayHighAt breakoutHistory 21 == 11
  /\ c_high (at_ breakoutHistory 20) <= twentyDayHighAt breakoutHistory 21.
Proof.
  split; [vm_compute; reflexivity |].
  destruct (window_levels_are_extremes breakoutHistory 21) as (Hall & _);
    [vm_compute; lia |].
  apply (Hall 20%nat). lia.
Defined.

(** X9: [calculate20DayLevels] returns [null] exactly for fewer than 20
    bars; otherwise its high bounds, and is, a high of the last 20 bars, its
    low bounds, and is, a low of them, and when every bar has
    [low <= high] the low is at most the high. *)
Theorem calculate20DayLevels_are_extremes candles :
  (calculate20DayLevels candles = None <-> (length candles < 20)%nat)
  /\ forall levels,
      calculate20DayLevels candles = Some levels ->
      (forall j, (length candles - 20 <= j < length candles)%nat ->
          c_high (at_ candles j) <= lv_high levels
          /\ lv_low levels <= c_low (at_ candles j))
      /\ (exists j, (length candles - 20 <= j < length candles)%nat
                    /\ lv_high levels == c_high (at_ candles j))
      /\ (exists j, (length candles - 20 <= j < length candles)%nat
                    /\ lv_low levels == c_low (at_ candles j))
      /\ ((forall c, In c candles -> c_low c <= c_high c) ->
          lv_low levels <= lv_high levels).
Proof.
  unfold calculate20DayLevels.
  destruct (Nat.ltb_spec (length candles) 20) as [Hlt | Hge].
  - split; [split; [intros _; exact Hlt | reflexivity] | discriminate].
  - split; [split; [discriminate | lia] |].
    intros levels Hl. injection Hl as <-. cbn [lv_high lv_low].
    change (Math_max (map c_high (slice (length candles - 20) (length candles)
                                    candles)))
      with (twentyDayHighAt candles (length candles)).
    change (Math_min (map c_low (slice (length candles - 20) (length candles)
                                   candles)))
      with (twentyDayLowAt candles (length candles)).
    destruct (window_bounds candles (length candles)) as (Hall & Hh & Hl);
      [lia |].
    split; [exact Hall | split; [exact Hh | split; [exact Hl |]]].
    intro Hbars. destruct (Hall (length candles - 20)%nat) as (Hhi & Hlo);
      [lia |].
    apply Qle_trans with (c_low (at_ candles (length candles - 20)));
      [exact Hlo |].
    apply Qle_trans with (c_high (at_ candles (length candles - 20)));
      [| exact Hhi].
    apply Hbars. apply nth_In. lia.
Qed.

Lemma calculate20DayLevels_are_extremes_witness :
  exists levels,
    calculate20DayLevels quiet20 = Some levels
    /\ lv_low levels <= lv_high levels.
Proof.
  destruct (calculate20DayLevels quiet20) as [levels |] eqn:Hl.
  - exists levels. split; [reflexivity |].
    destruct (calculate20DayLevels_are_extremes quiet20) as (_ & Hsome).
    destruct (Hsome levels Hl) as (_ & _ & _ & Hle). apply Hle.
    intros c Hin. vm_compute in Hin.
    repeat (destruct Hin as [<- | Hin]; [vm_compute; discriminate |]).
    contradiction.
  - vm_compute in Hl. discriminate.
Defined.

Lemma analyzeStock_scan symbol candles a :
  analyzeStock symbol candles = Some a ->
  (21 <= length candles)%nat
  /\ s_status a = scanStatus (scanAfter candles (length candles - 20))
  /\ s_triggerDate a = scanTriggerDate (scanAfter candles (length candles - 20))
  /\ s_buyTriggerDate a
     = scanBuyTriggerDate (scanAfter candles (length candles - 20)).
Proof.
  unfold analyzeStock.
  destruct (Nat.ltb_spec (length candles) 21) as [Hlt | Hge]; [discriminate |].
  intro Ha. injection Ha as <-. repeat split. exact Hge.
Qed.

(** X10: the analyzer reports NEUTRAL exactly when no day from index 20 on
    touched the low of the 20 bars before it, and then it reports no
    trigger date and no buy trigger date. *)
Theorem neutral_means_no_low_touch symbol candles a :
  analyzeStock symbol candles = Some a ->
  (s_status a = NEUTRAL
   <-> forall i, (20 <= i < length candles)%nat -> ~ touchesLow candles i)
  /\ (s_status a = NEUTRAL ->
      s_triggerDate a = None /\ s_buyTriggerDate a = None).
Proof.
  intro Ha. apply analyzeStock_scan in Ha.
  destruct Ha as (Hlen & -> & -> & ->).
  destruct (neutral_invariant candles (length candles - 20)) as (Hiff & Hinit).
  split.
  - rewrite Hiff. split.
    + intros Hnever i Hi. replace i with (20 + (i - 20))%nat by lia.
      apply Hnever. lia.
    + intros Hnever k Hk. apply Hnever. lia.
  - intro Hst. rewrite (Hinit Hst). split; reflexivity.
Qed.

(** On [calmHistory] no low touches the 20-day low and the analyzer
    reports NEUTRAL. *)
Lemma neutral_means_no_low_touch_witness :
  exists a,
    analyzeStock "TEST" calmHistory = Some a
    /\ s_status a = NEUTRAL
    /\ s_triggerDate a = None
    /\ s_buyTriggerDate a = None
    /\ forall i, (20 <= i < length calmHistory)%nat ->
         ~ touchesLow calmHistory i.
Proof.
  destruct (analyzeStock "TEST" calmHistory) as [a |] eqn:Ha.
  - exists a. split; [reflexivity |].
    destruct (neutral_means_no_low_touch "TEST" calmHistory a Ha)
      as (Hiff & Hnone).
    assert (Hst : s_status a = NEUTRAL)
      by (vm_compute in Ha; injection Ha as <-; reflexivity).
    destruct (Hnone Hst) as (Ht & Hb).
    split; [exact Hst | split; [exact Ht | split; [exact Hb |]]].
    apply Hiff. exact Hst.
  - vm_compute in Ha. discriminate.
Defined.

(** X11: when the analyzer reports BUY_TRIGGERED, the buy trigger date is
    the date of a day [k] whose high broke the 20-day high, the trigger date
    is the date of an earlier day [t] that touched the 20-day low, and no
    day from [k] on touched its 20-day low. *)
Theorem buy_triggered_means_breakout_after_touch symbol candles a :
  analyzeStock symbol candles = Some a ->
  s_status a = BUY_TRIGGERED ->
  exists t k,
    (20 <= t < k)%nat /\ (k < length candles)%nat
    /\ s_triggerDate a = Some (c_date (at_ candles t))
    /\ touchesLow candles t
    /\ s_buyTriggerDate a = Some (c_date (at_ candles k))
    /\ breaksHigh candles k
    /\ forall j, (k <= j < length candles)%nat -> ~ touchesLow candles j.
Proof.
  intros Ha Hst. apply analyzeStock_scan in Ha.
  destruct Ha as (Hlen & Hs & -> & ->). rewrite Hs in Hst.
  destruct (triggered_invariant candles (length candles - 20)) as (_ & Hfired).
  destruct (Hfired Hst) as (_ & k & Hk & Hbuy & Hhigh & Hquiet & t & Ht & Hd & Hl).
  exists (20 + t)%nat, (20 + k)%nat.
  repeat split; try assumption; try lia.
  intros j Hj. replace j with (20 + (j - 20))%nat by lia. apply Hquiet. lia.
Qed.

Lemma buy_triggered_means_breakout_after_touch_witness :
  exists a,
    analyzeStock "TEST" triggeredHistory = Some a
    /\ s_status a = BUY_TRIGGERED
    /\ exists t k, (20 <= t < k)%nat /\ breaksHigh triggeredHistory k.
Proof.
  destruct (analyzeStock "TEST" triggeredHistory) as [a |] eqn:Ha.
  - exists a. split; [reflexivity |].
    assert (Hst : s_status a = BUY_TRIGGERED)
      by (vm_compute in Ha; injection Ha as <-; reflexivity).
    split; [exact Hst |].
    destruct (buy_triggered_means_breakout_after_touch "TEST" triggeredHistory
                a Ha Hst) as (t & k & Htk & _ & _ & _ & _ & Hhigh & _).
    exists t, k. split; assumption.
  - vm_compute in Ha. discriminate.
Defined.

Lemma slice_removelast (candles : list DailyCandle) :
  (21 <= length candles)%nat ->
  slice (length (removelast candles) - 20) (length (removelast candles))
    (removelast candles)
  = slice (length candles - 21) (length candles - 1) candles.
Proof.
  intro Hlen.
  assert (Hrl : removelast candles = firstn (length candles - 1) candles).
  { replace (length candles - 1)%nat with (pred (length candles)) by lia.
    apply removelast_firstn_len. }
  assert (Hl : length (removelast candles) = (length candles - 1)%nat).
  { rewrite Hrl, length_firstn. lia. }
  rewrite Hl. unfold slice. rewrite Hrl, skipn_firstn_comm, firstn_firstn.
  replace (length candles - 1 - 20)%nat with (length candles - 21)%nat by lia.
  f_equal. lia.
Qed.

(** X12: the levels the analyzer reports are those of the last scanned
    day, and are what [calculate20DayLevels] gives for the history without
    its latest bar; for a positive current price the distance to trigger is
    at most 0 exactly when the price has reached the 20-day high. *)
Theorem analysis_snapshot symbol candles a :
  analyzeStock symbol candles = Some a ->
  s_currentPrice a = c_close (at_ candles (length candles - 1))
  /\ s_twentyDayHigh a = twentyDayHighAt candles (length candles - 1)
  /\ s_twentyDayLow a = twentyDayLowAt candles (length candles - 1)
  /\ calculate20DayLevels (removelast candles)
     = Some (mkLevels (s_twentyDayHigh a) (s_twentyDayLow a))
  /\ (0 < s_currentPrice a ->
      (s_distanceToTrigger a <= 0 <-> s_twentyDayHigh a <= s_currentPrice a)).
Proof.
  unfold analyzeStock.
  destruct (Nat.ltb_spec (length candles) 21) as [Hlt | Hge]; [discriminate |].
  intro Ha. injection Ha as <-.
  cbn [s_currentPrice s_twentyDayHigh s_twentyDayLow s_distanceToTrigger].
  split; [reflexivity |].
  unfold twentyDayHighAt, twentyDayLowAt.
  replace (length candles - 1 - 20)%nat with (length candles - 21)%nat by lia.
  split; [reflexivity | split; [reflexivity |]].
  split.
  - unfold calculate20DayLevels.
    assert (Hl : length (removelast candles) = (length candles - 1)%nat).
    { rewrite removelast_firstn_len, length_firstn. lia. }
    destruct (Nat.ltb_spec (length (removelast candles)) 20) as [Hlt | _];
      [lia |].
    rewrite slice_removelast by exact Hge. reflexivity.
  - set (high := Math_max _). set (price := c_close _). intro Hprice.
    split.
    + intro Hd. 
      assert (Hr : (high - price) / price <= 0).
      { apply Qmult_le_r with (z := 100); [reflexivity |].
        setoid_replace (0 * 100) with 0 by ring. exact Hd. }
      apply Qmult_le_r with (z := price) in Hr; [| exact Hprice].
      setoid_replace ((high - price) / price * price) with (high - price)
        in Hr by (field; Lqa.lra).
      Lqa.lra.
    + intro Hle.
      assert (Hr : (high - price) / price <= 0).
      { apply Qle_shift_div_r; [exact Hprice | Lqa.lra]. }
      Lqa.lra.
Qed.

Lemma analysis_snapshot_witness :
  exists a,
    analyzeStock "TEST" triggeredHistory = Some a
    /\ (s_distanceToTrigger a <= 0 <-> s_twentyDayHigh a <= s_currentPrice a).
Proof.
  destruct (analyzeStock "TEST" triggeredHistory) as [a |] eqn:Ha.
  - exists a. split; [reflexivity |].
    destruct (analysis_snapshot "TEST" triggeredHistory a Ha)
      as (_ & _ & _ & _ & Hd).
    apply Hd. vm_compute in Ha. injection Ha as <-. vm_compute. reflexivity.
  - vm_compute in Ha. discriminate.
Defined.

(** ** The backtest route *)

Lemma firstn_plus {A : Type} (xs : list A) : forall a b,
  firstn (a + b) xs = firstn a xs ++ firstn b (skipn a xs).
Proof.
  induction xs as [| x xs IH]; intros [| a] b; cbn [Nat.add firstn skipn app];
    try reflexivity.
  - rewrite firstn_nil. reflexivity.
  - rewrite IH. reflexivity.
Qed.

Lemma chunks_prefix {A : Type} (xs : list A) m :
  concat (map (fun k => slice (k * CHUNK_SIZE) (k * CHUNK_SIZE + CHUNK_SIZE) xs)
            (seq 0 m))
  = firstn (m * CHUNK_SIZE) xs.
Proof.
  induction m as [| m IH]; [reflexivity |].
  rewrite seq_S, map_app, concat_app, IH. cbn [map concat Nat.add].
  rewrite app_nil_r. unfold slice.
  replace (m * CHUNK_SIZE + CHUNK_SIZE - m * CHUNK_SIZE)%nat with CHUNK_SIZE
    by lia.
  rewrite <- firstn_plus. f_equal. lia.
Qed.

(** The chunks are the list, cut in fives. *)
Lemma concat_chunksOf {A : Type} (xs : list A) : concat (chunksOf xs) = xs.
Proof.
  unfold chunksOf. rewrite chunks_prefix. apply firstn_all2.
  unfold CHUNK_SIZE.
  pose proof (Nat.div_mod_eq (length xs + (5 - 1)) 5) as Hdiv.
  pose proof (Nat.mod_upper_bound (length xs + (5 - 1)) 5) as Hmod.
  lia.
Qed.

Lemma pushResults_somes {A : Type} (chunkResults : list (option A)) :
  forall results,
    pushResults chunkResults results = results ++ somes chunkResults.
Proof.
  induction chunkResults as [| [r |] rest IH]; intro results;
    cbn [pushResults somes].
  - rewrite app_nil_r. reflexivity.
  - rewrite IH, <- app_assoc. reflexivity.
  - apply IH.
Qed.

Lemma somes_app {A : Type} (xs ys : list (option A)) :
  somes (xs ++ ys) = somes xs ++ somes ys.
Proof.
  induction xs as [| [x |] xs IH]; cbn [app somes]; [| rewrite IH |];
    try reflexivity.
  exact IH.
Qed.

Lemma routeResults_somes data body targetSymbols :
  routeResults data body targetSymbols
  = somes (map (backtestOne data body) targetSymbols).
Proof.
  unfold routeResults.
  rewrite <- (concat_chunksOf targetSymbols) at 2.
  generalize (chunksOf targetSymbols). intro chunks.
  change (somes (map (backtestOne data body) (concat chunks)))
    with ([] ++ somes (map (backtestOne data body) (concat chunks))).
  generalize (@nil BacktestResult).
  induction chunks as [| chunk chunks IH]; intro results; cbn [fold_left concat].
  - rewrite app_nil_r. reflexivity.
  - rewrite IH, pushResults_somes, map_app, somes_app, app_assoc. reflexivity.
Qed.

Lemma In_somes {A : Type} (x : A) xs : In x (somes xs) <-> In (Some x) xs.
Proof.
  induction xs as [| [y |] xs IH]; cbn [somes In].
  - reflexivity.
  - rewrite IH. split; intros [H | H]; auto; left; congruence.
  - rewrite IH. split; [auto | intros [H | H]; [discriminate | exact H]].
Qed.

Lemma somes_nil {A : Type} (xs : list (option A)) :
  somes xs = [] <-> forall x, In x xs -> x = None.
Proof.
  induction xs as [| [y |] xs IH]; cbn [somes].
  - split; [intros _ x [] | reflexivity].
  - split; [discriminate |]. intro H. specialize (H (Some y) (or_introl eq_refl)).
    discriminate.
  - rewrite IH. split.
    + intros H x [<- | Hx]; [reflexivity | apply H; exact Hx].
    + intros H x Hx. apply H. right. exact Hx.
Qed.

(** X13: the route answers 400 exactly when the body names no symbol
    ([symbols] missing or empty and [symbol] missing or empty); it answers
    500 exactly when symbols are named and none of them has at least 21
    candles; otherwise it reports the results of the named symbols that
    have, once each and in the order of the request, whatever the chunks. *)
Theorem backtestRoute_answers data body :
  (backtestRoute data body = BadRequest
   <-> (b_symbols body = None \/ b_symbols body = Some [])
       /\ (b_symbol body = None \/ b_symbol body = Some EmptyString))
  /\ (backtestRoute data body = NoValidBacktests
      <-> exists targetSymbols,
            targetSymbolsOf body = Some targetSymbols
            /\ forall sym, In sym targetSymbols ->
                 match data sym with
                 | Some candles => (length candles < 21)%nat
                 | None => True
                 end)
  /\ (forall results aggregate diary,
         backtestRoute data body = Report results aggregate diary ->
         results <> []
         /\ aggregate = aggregateOf body results
         /\ diary = portfolioDiary (routeCapital body) results
         /\ exists targetSymbols,
              targetSymbolsOf body = Some targetSymbols
              /\ results = somes (map (backtestOne data body) targetSymbols)).
Proof.
  unfold backtestRoute. split; [| split].
  - unfold targetSymbolsOf.
    destruct (b_symbols body) as [[| s rest] |];
      destruct (b_symbol body) as [[| c sym] |];
      (split;
       [ intro H; try (split; auto; fail); exfalso; revert H;
         match goal with
         | |- context [routeResults ?d ?b ?t] => destruct (routeResults d b t)
         end; discriminate
       | intros ([H1 | H1] & [H2 | H2]); try discriminate; reflexivity ]).
  - destruct (targetSymbolsOf body) as [targetSymbols |] eqn:Ht.
    + rewrite routeResults_somes.
      destruct (somes (map (backtestOne data body) targetSymbols))
        as [| r results] eqn:Hres.
      * split; [| reflexivity]. intros _. exists targetSymbols.
        split; [reflexivity |]. intros sym Hin.
        assert (Hnone : backtestOne data body sym = None).
        { apply (proj1 (somes_nil _) Hres). apply in_map. exact Hin. }
        unfold backtestOne in Hnone.
        destruct (data sym) as [candles |]; [| exact I].
        destruct (Nat.ltb_spec (length candles) 21) as [Hlt | Hge];
          [exact Hlt |].
        unfold runBacktest in Hnone.
        destruct (Nat.ltb_spec (length candles) 21); [lia | discriminate].
      * split; [discriminate |]. intros (targets & Heq & Hall).
        injection Heq as <-. exfalso.
        assert (Hin : In r (somes (map (backtestOne data body) targetSymbols)))
          by (rewrite Hres; left; reflexivity).
        apply In_somes in Hin. apply in_map_iff in Hin.
        destruct Hin as (sym & Hsome & Hsym). specialize (Hall sym Hsym).
        unfold backtestOne in Hsome.
        destruct (data sym) as [candles |]; [| discriminate].
        destruct (Nat.ltb_spec (length candles) 21); [discriminate | lia].
    + split; [discriminate |]. intros (targets & Heq & _). discriminate.
  - intros results aggregate diary.
    destruct (targetSymbolsOf body) as [targetSymbols |]; [| discriminate].
    pose proof (routeResults_somes data body targetSymbols) as Hres.
    destruct (routeResults data body targetSymbols) as [| r rs];
      [discriminate |].
    intro Hrep. injection Hrep as <- <- <-.
    split; [discriminate |]. split; [reflexivity |]. split; [reflexivity |].
    exists targetSymbols. split; [reflexivity | exact Hres].
Qed.

Lemma fold_left_countOf {A : Type} (f : A -> nat) (xs : list A) : forall a,
  fold_left (fun sum x => (sum + f x)%nat) xs a = (a + countOf f xs)%nat.
Proof.
  induction xs as [| x xs IH]; intro a; cbn [fold_left countOf];
    [lia | rewrite IH; lia].
Qed.

Lemma countOf_split {A : Type} (f g h : A -> nat) (xs : list A) :
  (forall x, In x xs -> (f x + g x = h x)%nat) ->
  (countOf f xs + countOf g xs = countOf h xs)%nat.
Proof.
  induction xs as [| x xs IH]; intro Hfg; cbn [countOf]; [reflexivity |].
  assert (f x + g x = h x)%nat by (apply Hfg; left; reflexivity).
  assert (countOf f xs + countOf g xs = countOf h xs)%nat
    by (apply IH; intros y Hy; apply Hfg; right; exact Hy).
  lia.
Qed.

(** Every result of the route is a result of [runBacktest]. *)
Lemma routeResults_origin data body targetSymbols r :
  In r (routeResults data body targetSymbols) ->
  exists sym candles,
    runBacktest sym candles (routeCapital body) (Some (routeTradeAmount body))
      (orDefault (b_exitStrategy body) WEIGHTED_AVERAGE)
      (orDefault (b_targetProfitPercent body) 6)
      (orDefault (b_avgLevels body) 3) = Some r.
Proof.
  rewrite routeResults_somes, In_somes, in_map_iff.
  intros (sym & Hr & _). unfold backtestOne in Hr.
  destruct (data sym) as [candles |]; [| discriminate].
  destruct (length candles <? 21)%nat; [discriminate |].
  exists sym, candles. exact Hr.
Qed.


(** ** The dates of the diary *)

Lemma collectDay_dates res day dailyMap :
  map m_date (collectDay res day dailyMap)
  = if in_dec Z.eq_dec (d_date day) (map m_date dailyMap)
    then map m_date dailyMap
    else map m_date dailyMap ++ [d_date day].
Proof.
  induction dailyMap as [| entry rest IH]; cbn [collectDay map];
    [reflexivity |].
  destruct (Z.eqb_spec (m_date entry) (d_date day)) as [Heq | Hne].
  - cbn [map m_date].
    destruct (in_dec Z.eq_dec (d_date day) (m_date entry :: map m_date rest))
      as [_ | Hout]; [reflexivity |].
    exfalso. apply Hout. left. exact Heq.
  - cbn [map]. rewrite IH.
    destruct (in_dec Z.eq_dec (d_date day) (map m_date rest)) as [Hin | Hout];
      destruct (in_dec Z.eq_dec (d_date day) (m_date entry :: map m_date rest))
        as [Hin' | Hout']; try reflexivity.
    + exfalso. apply Hout'. right. exact Hin.
    + exfalso. destruct Hin' as [Heq | Hin']; [congruence | contradiction].
Qed.

Lemma collectDay_keeps res day dailyMap :
  NoDup (map m_date dailyMap) ->
  NoDup (map m_date (collectDay res day dailyMap))
  /\ forall d, In d (map m_date (collectDay res day dailyMap))
               <-> In d (map m_date dailyMap) \/ d = d_date day.
Proof.
  intro Hnd. rewrite collectDay_dates.
  destruct (in_dec Z.eq_dec (d_date day) (map m_date dailyMap)) as [Hin | Hout].
  - split; [exact Hnd |]. intro d. split; [auto |].
    intros [H | ->]; assumption.
  - split.
    + apply NoDup_app; [exact Hnd | repeat constructor; intros [] |].
      intros d Hd. intros [<- | []]. contradiction.
    + intro d. rewrite in_app_iff. cbn [In].
      split; intros [H | H]; auto.
      destruct H as [<- | []]. right. reflexivity.
Qed.

Lemma collectDays_dates results :
  NoDup (map m_date (collectDays results))
  /\ forall d, In d (map m_date (collectDays results))
               <-> exists r e, In r results /\ In e (r_dailyLog r)
                               /\ d_date e = d.
Proof.
  unfold collectDays.
  assert (Hgen : forall rs dailyMap,
    NoDup (map m_date dailyMap) ->
    let out := fold_left
                 (fun m res =>
                    fold_left (fun m' day => collectDay res day m')
                      (r_dailyLog res) m) rs dailyMap in
    NoDup (map m_date out)
    /\ forall d, In d (map m_date out)
                 <-> In d (map m_date dailyMap)
                     \/ exists r e, In r rs /\ In e (r_dailyLog r)
                                    /\ d_date e = d).
  { induction rs as [| r rs IH]; intros dailyMap Hnd; cbv zeta;
      cbn [fold_left].
    - split; [exact Hnd |]. intro d. split; [auto |].
      intros [H | (r & e & [] & _)]. exact H.
    - assert (Hinner : forall ledger m,
        NoDup (map m_date m) ->
        let out := fold_left (fun m' day => collectDay r day m') ledger m in
        NoDup (map m_date out)
        /\ forall d, In d (map m_date out)
                     <-> In d (map m_date m)
                         \/ exists e, In e ledger /\ d_date e = d).
      { induction ledger as [| day ledger IHl]; intros m Hm; cbv zeta;
          cbn [fold_left].
        - split; [exact Hm |]. intro d. split; [auto |].
          intros [H | (e & [] & _)]. exact H.
        - destruct (collectDay_keeps r day m Hm) as (Hnd1 & Hin1).
          destruct (IHl _ Hnd1) as (Hnd2 & Hin2).
          split; [exact Hnd2 |]. intro d. rewrite Hin2, Hin1. split.
          + intros [[H | ->] | (e & He & Hd)]; auto.
            * right. exists day. split; [left |]; reflexivity.
            * right. exists e. split; [right |]; assumption.
          + intros [H | (e & [<- | He] & Hd)]; auto.
            right. exists e. split; assumption. }
      destruct (Hinner (r_dailyLog r) dailyMap Hnd) as (Hnd1 & Hin1).
      destruct (IH _ Hnd1) as (Hnd2 & Hin2).
      split; [exact Hnd2 |]. intro d. rewrite Hin2, Hin1. split.
      + intros [[H | (e & He & Hd)] | (r' & e & Hr & He & Hd)]; auto.
        * right. exists r, e. repeat split; [left; reflexivity | |]; assumption.
        * right. exists r', e. repeat split; [right | |]; assumption.
      + intros [H | (r' & e & [<- | Hr] & He & Hd)]; auto.
        * left. right. exists e. split; assumption.
        * right. exists r', e. repeat split; assumption. }
  destruct (Hgen results [] (NoDup_nil _)) as (Hnd & Hin).
  split; [exact Hnd |]. intro d. rewrite Hin. split.
  - intros [[] | H]. exact H.
  - auto.
Qed.

Lemma NoDup_app_apart {A : Type} (l l' : list A) :
  NoDup (l ++ l') -> forall a, In a l -> In a l' -> False.
Proof.
  induction l as [| x l IH]; intros Hnd a Hin Hin'; [contradiction |].
  cbn [app] in Hnd. inversion Hnd as [| ? ? Hx Hrest]; subst.
  destruct Hin as [-> | Hin].
  - apply Hx. apply in_or_app. right. exact Hin'.
  - exact (IH Hrest a Hin Hin').
Qed.

Lemma insertByDate_In x sorted y :
  In y (insertByDate x sorted) <-> y = x \/ In y sorted.
Proof.
  induction sorted as [| z rest IH]; cbn [insertByDate In].
  - split; intros [H | H]; auto.
  - destruct (m_date x <? m_date z)%Z; cbn [In].
    + split; intros [H | H]; auto.
    + rewrite IH. split; intros [H | [H | H]]; auto.
Qed.

Lemma insertByDate_sorted x sorted :
  StronglySorted dateBefore sorted ->
  ~ In (m_date x) (map m_date sorted) ->
  StronglySorted dateBefore (insertByDate x sorted).
Proof.
  induction sorted as [| z rest IH]; intros Hs Hfresh; cbn [insertByDate].
  - repeat constructor.
  - apply StronglySorted_inv in Hs. destruct Hs as (Hrest & Hz).
    destruct (Z.ltb_spec (m_date x) (m_date z)) as [Hlt | Hge].
    + constructor; [constructor; assumption |].
      constructor; [exact Hlt |].
      rewrite Forall_forall in Hz |- *. intros w Hw.
      unfold dateBefore in *. specialize (Hz w Hw). lia.
    + assert (Hne : m_date x <> m_date z)
        by (intro Heq; apply Hfresh; left; symmetry; exact Heq).
      constructor.
      * apply IH; [exact Hrest |]. intro Hin. apply Hfresh. right. exact Hin.
      * rewrite Forall_forall in Hz |- *. intros w Hw.
        apply insertByDate_In in Hw. destruct Hw as [-> | Hw];
          [unfold dateBefore; lia | apply Hz; exact Hw].
Qed.

Lemma sortByDate_sorted days :
  NoDup (map m_date days) ->
  StronglySorted dateBefore (sortByDate days)
  /\ forall y, In y (sortByDate days) <-> In y days.
Proof.
  unfold sortByDate.
  assert (Hgen : forall rest sorted,
    StronglySorted dateBefore sorted ->
    NoDup (map m_date sorted ++ map m_date rest) ->
    let out := fold_left (fun acc x => insertByDate x acc) rest sorted in
    StronglySorted dateBefore out
    /\ forall y, In y out <-> In y sorted \/ In y rest).
  { induction rest as [| x rest IH]; intros sorted Hs Hnd; cbv zeta;
      cbn [fold_left].
    - split; [exact Hs |]. intro y. split; [auto | intros [H | []]; exact H].
    - cbn [map] in Hnd.
      assert (Hfresh : ~ In (m_date x) (map m_date sorted)).
      { intro Hin. apply NoDup_remove_2 in Hnd. apply Hnd.
        apply in_or_app. left. exact Hin. }
      destruct (IH (insertByDate x sorted)) as (Hs' & Hin').
      + apply insertByDate_sorted; assumption.
      + apply NoDup_remove_1 in Hnd as Hnd1.
        apply NoDup_remove_2 in Hnd as Hnd2.
        assert (Hperm : forall d,
                  In d (map m_date (insertByDate x sorted))
                  <-> d = m_date x \/ In d (map m_date sorted)).
        { intro d. rewrite !in_map_iff. split.
          - intros (w & <- & Hw). apply insertByDate_In in Hw.
            destruct Hw as [-> | Hw]; [left; reflexivity |].
            right. exists w. split; [reflexivity | exact Hw].
          - intros [-> | (w & <- & Hw)].
            + exists x. split; [reflexivity |]. apply insertByDate_In.
              left. reflexivity.
            + exists w. split; [reflexivity |]. apply insertByDate_In.
              right. exact Hw. }
        apply NoDup_app.
        * clear - Hs Hfresh. 
          pose proof (insertByDate_sorted x sorted Hs Hfresh) as Hsorted.
          induction Hsorted as [| a l _ IHl Hall]; [constructor |].
          cbn [map]. constructor; [| exact IHl].
          intro Hin. apply in_map_iff in Hin. destruct Hin as (w & Hw & Hinw).
          rewrite Forall_forall in Hall. specialize (Hall w Hinw).
          unfold dateBefore in Hall. lia.
        * apply NoDup_app_remove_l in Hnd1. exact Hnd1.
        * intros d Hd Hd'. apply Hperm in Hd. destruct Hd as [-> | Hd].
          -- apply Hnd2. apply in_or_app. right. exact Hd'.
          -- exact (NoDup_app_apart _ _ Hnd1 d Hd Hd').
      + split; [exact Hs' |]. intro y. rewrite Hin', insertByDate_In. cbn [In].
        split; intro H; intuition (subst; auto). }
  intro Hnd. destruct (Hgen days [] (SSorted_nil _) Hnd) as (Hs & Hin).
  split; [exact Hs |]. intro y. rewrite Hin. split; [intros [[] | H]; exact H | auto].
Qed.

Lemma setDayProfit_dates diary : forall i v,
  map pd_date (setDayProfit diary i v) = map pd_date diary.
Proof.
  induction diary as [| e rest IH]; intros [| i] v; cbn; try reflexivity.
  rewrite IH. reflexivity.
Qed.

Lemma fillDayProfit_dates diary :
  map pd_date (fillDayProfit diary) = map pd_date diary.
Proof.
  unfold fillDayProfit. generalize (seq 1 (length diary - 1)). intro indices.
  revert diary. induction indices as [| i indices IH]; intro diary;
    cbn [fold_left]; [reflexivity |].
  rewrite IH. unfold dayProfitStep. apply setDayProfit_dates.
Qed.

Lemma sorted_dates days :
  StronglySorted dateBefore days -> StronglySorted Z.lt (map m_date days).
Proof.
  induction 1 as [| a l _ IH Hall]; cbn [map]; constructor; [exact IH |].
  rewrite Forall_forall in Hall |- *. intros d Hd.
  apply in_map_iff in Hd. destruct Hd as (w & <- & Hw). exact (Hall w Hw).
Qed.

(** X15: the portfolio diary has one entry for each date that occurs in
    the daily ledger of some result, and its entries are in strictly
    increasing date order. *)
Theorem diary_has_one_entry_per_date initialCapital results :
  let diary := portfolioDiary initialCapital results in
  StronglySorted Z.lt (map pd_date diary)
  /\ forall d,
      In d (map pd_date diary)
      <-> exists r e, In r results /\ In e (r_dailyLog r) /\ d_date e = d.
Proof.
  cbv zeta. unfold portfolioDiary.
  rewrite fillDayProfit_dates, map_map. cbn [toPortfolioDay pd_date].
  destruct (collectDays_dates results) as (Hnd & Hin).
  destruct (sortByDate_sorted (collectDays results) Hnd) as (Hsorted & Hsame).
  split.
  - apply sorted_dates. exact Hsorted.
  - intro d. rewrite <- Hin, !in_map_iff. split.
    + intros (w & <- & Hw). exists w. split; [reflexivity |].
      apply Hsame. exact Hw.
    + intros (w & <- & Hw). exists w. split; [reflexivity |].
      apply Hsame. exact Hw.
Qed.

(** ** The diary of one symbol *)

Lemma collectDay_fresh res day dailyMap :
  ~ In (d_date day) (map m_date dailyMap) ->
  collectDay res day dailyMap = dailyMap ++ [newDiaryDay res day].
Proof.
  induction dailyMap as [| entry rest IH]; intro Hfresh; cbn [collectDay app];
    [reflexivity |].
  destruct (Z.eqb_spec (m_date entry) (d_date day)) as [Heq | Hne].
  - exfalso. apply Hfresh. left. exact Heq.
  - rewrite IH; [reflexivity |]. intro Hin. apply Hfresh. right. exact Hin.
Qed.

Lemma collect_fresh_ledger res ledger : forall dailyMap,
  NoDup (map m_date dailyMap ++ map d_date ledger) ->
  fold_left (fun m day => collectDay res day m) ledger dailyMap
  = dailyMap ++ map (newDiaryDay res) ledger.
Proof.
  induction ledger as [| day ledger IH]; intros dailyMap Hnd;
    cbn [fold_left map].
  - rewrite app_nil_r. reflexivity.
  - cbn [map] in Hnd.
    assert (Hfresh : ~ In (d_date day) (map m_date dailyMap)).
    { intro Hin. apply NoDup_remove_2 in Hnd. apply Hnd. apply in_or_app.
      left. exact Hin. }
    rewrite collectDay_fresh by exact Hfresh.
    rewrite IH; [rewrite <- app_assoc; reflexivity |].
    rewrite map_app, <- app_assoc. exact Hnd.
Qed.

Lemma sorted_before {A : Type} (R : A -> A -> Prop) l1 : forall x l2,
  StronglySorted R (l1 ++ x :: l2) -> Forall (fun y => R y x) l1.
Proof.
  induction l1 as [| a l1 IH]; intros x l2 Hs; [constructor |].
  cbn [app] in Hs. apply StronglySorted_inv in Hs. destruct Hs as (Hrest & Ha).
  constructor.
  - rewrite Forall_forall in Ha. apply Ha. apply in_or_app. right. left.
    reflexivity.
  - exact (IH x l2 Hrest).
Qed.

Lemma insertByDate_last x sorted :
  Forall (fun y => dateBefore y x) sorted ->
  insertByDate x sorted = sorted ++ [x].
Proof.
  induction 1 as [| y rest Hy _ IH]; cbn [insertByDate app]; [reflexivity |].
  unfold dateBefore in Hy.
  destruct (Z.ltb_spec (m_date x) (m_date y)) as [Hlt | _]; [lia |].
  rewrite IH. reflexivity.
Qed.

(** Sorting days that are in strictly increasing date order changes
    nothing. *)
Lemma sortByDate_sorted_input days :
  StronglySorted dateBefore days -> sortByDate days = days.
Proof.
  unfold sortByDate. intro Hs.
  assert (Hgen : forall rest acc,
            StronglySorted dateBefore (acc ++ rest) ->
            fold_left (fun sorted x => insertByDate x sorted) rest acc
            = acc ++ rest).
  { induction rest as [| x rest IH]; intros acc Hacc; cbn [fold_left].
    - rewrite app_nil_r. reflexivity.
    - rewrite insertByDate_last by exact (sorted_before _ _ _ _ Hacc).
      rewrite IH; rewrite <- app_assoc; [reflexivity | exact Hacc]. }
  exact (Hgen days [] Hs).
Qed.

Lemma setDayProfit_sameBut diary : forall i v,
  Forall2 sameButDayProfit diary (setDayProfit diary i v).
Proof.
  assert (Hrefl : forall l, Forall2 sameButDayProfit l l).
  { induction l; constructor; [repeat split | assumption]. }
  induction diary as [| e rest IH]; intros [| i] v; cbn [setDayProfit];
    try constructor; try apply Hrefl; try apply IH; repeat split.
Qed.

Lemma fillDayProfit_sameBut diary :
  Forall2 sameButDayProfit diary (fillDayProfit diary).
Proof.
  unfold fillDayProfit. generalize (seq 1 (length diary - 1)). intro indices.
  revert diary. induction indices as [| i indices IH]; intro diary;
    cbn [fold_left].
  - induction diary; constructor; [repeat split | assumption].
  - specialize (IH (dayProfitStep diary i)).
    pose proof (setDayProfit_sameBut diary i
                  (pd_portfolioValue (nth i diary noPortfolioDay)
                   - pd_portfolioValue (nth (i - 1) diary noPortfolioDay)))
      as Hstep.
    fold (dayProfitStep diary i) in Hstep.
    revert Hstep IH. generalize (dayProfitStep diary i).
    generalize (fold_left dayProfitStep indices).
    intros f mid Hstep. revert diary Hstep. generalize (f mid). clear.
    intros out diary Hstep. revert out.
    induction Hstep as [| a b l l' Hab _ IHl]; intros out Hout;
      inversion Hout as [| ? c ? l'' Hbc Hrest]; subst; constructor.
    + destruct Hab as (H1 & H2 & H3 & H4 & H5 & H6).
      destruct Hbc as (K1 & K2 & K3 & K4 & K5 & K6).
      repeat split; congruence.
    + apply IHl. exact Hrest.
Qed.

Lemma sorted_nth_lt l : StronglySorted Z.lt l ->
  forall i j d, (i < j < length l)%nat -> (nth i l d < nth j l d)%Z.
Proof.
  induction 1 as [| a l _ IH Hall]; intros i j d Hij; cbn [length] in Hij;
    [lia |].
  destruct j as [| j]; [lia |]. destruct i as [| i]; cbn [nth].
  - rewrite Forall_forall in Hall. apply Hall. apply nth_In. lia.
  - apply IH. lia.
Qed.

Lemma sorted_map_seq (f : nat -> Z) n : forall a,
  (forall i j, (a <= i < j)%nat -> (j < a + n)%nat -> (f i < f j)%Z) ->
  StronglySorted Z.lt (map f (seq a n)).
Proof.
  induction n as [| n IH]; intros a Hf; cbn [seq map]; constructor.
  - apply IH. intros i j Hij Hj. apply Hf; lia.
  - apply Forall_forall. intros d Hd. apply in_map_iff in Hd.
    destruct Hd as (j & <- & Hj). apply in_seq in Hj. apply Hf; lia.
Qed.

Lemma sorted_NoDup l : StronglySorted Z.lt l -> NoDup l.
Proof.
  induction 1 as [| a l _ IH Hall]; constructor; [| exact IH].
  intro Hin. rewrite Forall_forall in Hall. specialize (Hall a Hin). lia.
Qed.

Lemma Forall2_nth_rel {A : Type} (R : A -> A -> Prop) l l' :
  Forall2 R l l' ->
  length l = length l'
  /\ forall i d, (i < length l)%nat -> R (nth i l d) (nth i l' d).
Proof.
  induction 1 as [| a b l l' Hab _ (IHlen & IHnth)]; cbn [length].
  - split; [reflexivity | intros i d Hi; lia].
  - split; [lia |]. intros [| i] d Hi; cbn [nth]; [exact Hab |].
    apply IHnth. lia.
Qed.

Section OneSymbol.

Variable symbol : string.
Variable candles : list DailyCandle.
Variable initialCapital : Q.
Variable perTradeAmount : option Q.
Variable exitStrategy : ExitStrategy.
Variable targetProfitPercent : Q.
Variable avgLevels : Q.

Local Abbreviation run :=
  (simAfter symbol candles initialCapital perTradeAmount exitStrategy
     targetProfitPercent avgLevels).

Lemma ledger_dates n :
  map d_date (dailyLog (run n))
  = map (fun k => c_date (at_ candles (20 + k))) (seq 0 n).
Proof.
  induction n as [| n IH]; [reflexivity |].
  rewrite simAfter_S.
  destruct (processDay_ledger symbol candles initialCapital perTradeAmount
              exitStrategy targetProfitPercent avgLevels (run n) (20 + n))
    as (e & -> & _ & Hdate & _).
  rewrite map_app, IH, seq_S, map_app. cbn [map]. rewrite Hdate. reflexivity.
Qed.

Hypothesis dates_ascend : StronglySorted Z.lt (map c_date candles).

Lemma ledger_dates_ascend n :
  (n <= length candles - 20)%nat ->
  StronglySorted Z.lt (map d_date (dailyLog (run n))).
Proof.
  intro Hn. rewrite ledger_dates. apply sorted_map_seq.
  intros i j Hij Hj. unfold at_.
  rewrite <- !(map_nth c_date).
  apply sorted_nth_lt; [exact dates_ascend |]. rewrite length_map. lia.
Qed.

End OneSymbol.

Lemma sorted_new_days res ledger :
  StronglySorted Z.lt (map d_date ledger) ->
  StronglySorted dateBefore (map (newDiaryDay res) ledger).
Proof.
  induction ledger as [| e ledger IH]; intro Hs; cbn [map] in *;
    [constructor |].
  apply StronglySorted_inv in Hs. destruct Hs as (Hrest & Hall).
  constructor; [exact (IH Hrest) |].
  rewrite Forall_forall in Hall |- *. intros w Hw.
  apply in_map_iff in Hw. destruct Hw as (e' & <- & He').
  unfold dateBefore. cbn [newDiaryDay m_date]. apply Hall.
  apply in_map. exact He'.
Qed.

(** X16: for one symbol whose candle dates strictly increase, the portfolio
    diary follows the daily ledger of the result entry by entry: same date
    and activities, the same amount invested, a total profit of the equity
    less the initial capital, a portfolio value of the initial capital plus
    that total profit and a cash of the portfolio value less the amount
    invested; the first [dayProfit] is 0 and every later one is the change
    of the portfolio value since the entry before. *)
Theorem one_symbol_diary_follows_the_ledger symbol candles initialCapital
  perTradeAmount exitStrategy targetProfitPercent avgLevels r :
  StronglySorted Z.lt (map c_date candles) ->
  runBacktest symbol candles initialCapital perTradeAmount exitStrategy
    targetProfitPercent avgLevels = Some r ->
  let diary := portfolioDiary initialCapital [r] in
  length diary = length (r_dailyLog r)
  /\ forall i e,
      nth_error (r_dailyLog r) i = Some e ->
      exists p,
        nth_error diary i = Some p
        /\ pd_date p = d_date e
        /\ pd_activities p = d_activities e
        /\ pd_invested p == d_invested e
        /\ pd_totalProfit p == d_equity e - initialCapital
        /\ pd_portfolioValue p == initialCapital + pd_totalProfit p
        /\ pd_cash p == pd_portfolioValue p - pd_invested p
        /\ match i with
           | O => pd_dayProfit p = 0
           | Datatypes.S j =>
               exists p', nth_error diary j = Some p'
                          /\ pd_dayProfit p
                             == pd_portfolioValue p - pd_portfolioValue p'
           end.
Proof.
  intros Hdates Hr diary. apply runBacktest_finalize in Hr.
  destruct Hr as (Hlen & ->). subst diary.
  set (s := simAfter symbol candles initialCapital perTradeAmount exitStrategy
              targetProfitPercent avgLevels (length candles - 20)).
  set (r := finalize symbol candles initialCapital s).
  assert (Hledger : r_dailyLog r = dailyLog s) by reflexivity.
  assert (Hcap : r_initialCapital r = initialCapital) by reflexivity.
  assert (Hsorted : StronglySorted Z.lt (map d_date (dailyLog s)))
    by (apply ledger_dates_ascend; [exact Hdates | lia]).
  unfold portfolioDiary, collectDays. cbn [fold_left].
  rewrite Hledger.
  rewrite collect_fresh_ledger by (apply sorted_NoDup; exact Hsorted).
  cbn [app].
  rewrite sortByDate_sorted_input by (apply sorted_new_days; exact Hsorted).
  set (base := map (toPortfolioDay initialCapital)
                 (map (newDiaryDay r) (dailyLog s))).
  assert (Hbase_len : length base = length (dailyLog s))
    by (unfold base; rewrite !length_map; reflexivity).
  destruct (Forall2_nth_rel _ _ _ (fillDayProfit_sameBut base))
    as (Hlen2 & Hsame).
  destruct (dayProfit_loop base (length base - 1) (Nat.le_refl _))
    as (_ & Hpv & Hfilled & Hrest).
  fold (fillDayProfit base) in Hpv, Hfilled, Hrest.
  split; [congruence |].
  intros i e Hnth.
  assert (Hi : (i < length (dailyLog s))%nat)
    by (apply nth_error_Some; congruence).
  assert (Hbase : forall k ek,
            nth_error (dailyLog s) k = Some ek ->
            nth k base noPortfolioDay
            = toPortfolioDay initialCapital (newDiaryDay r ek)).
  { intros k ek Hk. apply nth_error_nth. unfold base.
    rewrite !nth_error_map, Hk. reflexivity. }
  exists (nth i (fillDayProfit base) noPortfolioDay).
  split; [apply nth_error_nth'; lia |].
  destruct (Hsame i noPortfolioDay) as (Hd & Hc & Hv & Hp & Ht & Ha); [lia |].
  rewrite (Hbase i e Hnth) in Hd, Hc, Hv, Hp, Ht, Ha.
  cbn [toPortfolioDay newDiaryDay pd_date pd_cash pd_invested pd_portfolioValue
         pd_totalProfit pd_activities m_date m_invested m_totalProfit
         m_activities app] in Hd, Hc, Hv, Hp, Ht, Ha.
  rewrite <- Hd, <- Hc, <- Hv, <- Hp, <- Ht, <- Ha, Hcap.
  split; [reflexivity | split; [reflexivity |]].
  split; [ring | split; [ring | split; [reflexivity | split; [reflexivity |]]]].
  destruct i as [| j].
  - rewrite Hrest by (left; reflexivity). rewrite (Hbase 0%nat e Hnth).
    reflexivity.
  - exists (nth j (fillDayProfit base) noPortfolioDay).
    split; [apply nth_error_nth'; lia |].
    rewrite Hfilled by lia. cbn [Nat.sub]. rewrite Nat.sub_0_r.
    rewrite !Hpv. rewrite (Hbase _ e Hnth).
    cbn [toPortfolioDay newDiaryDay pd_portfolioValue m_totalProfit].
    rewrite Hcap. reflexivity.
Qed.

Lemma one_symbol_diary_follows_the_ledger_witness :
  exists r,
    twoLotRun = Some r
    /\ length (portfolioDiary 1000 [r]) = length (r_dailyLog r).
Proof.
  destruct twoLotRun as [r |] eqn:Hr.
  - exists r. split; [reflexivity |].
    destruct (one_symbol_diary_follows_the_ledger "TEST" twoLotHistory 1000
                (Some 100) LIFO 6 3 r) as (Hlen & _).
    + vm_compute. repeat (constructor; [| repeat (constructor; [reflexivity |]); constructor]).
      constructor.
    + exact Hr.
    + exact Hlen.
  - vm_compute in Hr. discriminate.
Defined.

(** ** Sorting *)

Section SortBy.

Variable A : Type.
Variable before : A -> A -> bool.
Variable le : A -> A -> Prop.

Hypothesis before_le : forall x y, before x y = true -> le x y.
Hypothesis not_before_le : forall x y, before x y = false -> le y x.
Hypothesis le_trans : forall x y z, le x y -> le y z -> le x z.

Lemma insertBy_Permutation x sorted :
  Permutation (insertBy before x sorted) (x :: sorted).
Proof.
  induction sorted as [| y rest IH]; cbn [insertBy]; [reflexivity |].
  destruct (before x y); [reflexivity |].
  rewrite IH. apply perm_swap.
Qed.

Lemma insertBy_sorted x sorted :
  StronglySorted le sorted -> StronglySorted le (insertBy before x sorted).
Proof.
  induction sorted as [| y rest IH]; intro Hs; cbn [insertBy].
  - repeat constructor.
  - apply StronglySorted_inv in Hs. destruct Hs as (Hrest & Hy).
    destruct (before x y) eqn:Hxy.
    + constructor; [constructor; assumption |].
      constructor; [apply before_le; exact Hxy |].
      rewrite Forall_forall in Hy |- *. intros w Hw.
      apply le_trans with y; [apply before_le; exact Hxy | apply Hy; exact Hw].
    + constructor; [apply IH; exact Hrest |].
      rewrite Forall_forall in Hy |- *. intros w Hw.
      apply (Permutation_in _ (insertBy_Permutation x rest)) in Hw.
      destruct Hw as [<- | Hw]; [apply not_before_le; exact Hxy | apply Hy; exact Hw].
Qed.

Lemma sortBy_spec xs :
  StronglySorted le (sortBy before xs) /\ Permutation (sortBy before xs) xs.
Proof.
  unfold sortBy.
  assert (Hgen : forall rest acc,
            StronglySorted le acc ->
            StronglySorted le
              (fold_left (fun sorted x => insertBy before x sorted) rest acc)
            /\ Permutation
                 (fold_left (fun sorted x => insertBy before x sorted) rest acc)
                 (acc ++ rest)).
  { induction rest as [| x rest IH]; intros acc Hacc; cbn [fold_left].
    - split; [exact Hacc | rewrite app_nil_r; reflexivity].
    - destruct (IH (insertBy before x acc) (insertBy_sorted x acc Hacc))
        as (Hs & Hp).
      split; [exact Hs |]. rewrite Hp, insertBy_Permutation.
      apply Permutation_middle. }
  exact (Hgen xs [] (SSorted_nil _)).
Qed.

End SortBy.

Lemma sorted_strict {A : Type} (key : A -> Z) (xs : list A) :
  StronglySorted (fun a b => (key a <= key b)%Z) xs ->
  NoDup (map key xs) ->
  StronglySorted (fun a b => (key a < key b)%Z) xs.
Proof.
  induction 1 as [| a l _ IH Hall]; intro Hnd; cbn [map] in *;
    [constructor |].
  inversion Hnd as [| ? ? Hout Hrest]; subst.
  constructor; [exact (IH Hrest) |].
  rewrite Forall_forall in Hall |- *. intros w Hw.
  specialize (Hall w Hw).
  assert (key a <> key w) by (intro Heq; apply Hout; rewrite Heq;
                              apply in_map; exact Hw).
  lia.
Qed.

(** Two lists with the same rows, both in strictly increasing order of a
    key, are the same list. *)
Lemma sorted_unique {A : Type} (key : A -> Z) (xs : list A) : forall ys,
  StronglySorted (fun a b => (key a < key b)%Z) xs ->
  StronglySorted (fun a b => (key a < key b)%Z) ys ->
  Permutation xs ys ->
  xs = ys.
Proof.
  induction xs as [| x xs IH]; intros ys Hx Hy Hp.
  - apply Permutation_nil in Hp. symmetry. exact Hp.
  - destruct ys as [| y ys];
      [symmetry in Hp; apply Permutation_nil in Hp; discriminate |].
    apply StronglySorted_inv in Hx. destruct Hx as (Hxs & Hxall).
    apply StronglySorted_inv in Hy. destruct Hy as (Hys & Hyall).
    rewrite Forall_forall in Hxall, Hyall.
    assert (Heq : x = y).
    { assert (Hxin : In x (y :: ys))
        by (apply (Permutation_in _ Hp); left; reflexivity).
      assert (Hyin : In y (x :: xs))
        by (apply (Permutation_in _ (Permutation_sym Hp)); left; reflexivity).
      destruct Hxin as [Hxy | Hxin]; [symmetry; exact Hxy |].
      destruct Hyin as [Hyx | Hyin]; [exact Hyx |].
      specialize (Hxall y Hyin). specialize (Hyall x Hxin). lia. }
    subst y. f_equal. apply IH; try assumption.
    apply Permutation_cons_inv in Hp. exact Hp.
Qed.

Lemma sorted_rev {A : Type} (R : A -> A -> Prop) (xs : list A) :
  StronglySorted R xs -> StronglySorted (fun a b => R b a) (rev xs).
Proof.
  induction 1 as [| a l _ IH Hall]; cbn [rev]; [constructor |].
  assert (Hsnoc : forall l' x,
            StronglySorted (fun a b => R b a) l' ->
            Forall (fun w => R x w) l' ->
            StronglySorted (fun a b => R b a) (l' ++ [x])).
  { induction l' as [| b l' IHl']; intros x Hs Hf; cbn [app].
    - repeat constructor.
    - apply StronglySorted_inv in Hs. destruct Hs as (Hs & Hb).
      inversion Hf as [| ? ? Hxb Hf']; subst.
      constructor; [apply IHl'; assumption |].
      apply Forall_app. split; [exact Hb | repeat constructor; exact Hxb]. }
  apply Hsnoc; [exact IH |].
  apply Forall_forall. intros w Hw. apply in_rev in Hw.
  rewrite Forall_forall in Hall. apply Hall. exact Hw.
Qed.

(** ** The candle table *)

Lemma sameKey_true a b : sameKey a b = true <-> candleKey a = candleKey b.
Proof.
  unfold sameKey, candleKey. rewrite andb_true_iff, String.eqb_eq, Z.eqb_eq.
  split; [intros (-> & ->); reflexivity | intro H; injection H; auto].
Qed.

Lemma existsb_sameKey item table :
  existsb (sameKey item) table = true
  <-> In (candleKey item) (map candleKey table).
Proof.
  rewrite existsb_exists, in_map_iff. split.
  - intros (c & Hin & Hkey). apply sameKey_true in Hkey.
    exists c. split; [symmetry; exact Hkey | exact Hin].
  - intros (c & Hkey & Hin). exists c. split; [exact Hin |].
    apply sameKey_true. symmetry. exact Hkey.
Qed.

Lemma insertCandle_spec table item :
  NoDup (map candleKey table) ->
  NoDup (map candleKey (insertCandle table item))
  /\ (exists added, insertCandle table item = table ++ added)
  /\ In (candleKey item) (map candleKey (insertCandle table item))
  /\ forall k, In k (map candleKey (insertCandle table item))
               <-> In k (map candleKey table) \/ k = candleKey item.
Proof.
  intro Hnd. unfold insertCandle.
  destruct (existsb (sameKey item) table) eqn:Hex.
  - apply existsb_sameKey in Hex.
    split; [exact Hnd |]. split; [exists []; rewrite app_nil_r; reflexivity |].
    split; [exact Hex |]. intro k. split; [auto |].
    intros [H | ->]; assumption.
  - assert (Hout : ~ In (candleKey item) (map candleKey table)).
    { intro Hin. apply existsb_sameKey in Hin. congruence. }
    rewrite map_app. cbn [map]. split.
    + apply NoDup_app; [exact Hnd | repeat constructor; intros [] |].
      intros k Hk [<- | []]. contradiction.
    + split; [exists [item]; reflexivity |].
      split; [apply in_or_app; right; left; reflexivity |].
      intro k. rewrite in_app_iff. cbn [In]. intuition (subst; auto).
Qed.

Lemma insertCandles_spec candles : forall table,
  NoDup (map candleKey table) ->
  NoDup (map candleKey (insertCandles candles table))
  /\ (exists added, insertCandles candles table = table ++ added)
  /\ forall k, In k (map candleKey (insertCandles candles table))
               <-> In k (map candleKey table) \/ In k (map candleKey candles).
Proof.
  unfold insertCandles.
  induction candles as [| item candles IH]; intros table Hnd;
    cbn [fold_left map].
  - split; [exact Hnd |]. split; [exists []; rewrite app_nil_r; reflexivity |].
    intro k. split; [auto | intros [H | []]; exact H].
  - destruct (insertCandle_spec table item Hnd) as (Hnd1 & (a1 & Ha1) & _ & Hk1).
    destruct (IH _ Hnd1) as (Hnd2 & (a2 & Ha2) & Hk2).
    split; [exact Hnd2 |].
    split; [exists (a1 ++ a2); rewrite Ha2, Ha1, app_assoc; reflexivity |].
    intro k. rewrite Hk2, Hk1. cbn [In]. intuition (subst; auto).
Qed.

(** Inserting rows whose keys the table holds changes nothing. *)
Lemma insertCandles_known candles : forall table,
  (forall c, In c candles -> In (candleKey c) (map candleKey table)) ->
  insertCandles candles table = table.
Proof.
  unfold insertCandles.
  induction candles as [| item candles IH]; intros table Hknown;
    cbn [fold_left]; [reflexivity |].
  assert (Hsame : insertCandle table item = table).
  { unfold insertCandle.
    rewrite (proj2 (existsb_sameKey item table))
      by (apply Hknown; left; reflexivity).
    reflexivity. }
  rewrite Hsame. apply IH. intros c Hc. apply Hknown. right. exact Hc.
Qed.

(** X18: [insertCandles] keeps (symbol, date) a key of the table, never
    alters or removes a row that is there, leaves every inserted key in the
    table, adds no other key, and inserting the same rows again changes
    nothing. *)
Theorem insertCandles_ignores_duplicates candles table :
  NoDup (map candleKey table) ->
  let table' := insertCandles candles table in
  NoDup (map candleKey table')
  /\ (exists added, table' = table ++ added)
  /\ (forall k, In k (map candleKey table')
                <-> In k (map candleKey table) \/ In k (map candleKey candles))
  /\ insertCandles candles table' = table'.
Proof.
  intros Hnd table'.
  destruct (insertCandles_spec candles table Hnd) as (Hnd' & Hadd & Hkeys).
  split; [exact Hnd' |]. split; [exact Hadd |]. split; [exact Hkeys |].
  apply insertCandles_known. intros c Hc. apply Hkeys. right.
  apply in_map. exact Hc.
Qed.

Lemma insertCandles_ignores_duplicates_witness :
  insertCandles quietHistory quiet20 = quietHistory
  /\ insertCandles quietHistory quietHistory = quietHistory.
Proof.
  split; [vm_compute; reflexivity |].
  destruct (insertCandles_ignores_duplicates quietHistory quiet20)
    as (_ & _ & _ & Hagain).
  - vm_compute.
    repeat (constructor;
            [cbn [In]; intro H;
             repeat (destruct H as [H | H]; [discriminate H |]); exact H |]).
    constructor.
  - assert (Heq : insertCandles quietHistory quiet20 = quietHistory)
      by (vm_compute; reflexivity).
    rewrite Heq in Hagain. exact Hagain.
Defined.

Lemma NoDup_map_opp l : NoDup l -> NoDup (map Z.opp l).
Proof.
  induction 1 as [| a l Hout _ IH]; cbn [map]; constructor; [| exact IH].
  intro Hin. apply in_map_iff in Hin. destruct Hin as (b & Hb & Hin).
  assert (b = a) by lia. subst b. contradiction.
Qed.

Section GetCandles.

Variable table : list DailyCandle.
Variable symbol : string.

Hypothesis key_unique : NoDup (map candleKey table).

Local Abbreviation rows :=
  (filter (fun c => String.eqb (c_symbol c) symbol) table).

Lemma rows_dates_unique : NoDup (map c_date rows).
Proof.
  clear - key_unique. induction table as [| c rest IH]; cbn [filter];
    [constructor |].
  cbn [map] in key_unique.
  inversion key_unique as [| ? ? Hout Hrest]; subst.
  destruct (String.eqb_spec (c_symbol c) symbol) as [Hsym | Hsym];
    [| exact (IH Hrest)].
  cbn [map]. constructor; [| exact (IH Hrest)].
  intro Hin. apply in_map_iff in Hin. destruct Hin as (c' & Hdate & Hc').
  apply filter_In in Hc'. destruct Hc' as (Hc' & Hsym').
  apply String.eqb_eq in Hsym'. apply Hout. apply in_map_iff.
  exists c'. split; [| exact Hc']. unfold candleKey. congruence.
Qed.

Lemma ascending_rows :
  StronglySorted (fun a b => (c_date a < c_date b)%Z) (sortBy dateAsc rows)
  /\ Permutation (sortBy dateAsc rows) rows.
Proof.
  destruct (sortBy_spec DailyCandle dateAsc
              (fun a b => (c_date a <= c_date b)%Z)) with (xs := rows)
    as (Hs & Hp).
  - intros x y H. apply Z.ltb_lt in H. lia.
  - intros x y H. apply Z.ltb_ge in H. exact H.
  - intros x y z. lia.
  - split; [| exact Hp]. apply sorted_strict; [exact Hs |].
    apply (Permutation_NoDup (l := map c_date rows));
      [apply Permutation_map; symmetry; exact Hp | exact rows_dates_unique].
Qed.

Lemma descending_rows : sortBy dateDesc rows = rev (sortBy dateAsc rows).
Proof.
  destruct ascending_rows as (Hasc & Hpa).
  destruct (sortBy_spec DailyCandle dateDesc
              (fun a b => (c_date b <= c_date a)%Z)) with (xs := rows)
    as (Hs & Hp).
  - intros x y H. apply Z.ltb_lt in H. lia.
  - intros x y H. apply Z.ltb_ge in H. exact H.
  - intros x y z. lia.
  - apply (sorted_unique (fun c => (- c_date c)%Z)).
    + apply (sorted_strict (fun c => (- c_date c)%Z)).
      * clear - Hs. induction Hs as [| a l _ IH Hall]; constructor;
          [exact IH |].
        rewrite Forall_forall in Hall |- *. intros w Hw.
        specialize (Hall w Hw). lia.
      * apply (Permutation_NoDup (l := map (fun c => (- c_date c)%Z) rows));
          [apply Permutation_map; symmetry; exact Hp |].
        pose proof rows_dates_unique as Hnd.
        rewrite <- (map_map c_date Z.opp).
        apply NoDup_map_opp. exact Hnd.
    + pose proof (sorted_rev _ _ Hasc) as Hrev. cbn beta in Hrev.
      clear - Hrev. induction Hrev as [| a l _ IH Hall]; constructor;
        [exact IH |].
      rewrite Forall_forall in Hall |- *. intros w Hw.
      specialize (Hall w Hw). lia.
    + rewrite Hp, <- Permutation_rev. symmetry. exact Hpa.
Qed.

End GetCandles.

(** X19: on a table keyed by (symbol, date), [getCandles] without a limit
    returns exactly the rows of the symbol, by strictly increasing date;
    the limit 0 is no limit; a positive limit [n] returns the [n] latest
    rows, the latest first. *)
Theorem getCandles_orders_by_date table symbol :
  NoDup (map candleKey table) ->
  let ascending := getCandles table symbol None in
  (forall c, In c ascending <-> In c table /\ c_symbol c = symbol)
  /\ StronglySorted Z.lt (map c_date ascending)
  /\ getCandles table symbol (Some 0%Z) = ascending
  /\ forall n, (0 < n)%Z ->
       getCandles table symbol (Some n) = firstn (Z.to_nat n) (rev ascending).
Proof.
  intros Hkey ascending. subst ascending. unfold getCandles.
  destruct (ascending_rows table symbol Hkey) as (Hs & Hp).
  split; [| split; [| split]].
  - intro c. split.
    + intro Hin. apply (Permutation_in _ Hp) in Hin. apply filter_In in Hin.
      destruct Hin as (Hin & Hsym). apply String.eqb_eq in Hsym. auto.
    + intros (Hin & Hsym). apply (Permutation_in _ (Permutation_sym Hp)).
      apply filter_In. split; [exact Hin | apply String.eqb_eq; exact Hsym].
  - clear - Hs. induction Hs as [| a l _ IH Hall]; cbn [map]; constructor;
      [exact IH |].
    rewrite Forall_forall in Hall |- *. intros d Hd.
    apply in_map_iff in Hd. destruct Hd as (w & <- & Hw). exact (Hall w Hw).
  - reflexivity.
  - intros n Hn.
    destruct (Z.eqb_spec n 0) as [Hz | _]; [lia |].
    destruct (Z.ltb_spec n 0) as [Hneg | _]; [lia |].
    rewrite (descending_rows table symbol Hkey). reflexivity.
Qed.

Lemma getCandles_orders_by_date_witness :
  getCandles (rev quietHistory) "TEST" None = quietHistory
  /\ getCandles (rev quietHistory) "TEST" (Some 0%Z) = quietHistory.
Proof.
  split; [vm_compute; reflexivity |].
  destruct (getCandles_orders_by_date (rev quietHistory) "TEST")
    as (_ & _ & Hzero & _).
  - vm_compute.
    repeat (constructor;
            [cbn [In]; intro H;
             repeat (destruct H as [H | H]; [discriminate H |]); exact H |]).
    constructor.
  - rewrite Hzero. vm_compute. reflexivity.
Defined.

(** ** The smart fetch *)

Section SmartFetch.

Variable fetchCandles : string -> Q -> Q -> list DailyCandle.
Variable table : list DailyCandle.
Variable symbol : string.
Variable startDate endDate : Q.

Hypothesis key_unique : NoDup (map candleKey table).

(** With candles of the symbol in the table, the answer is the range cut
    out of what [getCandles] reads from the table left behind, which
    extends the table it found. *)
Lemma getSmartStockData_reads_the_table :
  getCandles table symbol None <> [] ->
  exists table',
    getSmartStockData fetchCandles table symbol startDate endDate
    = (filter (inRange (format startDate) (format endDate))
         (getCandles table' symbol None), table')
    /\ NoDup (map candleKey table')
    /\ exists added, table' = table ++ added.
Proof.
  intro Hsome. unfold getSmartStockData.
  destruct (getCandles table symbol None) as [| c0 cached] eqn:Hcached;
    [congruence |].
  set (candles := c0 :: cached) in *.
  assert (Hkeep : (candles, table) = (getCandles table symbol None, table))
    by (rewrite Hcached; reflexivity).
  cbv zeta.
  match goal with
  | |- context [if negb (isBefore endDate ?n) then ?a else ?b] =>
      set (step1 := if negb (isBefore endDate n) then a else b)
  end.
  assert (Hstep1 : exists table1,
    step1 = (getCandles table1 symbol None, table1)
    /\ NoDup (map candleKey table1)
    /\ exists added, table1 = table ++ added).
  { subst step1.
    destruct (negb (isBefore endDate _)).
    - destruct (fetchCandles symbol _ endDate) as [| f fs] eqn:Hfetch.
      + exists table. split; [exact Hkeep |]. split; [exact key_unique |].
        exists []. rewrite app_nil_r. reflexivity.
      + destruct (insertCandles_spec (f :: fs) table key_unique)
          as (Hnd & Hadd & _).
        exists (insertCandles (f :: fs) table).
        split; [reflexivity | split; assumption].
    - exists table. split; [exact Hkeep |]. split; [exact key_unique |].
      exists []. rewrite app_nil_r. reflexivity. }
  clearbody step1.
  destruct Hstep1 as (table1 & -> & Hnd1 & (added1 & Hadd1)).
  cbv beta iota.
  match goal with
  | |- context [if isBefore startDate ?n then ?a else ?b] =>
      set (step2 := if isBefore startDate n then a else b)
  end.
  assert (Hstep2 : exists table2,
    step2 = (getCandles table2 symbol None, table2)
    /\ NoDup (map candleKey table2)
    /\ exists added, table2 = table ++ added).
  { assert (Hsame : exists added, table1 = table ++ added)
      by (exists added1; exact Hadd1).
    subst step2.
    destruct (isBefore startDate _);
      [destruct (negb (isBefore _ startDate)) |];
      try (exists table1; split; [reflexivity | split; assumption]).
    destruct (fetchCandles symbol startDate _) as [| f fs];
      [exists table1; split; [reflexivity | split; assumption] |].
    destruct (insertCandles_spec (f :: fs) table1 Hnd1)
      as (Hnd & (added2 & Hadd2) & _).
    exists (insertCandles (f :: fs) table1).
    split; [reflexivity | split; [exact Hnd |]].
    exists (added1 ++ added2). rewrite Hadd2, Hadd1, app_assoc. reflexivity. }
  clearbody step2.
  destruct Hstep2 as (table2 & -> & Hnd2 & Hadd2).
  exists table2. split; [reflexivity | split; assumption].
Qed.

End SmartFetch.

Lemma sorted_filter {A : Type} (R : A -> A -> Prop) (p : A -> bool) xs :
  StronglySorted R xs -> StronglySorted R (filter p xs).
Proof.
  induction 1 as [| a l _ IH Hall]; cbn [filter]; [constructor |].
  destruct (p a); [| exact IH]. constructor; [exact IH |].
  rewrite Forall_forall in Hall |- *. intros w Hw. apply filter_In in Hw.
  apply Hall. apply Hw.
Qed.

(** X20: when the table already holds candles of the symbol,
    [getSmartStockData] returns candles of that symbol only, all dated
    within the requested days, by strictly increasing date and all stored
    in the table it leaves; that table keeps its key and only extends the
    table found, whatever the provider returns. *)
Theorem getSmartStockData_serves_the_range fetchCandles table symbol
  startDate endDate :
  NoDup (map candleKey table) ->
  getCandles table symbol None <> [] ->
  let answer :=
    getSmartStockData fetchCandles table symbol startDate endDate in
  (forall c, In c (fst answer) ->
      c_symbol c = symbol
      /\ (format startDate <= c_date c <= format endDate)%Z
      /\ In c (snd answer))
  /\ StronglySorted Z.lt (map c_date (fst answer))
  /\ NoDup (map candleKey (snd answer))
  /\ exists added, snd answer = table ++ added.
Proof.
  intros Hkey Hsome answer. subst answer.
  destruct (getSmartStockData_reads_the_table fetchCandles table symbol
              startDate endDate Hkey Hsome) as (table' & -> & Hnd & Hadd).
  cbn [fst snd]. unfold getCandles.
  destruct (ascending_rows table' symbol Hnd) as (Hs & Hp).
  split; [| split; [| split; assumption]].
  - intros c Hin. apply filter_In in Hin. destruct Hin as (Hin & Hrange).
    apply (Permutation_in _ Hp) in Hin. apply filter_In in Hin.
    destruct Hin as (Hin & Hsym). apply String.eqb_eq in Hsym.
    unfold inRange in Hrange. apply andb_true_iff in Hrange.
    destruct Hrange as (Hlo & Hhi). apply Z.leb_le in Hlo, Hhi.
    repeat split; assumption.
  - pose proof (sorted_filter _ (inRange (format startDate) (format endDate))
                  _ Hs) as Hf.
    clear - Hf. induction Hf as [| a l _ IH Hall]; cbn [map]; constructor;
      [exact IH |].
    rewrite Forall_forall in Hall |- *. intros d Hd.
    apply in_map_iff in Hd. destruct Hd as (w & <- & Hw). exact (Hall w Hw).
Qed.

Lemma getSmartStockData_serves_the_range_witness :
  let answer :=
    getSmartStockData (fun _ _ _ => [bar 30 10 9 10]) quietHistory
      "TEST" 5 40 in
  (forall c, In c (fst answer) ->
      c_symbol c = "TEST"%string
      /\ (format 5 <= c_date c <= format 40)%Z
      /\ In c (snd answer))
  /\ StronglySorted Z.lt (map c_date (fst answer))
  /\ NoDup (map candleKey (snd answer))
  /\ exists added, snd answer = quietHistory ++ added.
Proof.
  apply (getSmartStockData_serves_the_range (fun _ _ _ => [bar 30 10 9 10])
           quietHistory "TEST" 5 40).
  - vm_compute.
    repeat (constructor;
            [cbn [In]; intro H;
             repeat (destruct H as [H | H]; [discriminate H |]); exact H |]).
    constructor.
  - vm_compute. discriminate.
Defined.

(** X21: when the cached candles of the symbol already reach the requested
    end and start no later than the requested start, [getSmartStockData]
    answers from the table alone: the range cut out of the cached candles,
    the table untouched, whatever the provider would return. *)
Theorem getSmartStockData_cache_hit fetchCandles table symbol startDate
  endDate :
  getCandles table symbol None <> [] ->
  endDate
  < parseISO (c_date (last (getCandles table symbol None) noCandle)) + 1 ->
  parseISO (c_date (hd noCandle (getCandles table symbol None)))
  <= startDate ->
  getSmartStockData fetchCandles table symbol startDate endDate
  = (filter (inRange (format startDate) (format endDate))
       (getCandles table symbol None), table).
Proof.
  intros Hsome Hend Hstart. unfold getSmartStockData.
  destruct (getCandles table symbol None) as [| c0 cached] eqn:Hcached;
    [congruence |].
  cbv zeta. unfold isBefore.
  apply Qltb_true in Hend. rewrite Hend. cbn [negb].
  apply Qltb_false in Hstart. rewrite Hstart. reflexivity.
Qed.

Lemma getSmartStockData_cache_hit_witness :
  getSmartStockData (fun _ _ _ => [bar 30 10 9 10]) quietHistory "TEST"
    5 (41 # 2)
  = (filter (inRange 5 20) (getCandles quietHistory "TEST" None),
     quietHistory).
Proof.
  apply (getSmartStockData_cache_hit (fun _ _ _ => [bar 30 10 9 10])
           quietHistory "TEST" 5 (41 # 2)).
  - vm_compute. discriminate.
  - vm_compute. reflexivity.
  - vm_compute. discriminate.
Defined.

(** ** The scanner route *)

Lemma passesFilter_spec filter a :
  passesFilter filter a = true
  <-> (filter = Some "tracking"%string -> s_status a = TRACKING)
      /\ (filter = Some "triggered"%string -> s_status a = BUY_TRIGGERED).
Proof.
  unfold passesFilter.
  destruct filter as [f |];
    [| split; [intros _; split; discriminate | reflexivity]].
  destruct (String.eqb_spec f "tracking") as [Ht | Ht];
    destruct (String.eqb_spec f "triggered") as [Hg | Hg];
    try (exfalso; congruence);
    destruct (s_status a); cbn [statusEqb negb andb];
    (split;
     [ intro H; try discriminate H;
       split; intro Hf; injection Hf as Hf; congruence
     | intros (H1 & H2); try reflexivity;
       try (specialize (H1 (f_equal Some Ht)); discriminate);
       try (specialize (H2 (f_equal Some Hg)); discriminate) ]).
Qed.

Lemma scan_loop candleTable filter stocks : forall analyses a,
  In a (fold_left (scanStock candleTable filter) stocks analyses)
  <-> In a analyses
      \/ exists stock,
           In stock stocks
           /\ analyzeStock (st_symbol stock)
                (getCandles candleTable (st_symbol stock) None) = Some a
           /\ passesFilter filter a = true.
Proof.
  induction stocks as [| stock stocks IH]; intros analyses a;
    cbn [fold_left].
  - split; [left; assumption |]. intros [H | (s & [] & _)]. exact H.
  - rewrite IH. unfold scanStock at 1.
    set (candles := getCandles candleTable (st_symbol stock) None).
    assert (Hshort : (21 <=? length candles)%nat = false ->
                     analyzeStock (st_symbol stock) candles = None).
    { intro Hlen. apply Nat.leb_gt in Hlen. unfold analyzeStock.
      apply Nat.ltb_lt in Hlen. rewrite Hlen. reflexivity. }
    destruct (21 <=? length candles)%nat.
    + destruct (analyzeStock (st_symbol stock) candles) as [b |] eqn:Hb.
      * destruct (passesFilter filter b) eqn:Hpass.
        -- rewrite in_app_iff. cbn [In]. split.
           ++ intros [[H | [<- | []]] | (s & Hs & Ha & Hp)].
              ** left; exact H.
              ** right. exists stock. split; [left; reflexivity |].
                 split; assumption.
              ** right. exists s. split; [right; exact Hs |].
                 split; assumption.
           ++ intros [H | (s & [<- | Hs] & Ha & Hp)].
              ** left; left; exact H.
              ** left; right; left. fold candles in Ha. congruence.
              ** right. exists s. split; [exact Hs | split; assumption].
        -- split.
           ++ intros [H | (s & Hs & Ha & Hp)]; [left; exact H |].
              right. exists s. split; [right; exact Hs | split; assumption].
           ++ intros [H | (s & [<- | Hs] & Ha & Hp)]; [left; exact H | |].
              ** fold candles in Ha. congruence.
              ** right. exists s. split; [exact Hs | split; assumption].
      * split.
        -- intros [H | (s & Hs & Ha & Hp)]; [left; exact H |].
           right. exists s. split; [right; exact Hs | split; assumption].
        -- intros [H | (s & [<- | Hs] & Ha & Hp)]; [left; exact H | |].
           ++ fold candles in Ha. congruence.
           ++ right. exists s. split; [exact Hs | split; assumption].
    + specialize (Hshort eq_refl). split.
      * intros [H | (s & Hs & Ha & Hp)]; [left; exact H |].
        right. exists s. split; [right; exact Hs | split; assumption].
      * intros [H | (s & [<- | Hs] & Ha & Hp)]; [left; exact H | |].
        -- fold candles in Ha. congruence.
        -- right. exists s. split; [exact Hs | split; assumption].
Qed.

(** X22: for stored candles with positive closes, so that every distance
    to the trigger is a number, the scanner answers with exactly the
    analyses of the Nifty-100 stocks that have an analysis (at least 21
    stored candles) and whose status the filter asks for: TRACKING for
    "tracking", BUY_TRIGGERED for "triggered", any status for another or
    no filter.  The answer is in ascending order of the distance to the
    trigger. *)
Theorem scanner_lists_matching_stocks_by_distance stockTable candleTable
  filter :
  (forall c, In c candleTable -> 0 < c_close c) ->
  let analyses := scannerRoute stockTable candleTable filter in
  (forall a,
     In a analyses
     <-> exists stock,
           In stock stockTable /\ st_is_nifty100 stock = 1%Z
           /\ analyzeStock (st_symbol stock)
                (getCandles candleTable (st_symbol stock) None) = Some a
           /\ (filter = Some "tracking"%string -> s_status a = TRACKING)
           /\ (filter = Some "triggered"%string
               -> s_status a = BUY_TRIGGERED))
  /\ StronglySorted
       (fun a b => s_distanceToTrigger a <= s_distanceToTrigger b) analyses.
Proof.
  intros _ analyses. subst analyses. unfold scannerRoute.
  destruct (sortBy_spec SSTAnalysis distanceBefore
              (fun a b => s_distanceToTrigger a <= s_distanceToTrigger b))
    with (xs := fold_left (scanStock candleTable filter)
                  (getNifty100Stocks stockTable) []) as (Hs & Hp).
  - intros x y H. unfold distanceBefore in H. apply Qltb_true in H.
    Lqa.lra.
  - intros x y H. unfold distanceBefore in H. apply Qltb_false in H.
    Lqa.lra.
  - intros x y z. apply Qle_trans.
  - split; [| exact Hs]. intro a. split.
    + intro Hin. apply (Permutation_in _ Hp) in Hin.
      apply scan_loop in Hin. destruct Hin as [[] | (s & Hin & Ha & Hpass)].
      unfold getNifty100Stocks in Hin. apply filter_In in Hin.
      destruct Hin as (Hin & Hflag). apply Z.eqb_eq in Hflag.
      apply passesFilter_spec in Hpass. destruct Hpass as (Ht & Hg).
      exists s. repeat split; assumption.
    + intros (s & Hin & Hflag & Ha & Ht & Hg).
      apply (Permutation_in _ (Permutation_sym Hp)).
      apply scan_loop. right. exists s.
      split; [| split; [exact Ha | apply passesFilter_spec; split; assumption]].
      unfold getNifty100Stocks. apply filter_In. split; [exact Hin |].
      apply Z.eqb_eq. exact Hflag.
Qed.

(** One Nifty-100 stock with the candles of [breakoutHistory]. *)
Lemma scanner_lists_matching_stocks_by_distance_witness :
  let analyses :=
    scannerRoute [mkStock "TEST" "Test" 1 0] breakoutHistory None in
  length analyses = 1%nat
  /\ StronglySorted
       (fun a b => s_distanceToTrigger a <= s_distanceToTrigger b) analyses.
Proof.
  intro analyses. split; [vm_compute; reflexivity |].
  apply (scanner_lists_matching_stocks_by_distance
           [mkStock "TEST" "Test" 1 0] breakoutHistory None).
  intros c Hin. vm_compute in Hin.
  repeat (destruct Hin as [<- | Hin]; [vm_compute; reflexivity |]).
  contradiction.
Defined.

(** ** The stocks table *)

Lemma upsertStock_symbols symbol name is_nifty100 is_nifty200 table s :
  In s (map st_symbol (upsertStock symbol name is_nifty100 is_nifty200 table))
  <-> In s (map st_symbol table) \/ s = symbol.
Proof.
  induction table as [| row rest IH]; cbn [upsertStock map In].
  - unfold upsertedRow. cbn [st_symbol]. split.
    + intros [<- | []]. right; reflexivity.
    + intros [[] | ->]. left; reflexivity.
  - destruct (String.eqb_spec (st_symbol row) symbol) as [Heq | Hne];
      cbn [map In upsertedRow st_symbol].
    + split; [intros [H | H]; [left; left; exact H | left; right; exact H] |].
      intros [[H | H] | ->];
        [left; exact H | right; exact H | left; exact Heq].
    + rewrite IH. tauto.
Qed.

Lemma upsertStock_spec symbol name is_nifty100
  is_nifty200 table :
  NoDup (map st_symbol table) ->
  let table' := upsertStock symbol name is_nifty100 is_nifty200 table in
  NoDup (map st_symbol table')
  /\ (exists row, In row table' /\ st_symbol row = symbol
                  /\ st_name row = name)
  /\ (forall row, In row table -> st_symbol row <> symbol -> In row table')
  /\ (forall row, In row (getNifty100Stocks table) ->
        In (st_symbol row) (map st_symbol (getNifty100Stocks table')))
  /\ (forall row, In row (getNifty200Stocks table) ->
        In (st_symbol row) (map st_symbol (getNifty200Stocks table'))).
Proof.
  intros Hnd table'. subst table'.
  induction table as [| row rest IH].
  - cbn [upsertStock upsertedRow map]. split; [repeat constructor; intros [] |].
    split; [eexists; split; [left; reflexivity | split; reflexivity] |].
    split; [intros ? [] |]. split; intros ? [].
  - cbn [map] in Hnd. inversion Hnd as [| ? ? Hout Hrest]; subst.
    specialize (IH Hrest). destruct IH as (IHnd & IHrow & IHkeep & IH100 & IH200).
    cbn [upsertStock].
    destruct (String.eqb_spec (st_symbol row) symbol) as [Heq | Hne].
    + split; [cbn [map upsertedRow st_symbol]; exact Hnd |].
      split; [eexists; split; [left; reflexivity |];
              cbn [upsertedRow st_symbol st_name]; split;
              [exact Heq | reflexivity] |].
      split; [intros r [<- | Hr] Hneq; [congruence | right; exact Hr] |].
      unfold getNifty100Stocks, getNifty200Stocks.
      cbn [filter upsertedRow st_is_nifty100 st_is_nifty200].
      split; intros r Hr.
      * destruct (st_is_nifty100 row =? 1)%Z eqn:Hflag.
        -- apply Z.eqb_eq in Hflag. rewrite Hflag.
           destruct (orDefault is_nifty100 0 =? 1)%Z; cbn [Z.eqb Pos.eqb map st_symbol In];
             (destruct Hr as [<- | Hr];
              [left; reflexivity | right; apply in_map; exact Hr]).
        -- destruct (orDefault is_nifty100 0 =? 1)%Z;
             cbn [Z.eqb Pos.eqb map st_symbol In]; rewrite ?Hflag;
             [right |]; apply in_map; exact Hr.
      * destruct (st_is_nifty200 row =? 1)%Z eqn:Hflag.
        -- apply Z.eqb_eq in Hflag. rewrite Hflag.
           destruct (orDefault is_nifty200 0 =? 1)%Z; cbn [Z.eqb Pos.eqb map st_symbol In];
             (destruct Hr as [<- | Hr];
              [left; reflexivity | right; apply in_map; exact Hr]).
        -- destruct (orDefault is_nifty200 0 =? 1)%Z;
             cbn [Z.eqb Pos.eqb map st_symbol In]; rewrite ?Hflag;
             [right |]; apply in_map; exact Hr.
    + split.
      { cbn [map]. constructor; [| exact IHnd].
        rewrite upsertStock_symbols. intros [H | H]; [exact (Hout H) |].
        exact (Hne H). }
      split.
      { destruct IHrow as (r & Hr & Hs & Hn). exists r.
        split; [right; exact Hr | split; assumption]. }
      split.
      { intros r [<- | Hr] Hneq; [left; reflexivity |].
        right. apply IHkeep; assumption. }
      unfold getNifty100Stocks, getNifty200Stocks in *. cbn [filter].
      split; intros r Hr.
      * destruct (st_is_nifty100 row =? 1)%Z; cbn [map In].
        -- destruct Hr as [<- | Hr]; [left; reflexivity |].
           right. apply IH100. exact Hr.
        -- apply IH100. exact Hr.
      * destruct (st_is_nifty200 row =? 1)%Z; cbn [map In].
        -- destruct Hr as [<- | Hr]; [left; reflexivity |].
           right. apply IH200. exact Hr.
        -- apply IH200. exact Hr.
Qed.

Lemma upsertStock_lists symbol name is_nifty200 table :
  In symbol
    (map st_symbol
       (getNifty100Stocks
          (upsertStock symbol name (Some 1%Z) is_nifty200 table))).
Proof.
  unfold getNifty100Stocks.
  induction table as [| row rest IH]; cbn [upsertStock].
  - cbn. left. reflexivity.
  - destruct (String.eqb_spec (st_symbol row) symbol) as [Heq | Hne].
    + cbn [upsertedRow orDefault Z.eqb Pos.eqb filter st_is_nifty100 map
           st_symbol In]. left. exact Heq.
    + cbn [filter]. destruct (st_is_nifty100 row =? 1)%Z; cbn [map In];
        [right |]; exact IH.
Qed.

(** X23: [upsertStock] leaves one row per symbol, among them a row of the
    given symbol with the given name, keeps every other row as it is, and
    never takes an index membership away: a stock that
    [getNifty100Stocks] (or [getNifty200Stocks]) listed is still listed
    afterwards, whatever flags the call passes. *)
Theorem upsertStock_never_revokes_membership symbol name is_nifty100
  is_nifty200 table :
  NoDup (map st_symbol table) ->
  let table' := upsertStock symbol name is_nifty100 is_nifty200 table in
  NoDup (map st_symbol table')
  /\ (exists row, In row table' /\ st_symbol row = symbol
                  /\ st_name row = name)
  /\ (forall row, In row table -> st_symbol row <> symbol -> In row table')
  /\ (forall row, In row (getNifty100Stocks table) ->
        In (st_symbol row) (map st_symbol (getNifty100Stocks table')))
  /\ (forall row, In row (getNifty200Stocks table) ->
        In (st_symbol row) (map st_symbol (getNifty200Stocks table'))).
Proof.
  apply upsertStock_spec.
Qed.


Lemma upsertStock_never_revokes_membership_witness :
  let table := [mkStock "TCS" "Tata" 1 0; mkStock "INFY" "Infosys" 0 1] in
  let table' := upsertStock "TCS" "Tata Consultancy" None (Some 1%Z) table in
  map st_symbol (getNifty100Stocks table') = ["TCS"%string]
  /\ map st_symbol (getNifty200Stocks table') = ["TCS"; "INFY"]%string
  /\ NoDup (map st_symbol table').
Proof.
  intros table table'.
  split; [vm_compute; reflexivity |]. split; [vm_compute; reflexivity |].
  apply (upsertStock_never_revokes_membership "TCS" "Tata Consultancy" None
           (Some 1%Z) table).
  vm_compute. repeat constructor; cbn [In]; intro H;
    repeat (destruct H as [H | H]; [discriminate H |]); exact H.
Defined.

(** ** The portfolio and capital tables *)

Lemma fold_max_bound ids : forall a x,
  (x = a \/ In x ids) -> (x <= fold_left Z.max ids a)%Z.
Proof.
  induction ids as [| i ids IH]; intros a x Hx; cbn [fold_left].
  - destruct Hx as [-> | []]. lia.
  - destruct Hx as [-> | [<- | Hx]].
    + transitivity (Z.max a i); [lia | apply IH; left; reflexivity].
    + transitivity (Z.max a i); [lia | apply IH; left; reflexivity].
    + apply IH. right. exact Hx.
Qed.

Lemma nextId_fresh ids : ~ In (nextId ids) ids.
Proof.
  intro Hin. pose proof (fold_max_bound ids 0%Z _ (or_intror Hin)) as Hle.
  unfold nextId in Hle. lia.
Qed.

Lemma NoDup_snoc {A : Type} (l : list A) (x : A) :
  NoDup l -> ~ In x l -> NoDup (l ++ [x]).
Proof.
  induction l as [| y l IH]; intros Hnd Hx; cbn [app].
  - repeat constructor. intros [].
  - inversion Hnd as [| ? ? Hy Hrest]; subst.
    constructor.
    + rewrite in_app_iff. intros [H | [<- | []]]; [exact (Hy H) |].
      apply Hx. left. reflexivity.
    + apply IH; [exact Hrest |]. intro H. apply Hx. right. exact H.
Qed.

Lemma sell_ids id sell_date sell_price table :
  map pe_id (sellPortfolioEntry id sell_date sell_price table)
  = map pe_id table.
Proof.
  unfold sellPortfolioEntry. rewrite map_map. apply map_ext.
  intro e. destruct (pe_id e =? id)%Z; reflexivity.
Qed.

Lemma sell_open id sell_date sell_price table :
  filter isOpen (sellPortfolioEntry id sell_date sell_price table)
  = filter (fun e => negb (pe_id e =? id)%Z) (filter isOpen table).
Proof.
  unfold sellPortfolioEntry.
  induction table as [| e table IH]; cbn [map filter]; [reflexivity |].
  destruct (pe_id e =? id)%Z eqn:Hid.
  - cbn [isOpen pe_status]. rewrite IH.
    destruct (isOpen e); cbn [filter]; rewrite ?Hid; reflexivity.
  - destruct (isOpen e); cbn [filter]; rewrite ?Hid, IH; reflexivity.
Qed.

Lemma open_portfolio_spec table :
  StronglySorted (fun a b => (pe_buy_date b <= pe_buy_date a)%Z)
    (getOpenPortfolio table)
  /\ Permutation (getOpenPortfolio table) (filter isOpen table).
Proof.
  unfold getOpenPortfolio.
  apply (sortBy_spec PortfolioEntry buyDateDesc
           (fun a b => (pe_buy_date b <= pe_buy_date a)%Z)).
  - intros x y H. unfold buyDateDesc in H. apply Z.ltb_lt in H. lia.
  - intros x y H. unfold buyDateDesc in H. apply Z.ltb_ge in H. lia.
  - intros x y z. lia.
Qed.

(** X24: a buy order with a symbol, a date, a quantity and a price that are
    present and not zero is answered with success and appends one entry to
    the portfolio: under an id no entry has, OPEN, with no sale recorded,
    listed by [getOpenPortfolio]; its target is 10 for a first buy (also
    when the buy number is absent or 0), 8 for a second and 6 for any
    other. *)
Theorem portfolio_buy_opens_a_lot body table symbol buy_date quantity
  buy_price :
  pb_action body = Some "buy"%string ->
  pb_symbol body = Some symbol -> symbol <> EmptyString ->
  pb_buy_date body = Some buy_date ->
  pb_quantity body = Some quantity -> ~ quantity == 0 ->
  pb_buy_price body = Some buy_price -> ~ buy_price == 0 ->
  exists e,
    portfolioPost body table = (Success, table ++ [e])
    /\ ~ In (pe_id e) (map pe_id table)
    /\ pe_symbol e = symbol /\ pe_buy_date e = buy_date
    /\ pe_quantity e = quantity /\ pe_buy_price e = buy_price
    /\ pe_status e = OPEN /\ pe_sell_date e = None /\ pe_sell_price e = None
    /\ In e (getOpenPortfolio (table ++ [e]))
    /\ (missingNumber (pb_buy_number body) = true -> pe_buy_number e = 1)
    /\ (pe_buy_number e == 1 -> pe_target_percent e = 10)
    /\ (pe_buy_number e == 2 -> pe_target_percent e = 8)
    /\ (~ pe_buy_number e == 1 -> ~ pe_buy_number e == 2 ->
        pe_target_percent e = 6).
Proof.
  intros Hact Hsym Hne Hdate Hqty Hq0 Hprice Hp0.
  unfold portfolioPost. rewrite Hact, Hsym, Hdate, Hqty, Hprice.
  cbn [orDefault String.eqb Ascii.eqb Bool.eqb missingDate missingNumber
       missingString].
  destruct symbol as [| ch rest]; [congruence |].
  assert (Hq : Qeq_bool quantity 0 = false).
  { destruct (Qeq_bool quantity 0) eqn:H; [| reflexivity].
    apply Qeq_bool_iff in H. contradiction. }
  assert (Hp : Qeq_bool buy_price 0 = false).
  { destruct (Qeq_bool buy_price 0) eqn:H; [| reflexivity].
    apply Qeq_bool_iff in H. contradiction. }
  rewrite Hq, Hp. cbn [orb]. cbv zeta. unfold addPortfolioEntry.
  eexists. split; [reflexivity |].
  cbn [pe_id pe_symbol pe_buy_date pe_quantity pe_buy_price pe_status
       pe_sell_date pe_sell_price pe_buy_number pe_target_percent].
  split; [apply nextId_fresh |].
  do 7 (split; [reflexivity |]).
  split.
  { apply (Permutation_in _ (Permutation_sym (proj2 (open_portfolio_spec _)))).
    apply filter_In. split; [apply in_or_app; right; left |]; reflexivity. }
  split.
  { intro Hmiss.
    match goal with
    | |- (if ?c then _ else _) = _ => replace c with true
    end. reflexivity. }
  unfold getTargetPercent.
  match goal with |- context [Qeq_bool ?x 1] => set (n := x) end.
  split; [intro H1; apply Qeq_bool_iff in H1; rewrite H1; reflexivity |].
  split.
  - intro H2. destruct (Qeq_bool n 1) eqn:H1.
    + apply Qeq_bool_iff in H1. rewrite H1 in H2. discriminate H2.
    + apply Qeq_bool_iff in H2. rewrite H2. reflexivity.
  - intros H1 H2.
    destruct (Qeq_bool n 1) eqn:E1;
      [apply Qeq_bool_iff in E1; contradiction |].
    destruct (Qeq_bool n 2) eqn:E2;
      [apply Qeq_bool_iff in E2; contradiction |].
    reflexivity.
Qed.

Lemma portfolio_buy_opens_a_lot_witness :
  exists e,
    portfolioPost
      (mkPortfolioBody (Some "buy"%string) (Some "TCS"%string) (Some 7%Z)
         (Some 5) (Some 100) None None None None) []
    = (Success, [e])
    /\ pe_id e = 1%Z /\ pe_target_percent e = 10.
Proof.
  destruct (portfolio_buy_opens_a_lot
              (mkPortfolioBody (Some "buy"%string) (Some "TCS"%string)
                 (Some 7%Z) (Some 5) (Some 100) None None None None)
              [] "TCS" 7%Z 5 100)
    as (e & Hpost & _ & _ & _ & _ & _ & _ & _ & _ & _ & Hnum & Htarget & _);
    try reflexivity; try discriminate.
  exists e. split; [exact Hpost |].
  split; [| apply Htarget; rewrite (Hnum eq_refl); reflexivity].
  vm_compute in Hpost. injection Hpost as <-. reflexivity.
Defined.

(** X25: whatever the body, the portfolio route never removes an entry and
    never changes an id: the ids it found stay, in their order, at most one
    is added, and they stay distinct; unless it answers with success the
    table is left exactly as it was. *)
Theorem portfolio_post_keeps_the_entries body table :
  NoDup (map pe_id table) ->
  let response := fst (portfolioPost body table) in
  let table' := snd (portfolioPost body table) in
  NoDup (map pe_id table')
  /\ (exists added, map pe_id table' = map pe_id table ++ added
                    /\ (length added <= 1)%nat)
  /\ (response <> Success -> table' = table).
Proof.
  intros Hnd response table'. subst response table'.
  assert (Hsame : NoDup (map pe_id table)
                  /\ (exists added, map pe_id table = map pe_id table ++ added
                                    /\ (length added <= 1)%nat)).
  { split; [exact Hnd |]. exists []. rewrite app_nil_r.
    split; [reflexivity | cbn; lia]. }
  unfold portfolioPost.
  destruct (String.eqb _ "buy");
    [destruct (_ || _)%bool |
     destruct (String.eqb _ "sell"); [destruct (_ || _)%bool |]];
    cbn [fst snd];
    try (destruct Hsame as (H1 & H2); split; [exact H1 |];
         split; [exact H2 | reflexivity]).
  - unfold addPortfolioEntry. rewrite map_app. cbn [map pe_id].
    split; [| split; [eexists; split; [reflexivity | cbn; lia] | congruence]].
    apply NoDup_snoc; [exact Hnd | apply nextId_fresh].
  - rewrite sell_ids. destruct Hsame as (H1 & H2).
    split; [exact H1 | split; [exact H2 | congruence]].
Qed.

Lemma portfolio_post_keeps_the_entries_witness :
  snd (portfolioPost
         (mkPortfolioBody (Some "buy"%string) (Some "TCS"%string) (Some 7%Z)
            (Some 0) (Some 100) None None None None) [])
  = [].
Proof.
  apply (portfolio_post_keeps_the_entries
           (mkPortfolioBody (Some "buy"%string) (Some "TCS"%string) (Some 7%Z)
              (Some 0) (Some 100) None None None None) []).
  - constructor.
  - vm_compute. discriminate.
Defined.

(** X26: after [sellPortfolioEntry] the open portfolio holds the entries
    that were open under another id, no more and no fewer, still by
    descending buy date; every id is kept; and for an id that no entry has
    the table is left as it was. *)
Theorem sell_closes_only_that_lot id sell_date sell_price table :
  let table' := sellPortfolioEntry id sell_date sell_price table in
  (forall e, In e (getOpenPortfolio table')
             <-> In e (getOpenPortfolio table) /\ pe_id e <> id)
  /\ StronglySorted (fun a b => (pe_buy_date b <= pe_buy_date a)%Z)
       (getOpenPortfolio table')
  /\ map pe_id table' = map pe_id table
  /\ (~ In id (map pe_id table) -> table' = table).
Proof.
  intro table'. subst table'.
  split; [| split; [apply open_portfolio_spec |
                    split; [apply sell_ids |]]].
  - intro e.
    pose proof (proj2 (open_portfolio_spec
                         (sellPortfolioEntry id sell_date sell_price table)))
      as Hp'.
    pose proof (proj2 (open_portfolio_spec table)) as Hp.
    rewrite sell_open in Hp'. split.
    + intro Hin. apply (Permutation_in _ Hp') in Hin.
      apply filter_In in Hin. destruct Hin as (Hin & Hid).
      apply negb_true_iff, Z.eqb_neq in Hid.
      split; [| exact Hid].
      apply (Permutation_in _ (Permutation_sym Hp)). exact Hin.
    + intros (Hin & Hid). apply (Permutation_in _ (Permutation_sym Hp')).
      apply filter_In. split; [apply (Permutation_in _ Hp); exact Hin |].
      apply negb_true_iff, Z.eqb_neq. exact Hid.
  - intro Hout. unfold sellPortfolioEntry.
    rewrite <- (map_id table) at 2. apply map_ext_in.
    intros e He. destruct (Z.eqb_spec (pe_id e) id) as [Heq | Hne];
      [| reflexivity].
    exfalso. apply Hout. rewrite <- Heq. apply in_map. exact He.
Qed.

(** ** The capital table *)


(** ** The market-data provider and the sync route *)

Section Provider.

Variable historical : string -> Z -> Z -> option (list HistoricalRow).
Variable quoteName : string -> option string.
Variable now : Q.
Variable subYears : Q -> Q -> Q.

Lemma fetchCandles_spec symbol startDate endDate :
  let candles := fetchCandles historical symbol startDate endDate in
  Forall (fun c => c_symbol c = symbol) candles
  /\ StronglySorted (fun a b => (c_date a <= c_date b)%Z) candles
  /\ (forall result,
        historical symbol (format startDate) (format endDate) = Some result ->
        Permutation candles (map (toCandle symbol) result))
  /\ (historical symbol (format startDate) (format endDate) = None ->
      candles = []).
Proof.
  intro candles. subst candles. unfold fetchCandles.
  destruct (historical symbol (format startDate) (format endDate))
    as [result |].
  - destruct (sortBy_spec DailyCandle dateAsc
                (fun a b => (c_date a <= c_date b)%Z))
      with (xs := map (toCandle symbol) result) as (Hs & Hp).
    + intros x y H. unfold dateAsc in H. apply Z.ltb_lt in H. lia.
    + intros x y H. unfold dateAsc in H. apply Z.ltb_ge in H. lia.
    + intros x y z. lia.
    + split; [| split; [exact Hs | split; [| discriminate]]].
      * apply Forall_forall. intros c Hc. apply (Permutation_in _ Hp) in Hc.
        apply in_map_iff in Hc. destruct Hc as (row & <- & _). reflexivity.
      * intros r Hr. injection Hr as <-. exact Hp.
  - split; [constructor | split; [constructor | split;
                                   [discriminate | reflexivity]]].
Qed.

Local Abbreviation sync := (syncSymbol historical quoteName now subYears).

Lemma sync_loop symbols : forall stocks candleTable results,
  NoDup (map st_symbol stocks) ->
  NoDup (map candleKey candleTable) ->
  let '(stocks', candleTable', results') :=
    fold_left sync symbols (stocks, candleTable, results) in
  map fst results' = map fst results ++ symbols
  /\ (forall s, In s symbols ->
        In s (map st_symbol (getNifty100Stocks stocks')))
  /\ (forall row, In row (getNifty100Stocks stocks) ->
        In (st_symbol row) (map st_symbol (getNifty100Stocks stocks')))
  /\ NoDup (map st_symbol stocks')
  /\ NoDup (map candleKey candleTable')
  /\ exists added, candleTable' = candleTable ++ added.
Proof.
  induction symbols as [| symbol symbols IH];
    intros stocks candleTable results Hstocks Hkeys; cbn [fold_left].
  - rewrite app_nil_r. split; [reflexivity |]. split; [intros s [] |].
    split; [intros row Hrow; apply in_map; exact Hrow |].
    split; [exact Hstocks |]. split; [exact Hkeys |].
    exists []. rewrite app_nil_r. reflexivity.
  - unfold syncSymbol at 2. cbn [getStockInfo fst snd].
    set (name := match quoteName symbol with
                 | Some (String ch rest) => String ch rest
                 | _ => replaceFirst ".NS" symbol
                 end).
    set (stocks1 := upsertStock symbol name (Some 1%Z) None stocks).
    set (candles := fetchHistoricalData historical now subYears symbol
                      (Some 3)).
    destruct (upsertStock_spec symbol name (Some 1%Z) None stocks Hstocks)
      as (Hnd1 & _ & _ & Hkeep1 & _).
    fold stocks1 in Hnd1, Hkeep1.
    pose proof (upsertStock_lists symbol name None stocks) as Hlisted.
    fold stocks1 in Hlisted.
    assert (Hnext : forall candleTable1 results1,
              NoDup (map candleKey candleTable1) ->
              (exists added, candleTable1 = candleTable ++ added) ->
              map fst results1 = map fst results ++ [symbol] ->
              let '(stocks', candleTable', results') :=
                fold_left sync symbols (stocks1, candleTable1, results1) in
              map fst results' = map fst results ++ symbol :: symbols
              /\ (forall s, In s (symbol :: symbols) ->
                    In s (map st_symbol (getNifty100Stocks stocks')))
              /\ (forall row, In row (getNifty100Stocks stocks) ->
                    In (st_symbol row)
                      (map st_symbol (getNifty100Stocks stocks')))
              /\ NoDup (map st_symbol stocks')
              /\ NoDup (map candleKey candleTable')
              /\ exists added, candleTable' = candleTable ++ added).
    { intros candleTable1 results1 Hkeys1 (added1 & Hadd1) Hres1.
      specialize (IH stocks1 candleTable1 results1 Hnd1 Hkeys1).
      destruct (fold_left sync symbols (stocks1, candleTable1, results1))
        as ((stocks' & candleTable') & results').
      destruct IH as (Hres & Hin & Hkeep & Hnd & Hkeys' & (added & Hadd)).
      assert (Hstay : forall s,
                In s (map st_symbol (getNifty100Stocks stocks1)) ->
                In s (map st_symbol (getNifty100Stocks stocks'))).
      { intros s Hs. apply in_map_iff in Hs. destruct Hs as (row & <- & Hrow).
        apply Hkeep. exact Hrow. }
      split; [rewrite Hres, Hres1, <- app_assoc; reflexivity |].
      split; [intros s [<- | Hs]; [apply Hstay; exact Hlisted | apply Hin; exact Hs] |].
      split; [intros row Hrow; apply Hstay, Hkeep1; exact Hrow |].
      split; [exact Hnd |]. split; [exact Hkeys' |].
      exists (added1 ++ added). rewrite Hadd, Hadd1, app_assoc. reflexivity. }
    destruct (0 <? length candles)%nat.
    + destruct (insertCandles_spec candles candleTable Hkeys)
        as (Hnd & Hadd & _).
      apply Hnext; [exact Hnd | exact Hadd |].
      rewrite map_app. reflexivity.
    + apply Hnext; [exact Hkeys | exists []; rewrite app_nil_r; reflexivity |].
      rewrite map_app. reflexivity.
Qed.

End Provider.

(** X28: [fetchCandles] answers with one candle per row of the provider,
    each under the symbol asked for and a missing price as 0, in ascending
    order of date (equal dates may follow each other); when the provider
    throws it answers with no candle. *)
Theorem fetchCandles_normalises_the_rows historical symbol startDate
  endDate :
  let candles := fetchCandles historical symbol startDate endDate in
  Forall (fun c => c_symbol c = symbol) candles
  /\ StronglySorted (fun a b => (c_date a <= c_date b)%Z) candles
  /\ (forall result,
        historical symbol (format startDate) (format endDate) = Some result ->
        Permutation candles (map (toCandle symbol) result))
  /\ (historical symbol (format startDate) (format endDate) = None ->
      candles = []).
Proof.
  apply fetchCandles_spec.
Qed.

(** X29: whatever the provider answers, the sync route reports on the first
    ten symbols of [NIFTY_100_SYMBOLS], one entry each and in their order;
    afterwards [getNifty100Stocks] lists each of the ten and every stock it
    listed before; the stocks table keeps one row per symbol, and the
    candle table keeps its key and only extends the table found. *)
Theorem sync_lists_the_first_ten_symbols historical quoteName now subYears
  stocks candleTable :
  NoDup (map st_symbol stocks) ->
  NoDup (map candleKey candleTable) ->
  let '(stocks', candleTable', results) :=
    syncRoute historical quoteName now subYears stocks candleTable in
  map fst results
  = ["RELIANCE.NS"; "TCS.NS"; "HDFCBANK.NS"; "INFY.NS"; "ICICIBANK.NS";
     "HINDUNILVR.NS"; "SBIN.NS"; "BHARTIARTL.NS"; "ITC.NS";
     "KOTAKBANK.NS"]%string
  /\ (forall s, In s (map fst results) ->
        In s (map st_symbol (getNifty100Stocks stocks')))
  /\ (forall row, In row (getNifty100Stocks stocks) ->
        In (st_symbol row) (map st_symbol (getNifty100Stocks stocks')))
  /\ NoDup (map st_symbol stocks')
  /\ NoDup (map candleKey candleTable')
  /\ exists added, candleTable' = candleTable ++ added.
Proof.
  intros Hstocks Hkeys. unfold syncRoute.
  pose proof (sync_loop historical quoteName now subYears
                (slice 0 10 NIFTY_100_SYMBOLS) stocks candleTable []
                Hstocks Hkeys) as Hloop.
  destruct (fold_left (syncSymbol historical quoteName now subYears)
              (slice 0 10 NIFTY_100_SYMBOLS) (stocks, candleTable, []))
    as ((stocks' & candleTable') & results).
  destruct Hloop as (Hres & Hin & Hrest). cbn [map app] in Hres.
  split; [rewrite Hres; reflexivity |].
  split; [| exact Hrest].
  intros s Hs. apply Hin. rewrite <- Hres. exact Hs.
Qed.

Lemma sync_lists_the_first_ten_symbols_witness :
  let '(stocks', candleTable', results) :=
    syncRoute (fun _ _ _ => Some [mkRow 3 (Some 10) (Some 11) None (Some 10) None])
      (fun _ => None) 1000 (fun d y => d - 365 * y) [] [] in
  length results = 10%nat
  /\ length candleTable' = 10%nat
  /\ NoDup (map st_symbol stocks').
Proof.
  pose proof (sync_lists_the_first_ten_symbols
                (fun _ _ _ => Some [mkRow 3 (Some 10) (Some 11) None (Some 10) None])
                (fun _ => None) 1000 (fun d y => d - 365 * y) [] []
                (NoDup_nil _) (NoDup_nil _)) as H.
  destruct (syncRoute _ _ _ _ [] []) as ((stocks' & candleTable') & results)
    eqn:Hrun.
  destruct H as (Hres & _ & _ & Hnd & _).
  split; [rewrite <- (length_map fst), Hres; reflexivity |].
  split; [| exact Hnd].
  vm_compute in Hrun. injection Hrun as _ <- _. reflexivity.
Defined.

(** ** The first version of [runBacktest] *)

Section LegacyRun.

Variable symbol : string.
Variable candles : list DailyCandle.
Variable initialCapital : Q.
Variable perTradeAmount : option Q.

Local Abbreviation legacyRun :=
  (Legacy.simAfter symbol candles initialCapital perTradeAmount).
Local Abbreviation legacyStep :=
  (Legacy.processDay symbol candles initialCapital perTradeAmount).

Lemma legacy_simAfter_S n :
  legacyRun (Datatypes.S n) = legacyStep (legacyRun n) (20 + n)%nat.
Proof.
  unfold Legacy.simAfter. rewrite seq_S, fold_left_app. reflexivity.
Qed.

Lemma filterIdx_In {A : Type} (keep : nat -> bool) (xs : list A) : forall idx x,
  In x (filterIdx keep xs idx) -> In x xs.
Proof.
  induction xs as [| y xs IH]; intros idx x Hin; [contradiction |].
  cbn [filterIdx] in Hin. destruct (keep idx).
  - destruct Hin as [<- | Hin]; [left; reflexivity | right; exact (IH _ _ Hin)].
  - right. exact (IH _ _ Hin).
Qed.

Lemma legacy_sell_loop day ps : forall idx acc,
  Forall tieredLot ps ->
  Forall tieredTrade (Legacy.x_trades acc) ->
  Forall tieredTrade
    (Legacy.x_trades (forEachIdx (Legacy.sellIfTarget symbol day) ps idx acc)).
Proof.
  induction ps as [| pos ps IH]; intros idx acc Hps Hacc; cbn [forEachIdx];
    [exact Hacc |].
  inversion Hps as [| ? ? (Hnum & Htarget) Hrest]; subst.
  apply IH; [exact Hrest |].
  unfold Legacy.sellIfTarget. destruct (Qgeb _ _); [| exact Hacc].
  cbn [Legacy.x_trades]. apply Forall_app. split; [exact Hacc |].
  constructor; [| constructor].
  unfold tieredTrade, closedTrade.
  cbn [t_buyNumber t_targetPercent t_sellPrice t_buyPrice].
  split; [exact Hnum | split; [exact Htarget | reflexivity]].
Qed.

Lemma legacy_step_tiered s i : tiered s -> tiered (legacyStep s i).
Proof.
  intros (Hnum & Hlots & Htrades). unfold Legacy.processDay.
  set (day := at_ candles i).
  set (s0 := Legacy.recordEquity day s).
  assert (H0 : tiered s0) by (repeat split; assumption).
  clearbody s0. clear Hnum Hlots Htrades s.
  destruct H0 as (Hnum & Hlots & Htrades).
  set (s1 := Legacy.checkSells symbol day s0).
  assert (H1 : tiered s1).
  { subst s1. unfold Legacy.checkSells, tiered.
    cbn [Legacy.currentBuyNumber Legacy.internalOpenPositions Legacy.trades].
    split; [destruct (_ && _)%bool; [lia | exact Hnum] |].
    split.
    - apply Forall_forall. intros p Hp. apply filterIdx_In in Hp.
      rewrite Forall_forall in Hlots. exact (Hlots p Hp).
    - apply legacy_sell_loop; [exact Hlots | exact Htrades]. }
  clearbody s1. clear Hnum Hlots Htrades s0.
  destruct H1 as (Hnum & Hlots & Htrades).
  unfold Legacy.checkEntry, tiered.
  destruct (_ && Qgtb _ _)%bool;
    [destruct (_ && _)%bool |];
    cbn [Legacy.currentBuyNumber Legacy.internalOpenPositions Legacy.trades];
    (split; [lia |]); (split; [| exact Htrades]); try exact Hlots.
  apply Forall_app. split; [exact Hlots |].
  constructor; [| constructor].
  unfold tieredLot. cbn [p_buyNumber p_targetPercent].
  split; [lia | reflexivity].
Qed.

Lemma legacy_tiered n : tiered (legacyRun n).
Proof.
  induction n as [| n IH].
  - repeat split; [cbn; lia | constructor | constructor].
  - rewrite legacy_simAfter_S. apply legacy_step_tiered. exact IH.
Qed.

Lemma legacy_step_curve s i :
  Legacy.equityCurve (legacyStep s i)
  = Legacy.equityCurve s
    ++ [(c_date (at_ candles i),
         Legacy.cash s
         + fold_left
             (fun positionValue pos =>
                positionValue + p_quantity pos * c_close (at_ candles i))
             (Legacy.internalOpenPositions s) 0)].
Proof.
  unfold Legacy.processDay, Legacy.checkEntry.
  destruct (_ && Qgtb _ _)%bool; [destruct (_ && _)%bool |];
    reflexivity.
Qed.

Lemma legacy_curve n :
  length (Legacy.equityCurve (legacyRun n)) = n
  /\ (forall e, hd_error (Legacy.equityCurve (legacyRun n)) = Some e ->
        fst e = c_date (at_ candles 20) /\ snd e == initialCapital).
Proof.
  induction n as [| n (IHlen & IHhd)].
  - split; [reflexivity | discriminate].
  - rewrite legacy_simAfter_S, legacy_step_curve.
    split; [rewrite length_app, IHlen; cbn; lia |].
    destruct n as [| n].
    + cbn. intros e He. injection He as <-. cbn [fst snd].
      split; [reflexivity | ring].
    + destruct (Legacy.equityCurve (legacyRun (Datatypes.S n)))
        as [| e0 rest]; [discriminate IHlen |].
      cbn [app hd_error] in *. exact IHhd.
Qed.

End LegacyRun.

(** X30: in the first version of [runBacktest] every closed trade and
    every open lot carries the target of its buy number (10 for the first
    buy of a sequence, 8 for the second, 6 for any later one), and every
    trade is sold at exactly its own target price.  The equity curve has
    one point per simulated day, and its first point is the initial
    capital: the equity of a day is taken before the day trades. *)
Theorem legacy_targets_follow_the_buy_number symbol candles initialCapital
  perTradeAmount r :
  Legacy.runBacktest symbol candles initialCapital perTradeAmount = Some r ->
  (forall t, In t (Legacy.r_trades r) ->
     (1 <= t_buyNumber t)%Z
     /\ t_targetPercent t = getTargetPercent (inject_Z (t_buyNumber t))
     /\ t_sellPrice t = t_buyPrice t * (1 + t_targetPercent t / 100))
  /\ (forall p, In p (Legacy.r_openPositions r) ->
        (1 <= o_buyNumber p)%Z
        /\ o_targetPercent p = getTargetPercent (inject_Z (o_buyNumber p)))
  /\ length (Legacy.r_equityCurve r) = (length candles - 20)%nat
  /\ exists e, hd_error (Legacy.r_equityCurve r) = Some e
               /\ fst e = c_date (at_ candles 20)
               /\ snd e == initialCapital.
Proof.
  unfold Legacy.runBacktest.
  destruct (Nat.ltb_spec (length candles) 21) as [Hlt | Hge]; [discriminate |].
  intro Hr. injection Hr as <-.
  destruct (legacy_tiered symbol candles initialCapital perTradeAmount
              (length candles - 20)) as (_ & Hlots & Htrades).
  destruct (legacy_curve symbol candles initialCapital perTradeAmount
              (length candles - 20)) as (Hlen & Hhd).
  unfold Legacy.finalize.
  cbn [Legacy.r_trades Legacy.r_openPositions Legacy.r_equityCurve].
  split; [intros t Ht; rewrite Forall_forall in Htrades; exact (Htrades t Ht) |].
  split.
  { intros p Hp. apply in_map_iff in Hp. destruct Hp as (pos & <- & Hpos).
    rewrite Forall_forall in Hlots. exact (Hlots pos Hpos). }
  split; [exact Hlen |].
  destruct (Legacy.equityCurve _) as [| e rest].
  - cbn [length] in Hlen. lia.
  - exists e. split; [reflexivity |]. apply Hhd. reflexivity.
Qed.

Lemma legacy_targets_follow_the_buy_number_witness :
  exists r,
    Legacy.runBacktest "TEST" twoLotHistory 1000 (Some 100) = Some r
    /\ map t_buyNumber (Legacy.r_trades r) = [2%Z]
    /\ map o_buyNumber (Legacy.r_openPositions r) = [1%Z]
    /\ forall t, In t (Legacy.r_trades r) ->
         t_targetPercent t = getTargetPercent (inject_Z (t_buyNumber t)).
Proof.
  destruct (Legacy.runBacktest "TEST" twoLotHistory 1000 (Some 100))
    as [r |] eqn:Hr; [| vm_compute in Hr; discriminate].
  exists r. split; [reflexivity |].
  pose proof (legacy_targets_follow_the_buy_number "TEST" twoLotHistory 1000
                (Some 100) r Hr) as (Htrades & _).
  split; [| split; [| intros t Ht; apply (Htrades t Ht)]].
  - vm_compute in Hr. injection Hr as <-. reflexivity.
  - vm_compute in Hr. injection Hr as <-. reflexivity.
Defined.

(** * The sell and entry checks in binary64 *)

(** ** The order of the numbers *)

Lemma SFcompare_refl x : x <> S754_nan -> SFcompare x x = Some Eq.
Proof.
  destruct x as [s | s | | s m e]; intro Hx; try congruence;
    cbn [SFcompare]; try (destruct s; reflexivity).
  change (Pos.compare_cont Eq m m) with (Pos.compare m m).
  rewrite Z.compare_refl, Pos.compare_refl. destruct s; reflexivity.
Qed.

Lemma SFcompare_antisym x y :
  SFcompare y x = option_map CompOpp (SFcompare x y).
Proof.
  destruct x as [sx | sx | | sx mx ex], y as [sy | sy | | sy my ey];
    cbn [SFcompare option_map];
    try reflexivity;
    try (destruct sx; reflexivity);
    try (destruct sy; reflexivity);
    try (destruct sx, sy; reflexivity).
  change (Pos.compare_cont Eq my mx) with (Pos.compare my mx).
  change (Pos.compare_cont Eq mx my) with (Pos.compare mx my).
  rewrite (Z.compare_antisym ex ey), (Pos.compare_antisym mx my).
  destruct sx, sy; try reflexivity;
    destruct (Z.compare ex ey); cbn [CompOpp]; try reflexivity;
    destruct (Pos.compare mx my); reflexivity.
Qed.

Lemma number_leb_refl x : x <> S754_nan -> Number.leb x x = true.
Proof.
  intro Hx. unfold Number.leb, SFleb. rewrite (SFcompare_refl x Hx).
  reflexivity.
Qed.

Lemma number_leb_trans x y z :
  Number.leb x y = true -> Number.leb y z = true -> Number.leb x z = true.
Proof.
  unfold Number.leb, SFleb.
  destruct x as [sx | sx | | sx mx ex], y as [sy | sy | | sy my ey],
    z as [sz | sz | | sz mz ez];
    cbn [SFcompare];
    try discriminate; try reflexivity;
    try (destruct sx; try discriminate; try reflexivity;
         destruct sy; try discriminate; try reflexivity;
         destruct sz; try discriminate; reflexivity);
    try (destruct sx; try discriminate; try reflexivity;
         destruct sz; try discriminate; try reflexivity;
         destruct sy; try discriminate; reflexivity);
    try (destruct sy; try discriminate; try reflexivity;
         destruct sz; try discriminate; try reflexivity;
         destruct sx; try discriminate; reflexivity).
  all: change (Pos.compare_cont Eq) with Pos.compare.
  all: destruct sx, sy, sz; try discriminate; try reflexivity.
  all: destruct (Z.compare_spec ex ey), (Z.compare_spec ey ez),
         (Z.compare_spec ex ez);
       try discriminate; try reflexivity; try lia.
  all: destruct (Pos.compare_spec mx my), (Pos.compare_spec my mz),
         (Pos.compare_spec mx mz);
       cbn [CompOpp]; try discriminate; try reflexivity; try lia.
Qed.

(** ** [Math.max], [Math.min] and [Math.floor] *)

Lemma max2_cases a b :
  Double.max2 a b = S754_nan
  \/ (Number.leb a (Double.max2 a b) = true
      /\ Number.leb b (Double.max2 a b) = true
      /\ (Double.max2 a b = a \/ Double.max2 a b = b)).
Proof.
  unfold Double.max2.
  pose proof (SFcompare_antisym a b) as Hba.
  destruct (SFcompare a b) as [[| |] |] eqn:Hab; cbn [option_map CompOpp] in Hba.
  - right.
    assert (Ha : a <> S754_nan) by (intros ->; discriminate Hab).
    assert (Hb : b <> S754_nan)
      by (intros ->; destruct a; discriminate Hab).
    destruct a as [[|] | | |]; try contradiction;
      unfold Number.leb, SFleb; rewrite ?Hab, ?Hba, ?SFcompare_refl
        by assumption; auto.
  - right. unfold Number.leb, SFleb. rewrite Hab, SFcompare_refl; [auto |].
    intros ->; destruct a; discriminate Hab.
  - right. unfold Number.leb, SFleb. rewrite Hba, SFcompare_refl; [auto |].
    intros ->; discriminate Hab.
  - left. reflexivity.
Qed.

Lemma min2_cases a b :
  Double.min2 a b = S754_nan
  \/ (Number.leb (Double.min2 a b) a = true
      /\ Number.leb (Double.min2 a b) b = true
      /\ (Double.min2 a b = a \/ Double.min2 a b = b)).
Proof.
  unfold Double.min2.
  pose proof (SFcompare_antisym a b) as Hba.
  destruct (SFcompare a b) as [[| |] |] eqn:Hab; cbn [option_map CompOpp] in Hba.
  - right.
    assert (Ha : a <> S754_nan) by (intros ->; discriminate Hab).
    assert (Hb : b <> S754_nan)
      by (intros ->; destruct a; discriminate Hab).
    destruct a as [[|] | | |]; try contradiction;
      unfold Number.leb, SFleb; rewrite ?Hab, ?Hba, ?SFcompare_refl
        by assumption; auto.
  - right. unfold Number.leb, SFleb. rewrite Hab, SFcompare_refl; [auto |].
    intros ->; discriminate Hab.
  - right. unfold Number.leb, SFleb. rewrite Hba, SFcompare_refl; [auto |].
    intros ->; destruct a; discriminate Hab.
  - left. reflexivity.
Qed.

Lemma fold_max2_nan xs : fold_left Double.max2 xs S754_nan = S754_nan.
Proof. induction xs as [| x xs IH]; [reflexivity | exact IH]. Qed.

Lemma fold_min2_nan xs : fold_left Double.min2 xs S754_nan = S754_nan.
Proof. induction xs as [| x xs IH]; [reflexivity | exact IH]. Qed.

(** The fold of [Math.max]: NaN, or an upper bound that is the start or
    one of the numbers. *)
Lemma fold_max2_bounds xs : forall acc,
  fold_left Double.max2 xs acc = S754_nan
  \/ (Number.leb acc (fold_left Double.max2 xs acc) = true
      /\ (forall x, In x xs ->
            Number.leb x (fold_left Double.max2 xs acc) = true)
      /\ (fold_left Double.max2 xs acc = acc
          \/ In (fold_left Double.max2 xs acc) xs)).
Proof.
  induction xs as [| y xs IH]; intro acc; cbn [fold_left].
  - destruct acc as [s | s | | s m e];
      try (right; split; [apply number_leb_refl; discriminate |];
           split; [intros x [] | left; reflexivity]).
    left. reflexivity.
  - destruct (max2_cases acc y) as [Hnan | (Ha & Hy & Hor)].
    + left. rewrite Hnan. apply fold_max2_nan.
    + destruct (IH (Double.max2 acc y)) as [Hnan | (Hm & Hall & Hin)];
        [left; exact Hnan |].
      right. split; [exact (number_leb_trans _ _ _ Ha Hm) |]. split.
      * intros x [<- | Hx]; [exact (number_leb_trans _ _ _ Hy Hm) | exact (Hall x Hx)].
      * destruct Hin as [Heq | Hin]; [| right; right; exact Hin].
        rewrite Heq. destruct Hor as [-> | ->];
          [left; reflexivity | right; left; reflexivity].
Qed.

Lemma fold_min2_bounds xs : forall acc,
  fold_left Double.min2 xs acc = S754_nan
  \/ (Number.leb (fold_left Double.min2 xs acc) acc = true
      /\ (forall x, In x xs ->
            Number.leb (fold_left Double.min2 xs acc) x = true)
      /\ (fold_left Double.min2 xs acc = acc
          \/ In (fold_left Double.min2 xs acc) xs)).
Proof.
  induction xs as [| y xs IH]; intro acc; cbn [fold_left].
  - destruct acc as [s | s | | s m e];
      try (right; split; [apply number_leb_refl; discriminate |];
           split; [intros x [] | left; reflexivity]).
    left. reflexivity.
  - destruct (min2_cases acc y) as [Hnan | (Ha & Hy & Hor)].
    + left. rewrite Hnan. apply fold_min2_nan.
    + destruct (IH (Double.min2 acc y)) as [Hnan | (Hm & Hall & Hin)];
        [left; exact Hnan |].
      right. split; [exact (number_leb_trans _ _ _ Hm Ha) |]. split.
      * intros x [<- | Hx]; [exact (number_leb_trans _ _ _ Hm Hy) | exact (Hall x Hx)].
      * destruct Hin as [Heq | Hin]; [| right; right; exact Hin].
        rewrite Heq. destruct Hor as [-> | ->];
          [left; reflexivity | right; left; reflexivity].
Qed.

(** [Math.max] of a list that is not empty: NaN, or the greatest of its
    numbers. *)
Lemma Math_max_greatest xs :
  xs <> [] ->
  Double.Math_max xs = S754_nan
  \/ ((forall x, In x xs -> Number.leb x (Double.Math_max xs) = true)
      /\ In (Double.Math_max xs) xs).
Proof.
  intro Hne. unfold Double.Math_max.
  destruct (fold_max2_bounds xs (S754_infinity true))
    as [Hnan | (_ & Hall & Hin)]; [left; exact Hnan |].
  right. split; [exact Hall |].
  destruct Hin as [Heq | Hin]; [| exact Hin].
  destruct xs as [| x xs]; [congruence |].
  assert (Hx : x = S754_infinity true).
  { specialize (Hall x (or_introl eq_refl)). rewrite Heq in Hall.
    destruct x as [s | [|] | | s m e]; try discriminate Hall;
      try reflexivity; destruct s; discriminate Hall. }
  rewrite Heq, <- Hx. left. reflexivity.
Qed.

Lemma Math_min_smallest xs :
  xs <> [] ->
  Double.Math_min xs = S754_nan
  \/ ((forall x, In x xs -> Number.leb (Double.Math_min xs) x = true)
      /\ In (Double.Math_min xs) xs).
Proof.
  intro Hne. unfold Double.Math_min.
  destruct (fold_min2_bounds xs (S754_infinity false))
    as [Hnan | (_ & Hall & Hin)]; [left; exact Hnan |].
  right. split; [exact Hall |].
  destruct Hin as [Heq | Hin]; [| exact Hin].
  destruct xs as [| x xs]; [congruence |].
  assert (Hx : x = S754_infinity false).
  { specialize (Hall x (or_introl eq_refl)). rewrite Heq in Hall.
    destruct x as [s | [|] | | s m e]; try discriminate Hall;
      try reflexivity; destruct s; discriminate Hall. }
  rewrite Heq, <- Hx. left. reflexivity.
Qed.

(** [Math.floor] of a finite number is the integer at or below it. *)
Lemma Math_floor_finite s m e :
  exists k : Z,
    Double.Math_floor (S754_finite s m e)
    = binary_normalize 53 1024 k 0 s
    /\ (inject_Z k <= Number.valueOf (S754_finite s m e))%Q
    /\ (Number.valueOf (S754_finite s m e) < inject_Z k + 1)%Q.
Proof.
  exists (Qfloor (Number.valueOf (S754_finite s m e))).
  split; [reflexivity |]. split; [apply Qfloor_le |].
  pose proof (Qlt_floor (Number.valueOf (S754_finite s m e))) as Hlt.
  rewrite inject_Z_plus in Hlt. exact Hlt.
Qed.

(** [Math.floor] acts on the rounded quotient: [10000 / 0.8] is the double
    12500, although 0.8 as a double is above 8/10. *)
Remark floor_of_a_rounded_quotient :
  Double.Math_floor (Number.div (Number.ofZ 10000) (Number.decimal 8 1))
  = Number.ofZ 12500
  /\ (Qfloor (10000 / Number.valueOf (Number.decimal 8 1)) = 12499)%Z.
Proof. split; vm_compute; reflexivity. Qed.

(** ** The loops over the open positions *)

Lemma indicesWhere_from {A : Type} (reach : A -> bool) ps : forall idx k,
  In k (indicesWhere reach ps idx) -> (idx <= k)%nat.
Proof.
  induction ps as [| pos ps IH]; intros idx k Hin; [contradiction |].
  cbn [indicesWhere] in Hin. destruct (reach pos).
  - destruct Hin as [<- | Hin]; [lia |]. apply IH in Hin. lia.
  - apply IH in Hin. lia.
Qed.

(** Removing the indices that a loop collected keeps the elements that it
    passed over, in order. *)
Lemma filterIdx_passed {A : Type} (reach : A -> bool) ps : forall idx pre,
  (forall k, In k pre -> (k < idx)%nat) ->
  filterIdx (fun k => negb (includes (pre ++ indicesWhere reach ps idx) k)) ps idx
  = filter (fun pos => negb (reach pos)) ps.
Proof.
  induction ps as [| pos ps IH]; intros idx pre Hpre; [reflexivity |].
  cbn [filterIdx filter indicesWhere]. destruct (reach pos) eqn:Hr; cbn [negb].
  - assert (Hin : includes (pre ++ idx :: indicesWhere reach ps (Datatypes.S idx)) idx
                  = true).
    { apply includes_In. apply in_or_app. right. left. reflexivity. }
    rewrite Hin. cbn [negb].
    replace (pre ++ idx :: indicesWhere reach ps (Datatypes.S idx))
      with ((pre ++ [idx]) ++ indicesWhere reach ps (Datatypes.S idx))
      by (rewrite <- app_assoc; reflexivity).
    apply IH. intros k Hk. apply in_app_or in Hk.
    destruct Hk as [Hk | [<- | []]]; [apply Hpre in Hk |]; lia.
  - assert (Hout : includes (pre ++ indicesWhere reach ps (Datatypes.S idx)) idx
                   = false).
    { destruct (includes (pre ++ indicesWhere reach ps (Datatypes.S idx)) idx) eqn:E;
        [| reflexivity].
      apply includes_In in E. apply in_app_or in E. destruct E as [E | E].
      - apply Hpre in E. lia.
      - apply indicesWhere_from in E. lia. }
    rewrite Hout. cbn [negb]. f_equal.
    apply IH. intros k Hk. apply Hpre in Hk. lia.
Qed.

Section Binary64.

Import Double.
Local Open Scope double_scope.

Lemma double_simAfter_S symbol candles initialCapital perTradeAmount
  exitStrategy targetProfitPercent avgLevels n :
  simAfter symbol candles initialCapital perTradeAmount exitStrategy
    targetProfitPercent avgLevels (Datatypes.S n)
  = processDay symbol candles initialCapital perTradeAmount exitStrategy
      targetProfitPercent avgLevels
      (simAfter symbol candles initialCapital perTradeAmount exitStrategy
         targetProfitPercent avgLevels n) (20 + n)%nat.
Proof.
  unfold simAfter. rewrite seq_S, fold_left_app. reflexivity.
Qed.

Lemma double_slice_iff (candles : list DailyCandle) a b c :
  (a <= b <= length candles)%nat ->
  In c (slice a b candles)
  <-> exists j, (a <= j < b)%nat /\ c = at_ candles j.
Proof.
  intro Hab. unfold slice, at_. split.
  - intro Hin. apply (In_nth _ _ noCandle) in Hin.
    destruct Hin as (k & Hk & Hnth).
    rewrite length_firstn, length_skipn in Hk.
    rewrite nth_firstn in Hnth.
    destruct (Nat.ltb_spec k (b - a)) as [Hlt | Hge]; [| lia].
    rewrite nth_skipn in Hnth.
    exists (a + k)%nat. split; [lia | symmetry; exact Hnth].
  - intros (j & Hj & ->).
    assert (Hnth : nth (j - a) (firstn (b - a) (skipn a candles)) noCandle
                   = nth j candles noCandle).
    { rewrite nth_firstn.
      destruct (Nat.ltb_spec (j - a) (b - a)) as [_ | Hge]; [| lia].
      rewrite nth_skipn. f_equal. lia. }
    rewrite <- Hnth. apply nth_In. rewrite length_firstn, length_skipn. lia.
Qed.


(** ** The sell check *)

Section SellCheck.

Variable symbol : string.
Variable day : DailyCandle.
Variable reach : Position -> bool.
Variable price : Position -> number.

(** Both sell loops are instances of one loop: sell [pos] at [price pos]
    when [reach pos]. *)
Lemma double_sell_loop ps : forall idx acc,
  forEachIdx
    (fun acc pos j =>
       if reach pos then sellPosition symbol day (price pos) acc pos j else acc)
    ps idx acc
  = mkSells
      (x_trades acc
       ++ map (fun pos =>
                 mkTrade symbol (p_buyDate pos) (p_buyPrice pos) (c_date day)
                   (price pos) (p_buyNumber pos) (p_targetPercent pos)
                   ((price pos - p_buyPrice pos) * p_quantity pos)
                   (((price pos - p_buyPrice pos) / p_buyPrice pos) * ofZ 100)
                   (holdingDaysOf (p_buyDate pos) (c_date day)))
            (filter reach ps))
      (x_activities acc
       ++ map (fun pos =>
                 mkActivity symbol SELL (price pos) (p_quantity pos)
                   (p_quantity pos * price pos) (p_buyNumber pos)
                   (Some ((price pos - p_buyPrice pos) * p_quantity pos))
                   (c_date day)
                   (Some (holdingDaysOf (p_buyDate pos) (c_date day)))
                   (Some (p_buyDate pos)))
            (filter reach ps))
      (fold_left (fun cash pos => cash + p_quantity pos * price pos)
         (filter reach ps) (x_cash acc))
      (x_positionsToClose acc ++ indicesWhere reach ps idx).
Proof.
  induction ps as [| pos ps IH]; intros idx acc.
  - destruct acc. cbn. rewrite !app_nil_r. reflexivity.
  - cbn [forEachIdx filter indicesWhere]. destruct (reach pos).
    + rewrite IH. unfold sellPosition. cbn [x_trades x_activities x_cash
        x_positionsToClose map fold_left].
      rewrite <- !app_assoc. reflexivity.
    + apply IH.
Qed.

(** What such a sell check leaves behind. *)
Lemma double_afterSells s :
  let x :=
    forEachIdx
      (fun acc pos j =>
         if reach pos then sellPosition symbol day (price pos) acc pos j else acc)
      (internalOpenPositions s) 0%nat (mkSells (trades s) [] (cash s) []) in
  let closed := filter reach (internalOpenPositions s) in
  x_trades x
  = trades s
    ++ map (fun pos =>
              mkTrade symbol (p_buyDate pos) (p_buyPrice pos) (c_date day)
                (price pos) (p_buyNumber pos) (p_targetPercent pos)
                ((price pos - p_buyPrice pos) * p_quantity pos)
                (((price pos - p_buyPrice pos) / p_buyPrice pos) * ofZ 100)
                (holdingDaysOf (p_buyDate pos) (c_date day)))
         closed
  /\ x_activities x
     = map (fun pos =>
              mkActivity symbol SELL (price pos) (p_quantity pos)
                (p_quantity pos * price pos) (p_buyNumber pos)
                (Some ((price pos - p_buyPrice pos) * p_quantity pos))
                (c_date day)
                (Some (holdingDaysOf (p_buyDate pos) (c_date day)))
                (Some (p_buyDate pos)))
         closed
  /\ x_cash x
     = fold_left (fun cash pos => cash + p_quantity pos * price pos) closed
         (cash s)
  /\ internalOpenPositions (afterSells s x)
     = filter (fun pos => negb (reach pos)) (internalOpenPositions s)
  /\ cash (afterSells s x) = x_cash x
  /\ trades (afterSells s x) = x_trades x
  /\ dailyLog (afterSells s x) = dailyLog s
  /\ maxEquity (afterSells s x) = maxEquity s
  /\ maxDrawdown (afterSells s x) = maxDrawdown s.
Proof.
  intros x closed. subst x closed. rewrite double_sell_loop.
  cbn [x_trades x_activities x_cash x_positionsToClose app afterSells
         internalOpenPositions cash trades dailyLog maxEquity maxDrawdown].
  repeat split.
  apply (filterIdx_passed reach (internalOpenPositions s) 0 []).
  intros k [].
Qed.

End SellCheck.

(** The target of a lot and whether a bar reaches it, as the LIFO loop
    computes them. *)
Lemma double_lifo_loop symbol day ps : forall idx acc,
  forEachIdx (sellIfTarget symbol day) ps idx acc
  = forEachIdx
      (fun acc pos j =>
         if geb (c_high day)
              (p_buyPrice pos * (ofZ 1 + p_targetPercent pos / ofZ 100))
         then sellPosition symbol day
                (p_buyPrice pos * (ofZ 1 + p_targetPercent pos / ofZ 100))
                acc pos j
         else acc)
      ps idx acc.
Proof.
  induction ps as [| pos ps IH]; intros idx acc; [reflexivity |].
  cbn [forEachIdx]. rewrite IH. reflexivity.
Qed.

Lemma double_idle_loop symbol day (price : Position -> number) ps :
  forall idx acc,
  forEachIdx
    (fun acc pos j =>
       if (fun _ : Position => false) pos
       then sellPosition symbol day (price pos) acc pos j else acc)
    ps idx acc
  = acc.
Proof.
  induction ps as [| pos ps IH]; intros idx acc; [reflexivity |].
  cbn [forEachIdx]. apply IH.
Qed.

(** The sell check of a day is such a loop. *)
Lemma double_checkSells_loop symbol exitStrategy day s :
  exists (reach : Position -> bool) (price : Position -> number),
    checkSells symbol exitStrategy day s
    = forEachIdx
        (fun acc pos j =>
           if reach pos then sellPosition symbol day (price pos) acc pos j else acc)
        (internalOpenPositions s) 0%nat (mkSells (trades s) [] (cash s) []).
Proof.
  unfold checkSells.
  destruct exitStrategy.
  - destruct (internalOpenPositions s) as [| first rest] eqn:Hps.
    + exists (fun _ => false), (fun _ => ofZ 0). reflexivity.
    + destruct (geb (c_high day) (aggregateTargetPrice (first :: rest))).
      * exists (fun _ => true), (fun _ => aggregateTargetPrice (first :: rest)).
        reflexivity.
      * exists (fun _ => false), (fun _ => ofZ 0).
        symmetry. apply (double_idle_loop symbol day (fun _ => ofZ 0)).
  - eexists. eexists.
    replace (match internalOpenPositions s with
             | [] | _ =>
                 forEachIdx (sellIfTarget symbol day) (internalOpenPositions s)
                   0%nat (mkSells (trades s) [] (cash s) [])
             end)
      with (forEachIdx (sellIfTarget symbol day) (internalOpenPositions s)
              0%nat (mkSells (trades s) [] (cash s) []))
      by (destruct (internalOpenPositions s); reflexivity).
    rewrite double_lifo_loop. reflexivity.
Qed.

(** Every activity of a sell check is a SELL; the check leaves the ledger
    and the high-water marks alone. *)
Lemma double_checkSells_records symbol exitStrategy day s :
  let x := checkSells symbol exitStrategy day s in
  Forall (fun a => a_type a = SELL) (x_activities x)
  /\ cash (afterSells s x) = x_cash x
  /\ trades (afterSells s x) = x_trades x
  /\ dailyLog (afterSells s x) = dailyLog s.
Proof.
  cbv zeta.
  destruct (double_checkSells_loop symbol exitStrategy day s)
    as (reach & price & ->).
  destruct (double_afterSells symbol day reach price s)
    as (_ & Ha & _ & _ & Hc & Ht & Hlog & _).
  split; [| split; [exact Hc | split; [exact Ht | exact Hlog]]].
  rewrite Ha. apply Forall_forall. intros a Hin.
  apply in_map_iff in Hin. destruct Hin as (pos & <- & _). reflexivity.
Qed.

(** ** One day *)

Section DoubleDay.

Variable symbol : string.
Variable candles : list DailyCandle.
Variable initialCapital : number.
Variable perTradeAmount : option number.
Variable exitStrategy : ExitStrategy.
Variable targetProfitPercent : number.
Variable avgLevels : number.

Local Abbreviation entry :=
  (checkEntry symbol initialCapital perTradeAmount targetProfitPercent avgLevels).
Local Abbreviation step :=
  (processDay symbol candles initialCapital perTradeAmount exitStrategy
     targetProfitPercent avgLevels).

Lemma double_processDay_eq s i :
  let day := at_ candles i in
  let x := checkSells symbol exitStrategy day s in
  let r := entry day (twentyDayHighAt candles i) (twentyDayLowAt candles i)
             (afterSells s x) in
  step s i = endOfDay day (x_activities x ++ snd r) (fst r).
Proof.
  cbv zeta. unfold processDay.
  destruct (checkEntry symbol initialCapital perTradeAmount targetProfitPercent
              avgLevels (at_ candles i) (twentyDayHighAt candles i)
              (twentyDayLowAt candles i)
              (afterSells s (checkSells symbol exitStrategy (at_ candles i) s)))
    as [s2 acts].
  reflexivity.
Qed.

(** The entry check never touches the trades, the ledger or the high-water
    marks.  It buys, skips for lack of cash, or logs nothing. *)
Lemma double_checkEntry_effect day hi lo s :
  let r := entry day hi lo s in
  let amount :=
    match perTradeAmount with
    | Some a => a
    | None => initialCapital / ofZ 50
    end in
  let quantity := Math_floor (amount / hi) in
  let buyNumber := currentBuyNumber s + ofZ 1 in
  trades (fst r) = trades s
  /\ dailyLog (fst r) = dailyLog s
  /\ ((internalOpenPositions (fst r) = internalOpenPositions s
       /\ cash (fst r) = cash s
       /\ snd r = [])
      \/ (gtb quantity (ofZ 0) = true
          /\ geb (cash s) (quantity * hi) = true
          /\ ltb (currentBuyNumber s) avgLevels = true
          /\ gtb (c_high day) hi = true
          /\ (leb (c_low day) lo = true \/ isTracking s = true)
          /\ internalOpenPositions (fst r)
             = internalOpenPositions s
               ++ [mkPosition (c_date day) hi quantity buyNumber
                     targetProfitPercent]
          /\ cash (fst r) = cash s - quantity * hi
          /\ currentBuyNumber (fst r) = buyNumber
          /\ isTracking (fst r) = false
          /\ snd r
             = [mkActivity symbol BUY hi quantity (quantity * hi) buyNumber
                  None (c_date day) None None])
      \/ (gtb quantity (ofZ 0) = true
          /\ ltb (cash s) (quantity * hi) = true
          /\ ltb (currentBuyNumber s) avgLevels = true
          /\ gtb (c_high day) hi = true
          /\ (leb (c_low day) lo = true \/ isTracking s = true)
          /\ internalOpenPositions (fst r) = internalOpenPositions s
          /\ cash (fst r) = cash s
          /\ currentBuyNumber (fst r) = buyNumber
          /\ isTracking (fst r) = false
          /\ snd r
             = [mkActivity symbol SKIPPED hi (ofZ 0) (ofZ 0) buyNumber None
                  (c_date day) None None])).
Proof.
  cbv zeta. unfold checkEntry, tradeAmount.
  set (tracking := if leb (c_low day) lo then true else isTracking s).
  set (amount := match perTradeAmount with
                 | Some a => a
                 | None => initialCapital / ofZ 50
                 end).
  set (quantity := Math_floor (amount / hi)).
  assert (Harmed : tracking = true ->
                   leb (c_low day) lo = true \/ isTracking s = true).
  { subst tracking. destruct (leb (c_low day) lo); [left | right]; auto. }
  destruct (tracking && gtb (c_high day) hi) eqn:Hfire.
  2:{ cbn [fst snd trades dailyLog internalOpenPositions cash]. auto 10. }
  apply andb_true_iff in Hfire. destruct Hfire as [Htr Hhigh].
  destruct (ltb (currentBuyNumber s) avgLevels) eqn:Hlevel.
  2:{ cbn [fst snd trades dailyLog internalOpenPositions cash]. auto 10. }
  destruct (gtb quantity (ofZ 0) && geb (cash s) (quantity * hi)) eqn:Hbuy.
  - cbn [fst snd trades dailyLog internalOpenPositions cash currentBuyNumber
           isTracking].
    split; [reflexivity | split; [reflexivity |]]. right. left.
    apply andb_true_iff in Hbuy. destruct Hbuy as [Hq Hcash].
    repeat split; auto.
  - destruct (gtb quantity (ofZ 0) && ltb (cash s) (quantity * hi)) eqn:Hskip.
    + cbn [fst snd trades dailyLog internalOpenPositions cash currentBuyNumber
             isTracking].
      split; [reflexivity | split; [reflexivity |]]. right. right.
      apply andb_true_iff in Hskip. destruct Hskip as [Hq Hcash].
      repeat split; auto.
    + cbn [fst snd trades dailyLog internalOpenPositions cash]. auto 10.
Qed.

Lemma double_endOfDay_effect day acts s :
  cash (endOfDay day acts s) = cash s
  /\ internalOpenPositions (endOfDay day acts s) = internalOpenPositions s
  /\ trades (endOfDay day acts s) = trades s
  /\ currentBuyNumber (endOfDay day acts s) = currentBuyNumber s
  /\ isTracking (endOfDay day acts s) = isTracking s
  /\ exists ledgerEntry,
       dailyLog (endOfDay day acts s) = dailyLog s ++ [ledgerEntry]
       /\ d_date ledgerEntry = c_date day
       /\ d_cash ledgerEntry = cash s
       /\ d_activities ledgerEntry = acts.
Proof.
  repeat split. eexists. unfold endOfDay. cbn [dailyLog].
  split; [reflexivity |]. repeat split.
Qed.

Lemma double_checkEntry_activities day hi lo s :
  Forall (fun a => a_type a <> SELL) (snd (entry day hi lo s)).
Proof.
  destruct (double_checkEntry_effect day hi lo s)
    as (_ & _ & [(_ & _ & ->) | [Hbuy | Hskip]]).
  - constructor.
  - destruct Hbuy as (_ & _ & _ & _ & _ & _ & _ & _ & _ & ->).
    repeat constructor. cbn. discriminate.
  - destruct Hskip as (_ & _ & _ & _ & _ & _ & _ & _ & _ & ->).
    repeat constructor. cbn. discriminate.
Qed.

(** What a day leaves in the trade list, in the ledger and in the cash,
    given its sell check. *)
Lemma double_processDay_records s i :
  let day := at_ candles i in
  let x := checkSells symbol exitStrategy day s in
  let s1 := afterSells s x in
  let s' := step s i in
  trades s' = x_trades x
  /\ (exists ledgerEntry entryActivities,
        dailyLog s' = dailyLog s ++ [ledgerEntry]
        /\ d_date ledgerEntry = c_date day
        /\ d_cash ledgerEntry = cash s'
        /\ d_activities ledgerEntry = x_activities x ++ entryActivities
        /\ Forall (fun a => a_type a <> SELL) entryActivities)
  /\ ((internalOpenPositions s' = internalOpenPositions s1
       /\ cash s' = cash s1)
      \/ exists lot,
           internalOpenPositions s' = internalOpenPositions s1 ++ [lot]
           /\ p_buyDate lot = c_date day
           /\ cash s' = cash s1 - p_quantity lot * p_buyPrice lot).
Proof.
  intros day x s1 s'. subst s'. rewrite double_processDay_eq.
  fold day x s1.
  set (r := entry day (twentyDayHighAt candles i) (twentyDayLowAt candles i) s1).
  destruct (double_checkSells_records symbol exitStrategy day s)
    as (_ & _ & Ht & Hlog).
  fold x s1 in Ht, Hlog.
  destruct (double_checkEntry_effect day (twentyDayHighAt candles i)
              (twentyDayLowAt candles i) s1) as (Ht2 & Hlog2 & Hcases).
  fold r in Ht2, Hlog2, Hcases.
  destruct (double_endOfDay_effect day (x_activities x ++ snd r) (fst r))
    as (Hc3 & Hps3 & Ht3 & _ & _ & e & Hlog3 & Hd3 & Hdc3 & Ha3).
  rewrite Ht3, Ht2, Ht, Hc3, Hps3.
  split; [reflexivity |]. split.
  - exists e, (snd r). rewrite Hlog3, Hlog2, Hlog.
    split; [reflexivity |]. split; [exact Hd3 |]. split; [exact Hdc3 |].
    split; [exact Ha3 |]. apply double_checkEntry_activities.
  - destruct Hcases as [(Hps & Hc & _) | [Hbuy | Hskip]].
    + left. split; assumption.
    + destruct Hbuy as (_ & _ & _ & _ & _ & Hps & Hc & _).
      right. eexists. split; [exact Hps |]. split; [reflexivity | exact Hc].
    + destruct Hskip as (_ & _ & _ & _ & _ & Hps & Hc & _).
      left. split; assumption.
Qed.

End DoubleDay.

(** ** The exit strategies *)

(** C1: in WEIGHTED_AVERAGE mode, on a day that starts with the open lots
    [first :: rest] and whose high is at least the aggregate target, every
    open lot is closed at that one price.  The aggregate target is the
    weighted average price (total cost over total quantity, as the code
    computes it when the total quantity is positive) times
    [1 + targetPercent / 100] of the first lot, every operation rounded to
    a double.  The day adds one closed trade and one SELL activity per lot,
    in entry order, with the lot's own buy date, buy price, buy number,
    target percent and quantity; the cash after the sells is the cash
    before with [quantity * price] added lot by lot, and no lot is left for
    the entry check of the day, which may open one. *)
Theorem weighted_average_closes_all_lots symbol candles initialCapital
  perTradeAmount targetProfitPercent avgLevels n first rest :
  let run := simAfter symbol candles initialCapital perTradeAmount
               WEIGHTED_AVERAGE targetProfitPercent avgLevels in
  let day := at_ candles (20 + n) in
  let lots := first :: rest in
  let totalQty := fold_left (fun sum p => sum + p_quantity p) lots (ofZ 0) in
  let totalCost :=
    fold_left (fun sum p => sum + p_quantity p * p_buyPrice p) lots (ofZ 0) in
  let weightedAvgPrice :=
    if gtb totalQty (ofZ 0) then totalCost / totalQty else ofZ 0 in
  let target :=
    weightedAvgPrice * (ofZ 1 + p_targetPercent first / ofZ 100) in
  let s1 := afterSells (run n) (checkSells symbol WEIGHTED_AVERAGE day (run n)) in
  internalOpenPositions (run n) = lots ->
  geb (c_high day) target = true ->
  trades (run (Datatypes.S n))
  = trades (run n)
    ++ map (fun pos =>
              mkTrade symbol (p_buyDate pos) (p_buyPrice pos) (c_date day)
                target (p_buyNumber pos) (p_targetPercent pos)
                ((target - p_buyPrice pos) * p_quantity pos)
                (((target - p_buyPrice pos) / p_buyPrice pos) * ofZ 100)
                (holdingDaysOf (p_buyDate pos) (c_date day)))
         lots
  /\ (exists ledgerEntry entryActivities,
        dailyLog (run (Datatypes.S n)) = dailyLog (run n) ++ [ledgerEntry]
        /\ d_date ledgerEntry = c_date day
        /\ d_activities ledgerEntry
           = map (fun pos =>
                    mkActivity symbol SELL target (p_quantity pos)
                      (p_quantity pos * target) (p_buyNumber pos)
                      (Some ((target - p_buyPrice pos) * p_quantity pos))
                      (c_date day)
                      (Some (holdingDaysOf (p_buyDate pos) (c_date day)))
                      (Some (p_buyDate pos)))
               lots
             ++ entryActivities
        /\ Forall (fun a => a_type a <> SELL) entryActivities)
  /\ cash s1
     = fold_left (fun cash pos => cash + p_quantity pos * target) lots
         (cash (run n))
  /\ internalOpenPositions s1 = []
  /\ ((internalOpenPositions (run (Datatypes.S n)) = []
       /\ cash (run (Datatypes.S n)) = cash s1)
      \/ exists lot,
           internalOpenPositions (run (Datatypes.S n)) = [lot]
           /\ p_buyDate lot = c_date day
           /\ cash (run (Datatypes.S n))
              = cash s1 - p_quantity lot * p_buyPrice lot).
Proof.
  intros run day lots totalQty totalCost weightedAvgPrice target s1 Hlots
    Hhigh.
  assert (Hx : checkSells symbol WEIGHTED_AVERAGE day (run n)
               = forEachIdx
                   (fun acc pos j =>
                      if (fun _ : Position => true) pos
                      then sellPosition symbol day
                             ((fun _ : Position => target) pos) acc pos j
                      else acc)
                   (internalOpenPositions (run n)) 0%nat
                   (mkSells (trades (run n)) [] (cash (run n)) [])).
  { assert (Htarget : aggregateTargetPrice (first :: rest) = target)
      by reflexivity.
    unfold checkSells. rewrite Hlots. unfold lots. cbv zeta.
    rewrite Htarget, Hhigh. reflexivity. }
  destruct (double_afterSells symbol day (fun _ => true) (fun _ => target)
              (run n)) as (Ht & Ha & Hc & Hps & Hc1 & _).
  rewrite <- Hx in Ht, Ha, Hc, Hps, Hc1. fold s1 in Hps, Hc1.
  rewrite filter_true, Hlots in Ht, Ha, Hc.
  cbn [negb] in Hps. rewrite filter_false in Hps.
  destruct (double_processDay_records symbol candles initialCapital
              perTradeAmount WEIGHTED_AVERAGE targetProfitPercent avgLevels
              (run n) (20 + n))
    as (Ht' & (e & acts & Hlog & Hdate & _ & Hacts & Hnot) & Hend).
  fold day s1 in Ht', Hlog, Hdate, Hacts, Hend.
  unfold run at 1 3 6 7 8 9. rewrite !double_simAfter_S. fold run.
  split; [rewrite Ht'; exact Ht |].
  split.
  { exists e, acts. split; [exact Hlog |]. split; [exact Hdate |].
    split; [rewrite Hacts, Ha; reflexivity | exact Hnot]. }
  split; [rewrite Hc1; exact Hc |].
  split; [exact Hps |].
  rewrite Hps in Hend. exact Hend.
Qed.

(** On day 42 of [twoLotHistory] the lots of 10 shares at 10 and 12 shares
    at 8 are open and the high of 10 reaches their aggregate target. *)
Lemma weighted_average_closes_all_lots_witness :
  let run := simAfter "TEST" twoLotHistory (ofZ 1000) (Some (ofZ 100))
               WEIGHTED_AVERAGE (ofZ 6) (ofZ 3) in
  length (internalOpenPositions (run 22%nat)) = 2%nat
  /\ length (trades (run 22%nat)) = 0%nat
  /\ length (trades (run 23%nat)) = 2%nat
  /\ internalOpenPositions (run 23%nat) = [].
Proof.
  intro run.
  let l := eval vm_compute in (internalOpenPositions (run 22%nat)) in
  match l with
  | ?first :: ?rest =>
      destruct (weighted_average_closes_all_lots "TEST" twoLotHistory
                  (ofZ 1000) (Some (ofZ 100)) (ofZ 6) (ofZ 3) 22%nat
                  first rest)
        as (Ht & _ & _ & _ & _);
      [ vm_compute; reflexivity | vm_compute; reflexivity | ]
  end.
  fold run in Ht.
  split; [vm_compute; reflexivity |].
  split; [vm_compute; reflexivity |].
  split; [rewrite Ht; vm_compute; reflexivity | vm_compute; reflexivity].
Defined.

(** The target of a lot is a rounded product: for a lot bought at 100 with
    a target of 10 percent it is the double above 110, which a high of 110
    does not reach. *)
Remark target_of_100_at_10_percent_is_above_110 :
  geb (ofZ 110) (ofZ 100 * (ofZ 1 + ofZ 10 / ofZ 100)) = false
  /\ ltb (ofZ 110) (ofZ 100 * (ofZ 1 + ofZ 10 / ofZ 100)) = true.
Proof. split; vm_compute; reflexivity. Qed.

(** C2: in LIFO mode the sell check of a day closes exactly the open lots
    whose own target, [buyPrice * (1 + targetPercent / 100)] rounded as the
    code computes it, is at most the day's high, each at its own target
    and in entry order; the other lots stay open, unchanged.  Exits are
    not last-in-first-out: in the run of [twoLotHistory] the younger lot,
    with the lower target, is closed on a day on which the older lot stays
    open. *)
Theorem lifo_closes_lots_at_own_targets :
  (forall symbol candles initialCapital perTradeAmount targetProfitPercent
          avgLevels n,
      let run := simAfter symbol candles initialCapital perTradeAmount LIFO
                   targetProfitPercent avgLevels in
      let day := at_ candles (20 + n) in
      let lots := internalOpenPositions (run n) in
      let target pos :=
        p_buyPrice pos * (ofZ 1 + p_targetPercent pos / ofZ 100) in
      let reaches pos := geb (c_high day) (target pos) in
      let closed := filter reaches lots in
      let kept := filter (fun pos => negb (reaches pos)) lots in
      let s1 := afterSells (run n) (checkSells symbol LIFO day (run n)) in
      trades (run (Datatypes.S n))
      = trades (run n)
        ++ map (fun pos =>
                  mkTrade symbol (p_buyDate pos) (p_buyPrice pos) (c_date day)
                    (target pos) (p_buyNumber pos) (p_targetPercent pos)
                    ((target pos - p_buyPrice pos) * p_quantity pos)
                    (((target pos - p_buyPrice pos) / p_buyPrice pos) * ofZ 100)
                    (holdingDaysOf (p_buyDate pos) (c_date day)))
             closed
      /\ (exists ledgerEntry entryActivities,
            dailyLog (run (Datatypes.S n)) = dailyLog (run n) ++ [ledgerEntry]
            /\ d_date ledgerEntry = c_date day
            /\ d_activities ledgerEntry
               = map (fun pos =>
                        mkActivity symbol SELL (target pos) (p_quantity pos)
                          (p_quantity pos * target pos) (p_buyNumber pos)
                          (Some ((target pos - p_buyPrice pos) * p_quantity pos))
                          (c_date day)
                          (Some (holdingDaysOf (p_buyDate pos) (c_date day)))
                          (Some (p_buyDate pos)))
                   closed
                 ++ entryActivities
            /\ Forall (fun a => a_type a <> SELL) entryActivities)
      /\ cash s1
         = fold_left (fun cash pos => cash + p_quantity pos * target pos)
             closed (cash (run n))
      /\ internalOpenPositions s1 = kept
      /\ (internalOpenPositions (run (Datatypes.S n)) = kept
          \/ exists lot,
               internalOpenPositions (run (Datatypes.S n)) = kept ++ [lot]
               /\ p_buyDate lot = c_date day))
  /\ (exists n older younger,
         let run := simAfter "TEST" twoLotHistory (ofZ 1000) (Some (ofZ 100))
                      LIFO (ofZ 6) (ofZ 3) in
         let target pos :=
           p_buyPrice pos * (ofZ 1 + p_targetPercent pos / ofZ 100) in
         internalOpenPositions (run n) = [older; younger]
         /\ (p_buyDate older < p_buyDate younger)%Z
         /\ ltb (target younger) (target older) = true
         /\ geb (c_high (at_ twoLotHistory (20 + n))) (target younger) = true
         /\ geb (c_high (at_ twoLotHistory (20 + n))) (target older) = false
         /\ internalOpenPositions (run (Datatypes.S n)) = [older]
         /\ map t_buyDate (trades (run (Datatypes.S n))) = [p_buyDate younger]).
Proof.
  split.
  - intros symbol candles initialCapital perTradeAmount targetProfitPercent
      avgLevels n run day lots target reaches closed kept s1.
    assert (Hx : checkSells symbol LIFO day (run n)
                 = forEachIdx
                     (fun acc pos j =>
                        if reaches pos
                        then sellPosition symbol day (target pos) acc pos j
                        else acc)
                     (internalOpenPositions (run n)) 0%nat
                     (mkSells (trades (run n)) [] (cash (run n)) [])).
    { unfold checkSells.
      replace (match internalOpenPositions (run n) with
               | [] | _ =>
                   forEachIdx (sellIfTarget symbol day)
                     (internalOpenPositions (run n)) 0%nat
                     (mkSells (trades (run n)) [] (cash (run n)) [])
               end)
        with (forEachIdx (sellIfTarget symbol day)
                (internalOpenPositions (run n)) 0%nat
                (mkSells (trades (run n)) [] (cash (run n)) []))
        by (destruct (internalOpenPositions (run n)); reflexivity).
      apply double_lifo_loop. }
    destruct (double_afterSells symbol day reaches target (run n))
      as (Ht & Ha & Hc & Hps & Hc1 & _).
    rewrite <- Hx in Ht, Ha, Hc, Hps, Hc1.
    fold s1 lots closed kept in Ht, Ha, Hc, Hps, Hc1.
    destruct (double_processDay_records symbol candles initialCapital
                perTradeAmount LIFO targetProfitPercent avgLevels
                (run n) (20 + n))
      as (Ht' & (e & acts & Hlog & Hdate & _ & Hacts & Hnot) & Hend).
    fold day s1 in Ht', Hlog, Hdate, Hacts, Hend.
    unfold run at 1 3 6 7. rewrite !double_simAfter_S. fold run.
    split; [rewrite Ht'; exact Ht |].
    split.
    { exists e, acts. split; [exact Hlog |]. split; [exact Hdate |].
      split; [rewrite Hacts, Ha; reflexivity | exact Hnot]. }
    split; [rewrite Hc1; exact Hc |].
    split; [exact Hps |].
    rewrite Hps in Hend.
    destruct Hend as [(Hsame & _) | (lot & Hlot & Hd & _)];
      [left; exact Hsame | right; exists lot; split; assumption].
  - exists 22%nat.
    let l := eval vm_compute in
      (internalOpenPositions
         (simAfter "TEST" twoLotHistory (ofZ 1000) (Some (ofZ 100)) LIFO
            (ofZ 6) (ofZ 3) 22)) in
    match l with
    | [?older; ?younger] => exists older, younger
    end.
    cbv zeta. repeat split; vm_compute; reflexivity.
Qed.

(** ** The entry check *)

Lemma ltb_not_nan x y : ltb x y = true -> x <> S754_nan.
Proof. intros H ->. discriminate H. Qed.

Lemma leb_not_nan x y : leb x y = true -> y <> S754_nan.
Proof. intros H ->. destruct x; discriminate H. Qed.

(** The funds test compares the cash with a rounded product: three
    tenths do not pay for three shares at one tenth, and
    2.0999999999999996 pays for three at seven tenths. *)
Remark funds_test_is_on_the_rounded_cost :
  geb (decimal 3 1) (ofZ 3 * decimal 1 1) = false
  /\ geb (decimal 20999999999999996 16) (ofZ 3 * decimal 7 1) = true.
Proof. split; vm_compute; reflexivity. Qed.

Section DoubleEntry.

Variable symbol : string.
Variable candles : list DailyCandle.
Variable initialCapital : number.
Variable perTradeAmount : option number.
Variable exitStrategy : ExitStrategy.
Variable targetProfitPercent : number.
Variable avgLevels : number.

Local Abbreviation step :=
  (processDay symbol candles initialCapital perTradeAmount exitStrategy
     targetProfitPercent avgLevels).
Local Abbreviation run :=
  (simAfter symbol candles initialCapital perTradeAmount exitStrategy
     targetProfitPercent avgLevels).

(** A 20-day high that a bar exceeds is the greatest high of the window. *)
Lemma double_window_high i x :
  (20 <= i <= length candles)%nat ->
  gtb x (twentyDayHighAt candles i) = true ->
  (exists j, (i - 20 <= j < i)%nat
             /\ twentyDayHighAt candles i = c_high (at_ candles j))
  /\ (forall j, (i - 20 <= j < i)%nat ->
        leb (c_high (at_ candles j)) (twentyDayHighAt candles i) = true).
Proof.
  intros Hi Hgt. apply ltb_not_nan in Hgt.
  assert (Hslice : (i - 20 <= i <= length candles)%nat) by lia.
  assert (Hne : map c_high (slice (i - 20) i candles) <> []).
  { assert (Hin : In (at_ candles (i - 20)) (slice (i - 20) i candles)).
    { apply (double_slice_iff candles _ _ _ Hslice).
      exists (i - 20)%nat. split; [lia | reflexivity]. }
    intro Hnil. apply (in_map c_high) in Hin. rewrite Hnil in Hin.
    exact Hin. }
  destruct (Math_max_greatest _ Hne) as [Hnan | (Hall & Hin)];
    [contradiction |].
  fold (twentyDayHighAt candles i) in Hall, Hin.
  split.
  - apply in_map_iff in Hin. destruct Hin as (c & Hc & Hin).
    apply (double_slice_iff candles _ _ _ Hslice) in Hin.
    destruct Hin as (j & Hj & ->). exists j. split; [exact Hj |].
    symmetry. exact Hc.
  - intros j Hj. apply Hall. apply in_map.
    apply (double_slice_iff candles _ _ _ Hslice).
    exists j. split; [exact Hj | reflexivity].
Qed.

(** A 20-day low that a bar touches is the least low of the window. *)
Lemma double_window_low i x :
  (20 <= i <= length candles)%nat ->
  leb x (twentyDayLowAt candles i) = true ->
  (exists j, (i - 20 <= j < i)%nat
             /\ twentyDayLowAt candles i = c_low (at_ candles j))
  /\ (forall j, (i - 20 <= j < i)%nat ->
        leb (twentyDayLowAt candles i) (c_low (at_ candles j)) = true).
Proof.
  intros Hi Hle. apply leb_not_nan in Hle.
  assert (Hslice : (i - 20 <= i <= length candles)%nat) by lia.
  assert (Hne : map c_low (slice (i - 20) i candles) <> []).
  { assert (Hin : In (at_ candles (i - 20)) (slice (i - 20) i candles)).
    { apply (double_slice_iff candles _ _ _ Hslice).
      exists (i - 20)%nat. split; [lia | reflexivity]. }
    intro Hnil. apply (in_map c_low) in Hin. rewrite Hnil in Hin.
    exact Hin. }
  destruct (Math_min_smallest _ Hne) as [Hnan | (Hall & Hin)];
    [contradiction |].
  fold (twentyDayLowAt candles i) in Hall, Hin.
  split.
  - apply in_map_iff in Hin. destruct Hin as (c & Hc & Hin).
    apply (double_slice_iff candles _ _ _ Hslice) in Hin.
    destruct Hin as (j & Hj & ->). exists j. split; [exact Hj |].
    symmetry. exact Hc.
  - intros j Hj. apply Hall. apply in_map.
    apply (double_slice_iff candles _ _ _ Hslice).
    exists j. split; [exact Hj | reflexivity].
Qed.

(** C3: a BUY activity logged on day [i = 20 + n] is priced at the greatest
    high of [bars[i-20..i-1]], which the high of the day exceeds while the
    stock is tracked (from an earlier day, or because the low of the day is
    at most the least low of the same bars); its quantity is the
    [Math.floor] of the rounded quotient [perTradeAmount / entryPrice], an
    integer [k] with [k <= quotient < k + 1], positive and paid for by the
    cash; the new lot carries the flat [targetProfitPercent]; and the
    purchase happens only with the sequence number below
    [maxPyramidLevels], which it increments. *)
Theorem buy_is_at_breakout_level n ledgerEntry a :
  let i := (20 + n)%nat in
  let day := at_ candles i in
  let s1 := afterSells (run n) (checkSells symbol exitStrategy day (run n)) in
  let amount :=
    match perTradeAmount with
    | Some perTrade => perTrade
    | None => initialCapital / ofZ 50
    end in
  (i < length candles)%nat ->
  dailyLog (run (Datatypes.S n)) = dailyLog (run n) ++ [ledgerEntry] ->
  In a (d_activities ledgerEntry) ->
  a_type a = BUY ->
  (exists j, (i - 20 <= j < i)%nat /\ a_price a = c_high (at_ candles j))
  /\ (forall j, (i - 20 <= j < i)%nat ->
        leb (c_high (at_ candles j)) (a_price a) = true)
  /\ gtb (c_high day) (a_price a) = true
  /\ (isTracking s1 = true
      \/ exists j, (i - 20 <= j < i)%nat
                   /\ leb (c_low day) (c_low (at_ candles j)) = true
                   /\ forall j', (i - 20 <= j' < i)%nat ->
                        leb (c_low (at_ candles j)) (c_low (at_ candles j'))
                        = true)
  /\ a_quantity a = Math_floor (amount / a_price a)
  /\ (forall s m e,
        amount / a_price a = S754_finite s m e ->
        exists k : Z,
          a_quantity a = binary_normalize 53 1024 k 0 s
          /\ (inject_Z k <= valueOf (amount / a_price a)%D)%Q
          /\ (valueOf (amount / a_price a)%D < inject_Z k + 1)%Q)
  /\ gtb (a_quantity a) (ofZ 0) = true
  /\ geb (cash s1) (a_quantity a * a_price a) = true
  /\ a_amount a = a_quantity a * a_price a
  /\ a_date a = c_date day
  /\ ltb (currentBuyNumber s1) avgLevels = true
  /\ a_buyNumber a = currentBuyNumber s1 + ofZ 1
  /\ currentBuyNumber (run (Datatypes.S n)) = currentBuyNumber s1 + ofZ 1
  /\ internalOpenPositions (run (Datatypes.S n))
     = internalOpenPositions s1
       ++ [mkPosition (c_date day) (a_price a) (a_quantity a)
             (currentBuyNumber s1 + ofZ 1) targetProfitPercent]
  /\ cash (run (Datatypes.S n)) = cash s1 - a_quantity a * a_price a.
Proof.
  intros i day s1 amount Hi Hlog Hin Hbuy.
  rewrite double_simAfter_S in *. fold i in Hlog |- *.
  rewrite double_processDay_eq in *. fold day s1 in Hlog |- *.
  set (r := checkEntry symbol initialCapital perTradeAmount
              targetProfitPercent avgLevels day (twentyDayHighAt candles i)
              (twentyDayLowAt candles i) s1) in *.
  destruct (double_endOfDay_effect day
              (x_activities (checkSells symbol exitStrategy day (run n)) ++ snd r)
              (fst r))
    as (Hc & Hps & _ & Hbn & _ & e & Hlog' & _ & _ & Hacts).
  rewrite Hc, Hps, Hbn. rewrite Hlog' in Hlog.
  destruct (double_checkEntry_effect symbol initialCapital perTradeAmount
              targetProfitPercent avgLevels day (twentyDayHighAt candles i)
              (twentyDayLowAt candles i) s1) as (_ & Hlog1 & Hcases).
  fold r amount in Hlog1, Hcases. rewrite Hlog1 in Hlog.
  destruct (double_checkSells_records symbol exitStrategy day (run n))
    as (Hsell & _ & _ & Hlog2).
  fold s1 in Hlog2. rewrite Hlog2 in Hlog. apply app_inv_head in Hlog.
  injection Hlog as <-. rewrite Hacts in Hin.
  apply in_app_or in Hin. destruct Hin as [Hin | Hin].
  { rewrite Forall_forall in Hsell. apply Hsell in Hin. congruence. }
  destruct Hcases as [(_ & _ & Hnone) | [Hbought | Hskip]].
  { rewrite Hnone in Hin. contradiction. }
  2:{ destruct Hskip as (_ & _ & _ & _ & _ & _ & _ & _ & _ & Hact).
      rewrite Hact in Hin. destruct Hin as [<- | []]. discriminate Hbuy. }
  destruct Hbought
    as (Hq & Hcash & Hlevel & Hhigh & Harmed & Hlots & Hcash' & Hnum & _ & Hact).
  rewrite Hact in Hin. destruct Hin as [<- | []].
  cbn [a_price a_quantity a_buyNumber a_amount a_date].
  destruct (double_window_high i (c_high day)) as (Hmax & Hall);
    [lia | exact Hhigh |].
  split; [exact Hmax |]. split; [exact Hall |].
  split; [exact Hhigh |].
  split.
  { destruct Harmed as [Hlow | Htr]; [right | left; exact Htr].
    destruct (double_window_low i (c_low day)) as ((j & Hj & Hmin) & Hleast);
      [lia | exact Hlow |].
    exists j. split; [exact Hj |]. rewrite <- Hmin.
    split; [exact Hlow | exact Hleast]. }
  split; [reflexivity |].
  split.
  { intros s m e0 Hfin. rewrite Hfin. apply Math_floor_finite. }
  repeat split; assumption.
Qed.

(** C8, as the code has it: on a breakout day, with the sequence number
    below the limit, when the computed quantity is positive and the cash is
    less than [quantity * entryPrice], the day logs exactly one activity
    after its sells, a SKIPPED one at the breakout price with quantity and
    amount 0; no lot is created and the cash and the trades are as the
    sells left them; the sequence number is incremented and tracking is
    cleared.  The breakout price is the greatest high of the 20 bars
    before.  When the computed quantity is not positive (0 included) the
    day logs nothing but its sells, with the same state.  [s1] is the state
    when the entry check runs, after the sells of the day. *)
Theorem insufficient_cash_is_skipped s i :
  let day := at_ candles i in
  let twentyDayHigh := twentyDayHighAt candles i in
  let s1 := afterSells s (checkSells symbol exitStrategy day s) in
  let amount :=
    match perTradeAmount with
    | Some perTrade => perTrade
    | None => initialCapital / ofZ 50
    end in
  let quantity := Math_floor (amount / twentyDayHigh) in
  let s' := step s i in
  (20 <= i < length candles)%nat ->
  (leb (c_low day) (twentyDayLowAt candles i) = true \/ isTracking s1 = true) ->
  gtb (c_high day) twentyDayHigh = true ->
  ltb (currentBuyNumber s1) avgLevels = true ->
  ((exists j, (i - 20 <= j < i)%nat
              /\ twentyDayHigh = c_high (at_ candles j))
   /\ forall j, (i - 20 <= j < i)%nat ->
        leb (c_high (at_ candles j)) twentyDayHigh = true)
  /\ (gtb quantity (ofZ 0) = true ->
      ltb (cash s1) (quantity * twentyDayHigh) = true ->
      cash s' = cash s1
      /\ internalOpenPositions s' = internalOpenPositions s1
      /\ trades s' = trades s1
      /\ currentBuyNumber s' = currentBuyNumber s1 + ofZ 1
      /\ isTracking s' = false
      /\ exists ledgerEntry sells,
           dailyLog s' = dailyLog s ++ [ledgerEntry]
           /\ d_cash ledgerEntry = cash s1
           /\ d_activities ledgerEntry
              = sells
                ++ [mkActivity symbol SKIPPED twentyDayHigh (ofZ 0) (ofZ 0)
                      (currentBuyNumber s1 + ofZ 1) None (c_date day) None
                      None]
           /\ Forall (fun a => a_type a = SELL) sells)
  /\ (gtb quantity (ofZ 0) = false ->
      cash s' = cash s1
      /\ internalOpenPositions s' = internalOpenPositions s1
      /\ trades s' = trades s1
      /\ currentBuyNumber s' = currentBuyNumber s1 + ofZ 1
      /\ isTracking s' = false
      /\ exists ledgerEntry,
           dailyLog s' = dailyLog s ++ [ledgerEntry]
           /\ d_cash ledgerEntry = cash s1
           /\ Forall (fun a => a_type a = SELL) (d_activities ledgerEntry)).
Proof.
  intros day twentyDayHigh s1 amount quantity s' Hi Harmed Hhigh Hlevel.
  split; [apply (double_window_high i (c_high day)); [lia | exact Hhigh] |].
  destruct (double_checkSells_records symbol exitStrategy day s)
    as (Hsell & _ & _ & Hlog).
  fold s1 in Hlog.
  subst s'. rewrite double_processDay_eq. fold day twentyDayHigh s1.
  assert (Hfire :
    (if leb (c_low day) (twentyDayLowAt candles i) then true
     else isTracking s1)
    && gtb (c_high day) twentyDayHigh = true).
  { apply andb_true_iff. split; [| exact Hhigh].
    destruct Harmed as [Hlow | Htr].
    - rewrite Hlow. reflexivity.
    - rewrite Htr. destruct (leb (c_low day) (twentyDayLowAt candles i));
        reflexivity. }
  unfold checkEntry, tradeAmount. rewrite Hfire, Hlevel.
  fold amount. fold quantity.
  split.
  - intros Hq Hcash.
    assert (Hnot : geb (cash s1) (quantity * twentyDayHigh) = false).
    { unfold geb, SFleb. unfold ltb, SFltb in Hcash.
      rewrite SFcompare_antisym.
      destruct (SFcompare (cash s1) (quantity * twentyDayHigh)) as [[| |] |];
        try discriminate Hcash. reflexivity. }
    rewrite Hq, Hnot, Hcash. cbn [andb fst snd].
    unfold endOfDay.
    cbn [cash internalOpenPositions trades currentBuyNumber isTracking
           dailyLog].
    repeat (split; [reflexivity |]).
    eexists. eexists. rewrite Hlog. split; [reflexivity |].
    cbn [d_cash d_activities].
    split; [reflexivity | split; [reflexivity | exact Hsell]].
  - intro Hq. rewrite Hq. cbn [andb fst snd].
    unfold endOfDay.
    cbn [cash internalOpenPositions trades currentBuyNumber isTracking
           dailyLog].
    repeat (split; [reflexivity |]).
    eexists. rewrite Hlog. split; [reflexivity |].
    cbn [d_cash d_activities]. split; [reflexivity |].
    rewrite app_nil_r. exact Hsell.
Qed.

End DoubleEntry.

(** On day 20 of [breakoutHistory] the low touches the 20-day low and the
    high breaks the 20-day high of 10: ten shares are bought at 10. *)
Lemma buy_is_at_breakout_level_witness :
  exists a,
    a_type a = BUY
    /\ a_price a = ofZ 10
    /\ a_quantity a = ofZ 10
    /\ gtb (c_high (at_ breakoutHistory 20)) (a_price a) = true
    /\ a_buyNumber a = ofZ 1.
Proof.
  let l := eval vm_compute in
    (dailyLog (simAfter "TEST" breakoutHistory (ofZ 1000) (Some (ofZ 100))
                 LIFO (ofZ 6) (ofZ 3) 1)) in
  match l with
  | [?e] =>
      match eval vm_compute in (d_activities e) with
      | [?a] =>
          exists a;
          destruct (buy_is_at_breakout_level "TEST" breakoutHistory (ofZ 1000)
                      (Some (ofZ 100)) LIFO (ofZ 6) (ofZ 3) 0%nat e a)
            as (_ & _ & Hhigh & _);
          [ vm_compute; lia | vm_compute; reflexivity | left; reflexivity
          | reflexivity
          | split; [reflexivity |]; split; [vm_compute; reflexivity |];
            split; [vm_compute; reflexivity |];
            split; [exact Hhigh | vm_compute; reflexivity] ]
      end
  end.
Defined.

(** A skipped entry does change the state: with a capital of 50 the ten
    shares at 10 of day 20 of [breakoutHistory] cannot be paid, the day logs
    one SKIPPED activity, and the sequence number goes from 0 to 1. *)
Lemma skipped_entry_changes_the_state :
  let s := initialSim (ofZ 50) in
  let s' := processDay "TEST" breakoutHistory (ofZ 50) (Some (ofZ 100)) LIFO
              (ofZ 6) (ofZ 3) s 20 in
  (exists ledgerEntry skipped,
      dailyLog s' = [ledgerEntry]
      /\ d_activities ledgerEntry = [skipped]
      /\ a_type skipped = SKIPPED)
  /\ cash s' = cash s
  /\ internalOpenPositions s' = internalOpenPositions s
  /\ currentBuyNumber s = ofZ 0
  /\ currentBuyNumber s' = ofZ 1
  /\ currentBuyNumber s' <> currentBuyNumber s.
Proof.
  cbv zeta. split.
  - eexists. eexists. split; [vm_compute; reflexivity |].
    split; vm_compute; reflexivity.
  - repeat split; try (vm_compute; reflexivity). vm_compute. discriminate.
Qed.

(** With a capital of 50 the ten shares at 10 cannot be paid: the day logs
    one SKIPPED activity, the cash stays 50 and the sequence number is 1. *)
Lemma insufficient_cash_is_skipped_witness :
  let s := initialSim (ofZ 50) in
  let s' := processDay "TEST" breakoutHistory (ofZ 50) (Some (ofZ 100)) LIFO
              (ofZ 6) (ofZ 3) s 20 in
  cash s' = ofZ 50
  /\ internalOpenPositions s' = []
  /\ currentBuyNumber s' = ofZ 1
  /\ isTracking s' = false.
Proof.
  intros s s'.
  destruct (insufficient_cash_is_skipped "TEST" breakoutHistory (ofZ 50)
              (Some (ofZ 100)) LIFO (ofZ 6) (ofZ 3) s 20%nat)
    as (_ & Hskip & _).
  - vm_compute. lia.
  - left. vm_compute. reflexivity.
  - vm_compute. reflexivity.
  - vm_compute. reflexivity.
  - destruct Hskip as (Hcash & Hlots & _ & Hnum & Htr & _).
    + vm_compute. reflexivity.
    + vm_compute. reflexivity.
    + fold s' in Hcash, Hlots, Hnum, Htr.
      split; [rewrite Hcash; vm_compute; reflexivity |].
      split; [rewrite Hlots; vm_compute; reflexivity |].
      split; [rewrite Hnum; vm_compute; reflexivity | exact Htr].
Defined.

End Binary64.
